(** * Multi-agent handoff examples: chat-context truncation, handoff and
      session state

    A shallow embedding of the [BaseAgent] helpers and the tool operations
    of [examples/revenue_experiments/customer_support_agent.py] and
    [examples/revenue_experiments/real_estate_agent.py].

    Python values are modelled as follows:
    - [Optional[str]] is [option string]; its truthiness is "set and not
      the empty string";
    - [Optional[int]] is [option Z]; its truthiness is "set and not zero";
    - [dict[str, _]] is a [gmap string _];
    - agent objects live in a store indexed by references, so that
      [userdata.agents], [userdata.prev_agent] and [session.current_agent]
      alias the same objects the way the Python references do;
    - a raised exception is the left summand of a sum type. *)

From Stdlib Require Import ZArith QArith Qabs.
From stdpp Require Import base strings pretty list gmap.

Set Warnings "-register-all".

Local Open Scope string_scope.
Local Open Scope list_scope.
Local Open Scope Z_scope.

(** ** Chat items ([llm.ChatItem]) *)

Module ChatCtx.

(** [ChatMessage.role]. *)
Inductive ChatRole := developer | system | user | assistant.

#[global] Instance ChatRole_eq_dec : EqDecision ChatRole.
Proof. solve_decision. Defined.

(** Modelled from the spec: the item classes of [livekit.agents.llm] are
    imported by the examples but declared outside them. An item is one of
    [message{role, content, id}], [toolCall{id, name, args}] and
    [toolResult{id, callId, value}]; [item.type] is ["message"],
    ["function_call"] or ["function_call_output"]. *)
Inductive ChatItem :=
| ChatMessage (id : string) (role : ChatRole) (content : string)
| FunctionCall (id : string) (name : string) (arguments : string)
| FunctionCallOutput (id : string) (call_id : string) (output : string).

#[global] Instance ChatItem_eq_dec : EqDecision ChatItem.
Proof. solve_decision. Defined.

Definition item_id (item : ChatItem) : string :=
  match item with
  | ChatMessage i _ _ | FunctionCall i _ _ | FunctionCallOutput i _ _ => i
  end.

(** [item.type == "message" and item.role == "system"] *)
Definition is_system_message (item : ChatItem) : bool :=
  match item with
  | ChatMessage _ system _ => true
  | _ => false
  end.

(** [item.type in ["function_call", "function_call_output"]] *)
Definition is_function_item (item : ChatItem) : bool :=
  match item with
  | FunctionCall _ _ _ | FunctionCallOutput _ _ _ => true
  | ChatMessage _ _ _ => false
  end.

(** The nested [_valid_item] of [_truncate_chat_ctx]. *)
Definition _valid_item (keep_system_message keep_function_call : bool)
    (item : ChatItem) : bool :=
  if negb keep_system_message && is_system_message item then false
  else if negb keep_function_call && is_function_item item then false
  else true.

(** The [for item in reversed(items)] loop: [rev_items] is what is left of
    the reversed input and [new_items] the list built so far. The length
    test runs after every item, appended or not, and leaves the loop. *)
Fixpoint collect_loop (valid : ChatItem -> bool) (keep_last_n_messages : Z)
    (rev_items new_items : list ChatItem) : list ChatItem :=
  match rev_items with
  | [] => new_items
  | item :: rest =>
      let new_items' :=
        if valid item then new_items ++ [item] else new_items in
      if Z.of_nat (length new_items') >=? keep_last_n_messages
      then new_items'
      else collect_loop valid keep_last_n_messages rest new_items'
  end.

(** [while new_items and new_items[0].type in [...]: new_items.pop(0)] *)
Fixpoint pop_leading_function_items (new_items : list ChatItem)
    : list ChatItem :=
  match new_items with
  | [] => []
  | item :: rest =>
      if is_function_item item then pop_leading_function_items rest
      else item :: rest
  end.

(** [BaseAgent._truncate_chat_ctx]; the defaults of the Python signature
    are [keep_last_n_messages = 6], [keep_system_message = False],
    [keep_function_call = False]. *)
Definition _truncate_chat_ctx (items : list ChatItem)
    (keep_last_n_messages : Z)
    (keep_system_message keep_function_call : bool) : list ChatItem :=
  let new_items :=
    collect_loop (_valid_item keep_system_message keep_function_call)
      keep_last_n_messages (reverse items) [] in
  let new_items := reverse new_items in
  pop_leading_function_items new_items.

(** The most recent [n] elements of a list, oldest first. *)
Definition last_n {A} (n : nat) (l : list A) : list A :=
  drop (length l - n)%nat l.

End ChatCtx.

(** ** Python string operations used by the tools *)

Module PyString.

Definition quote : string := String (Ascii.ascii_of_nat 34) EmptyString.
Definition newline : string := String (Ascii.ascii_of_nat 10) EmptyString.

(** [str.lower] on ASCII text. A [string] here is a sequence of bytes:
    the letters [A] to [Z] are lowered and every other byte is kept.
    Python lowers the letters outside ASCII as well, two of them to text
    that has an ASCII letter in it (U+212A to [k], U+0130 to [i] and
    U+0307); a [str] with such characters is outside what this function
    models. *)
Definition lower_char (c : Ascii.ascii) : Ascii.ascii :=
  let n := Ascii.nat_of_ascii c in
  if (65 <=? n)%nat && (n <=? 90)%nat then Ascii.ascii_of_nat (n + 32) else c.

Fixpoint lower (s : string) : string :=
  match s with
  | EmptyString => EmptyString
  | String c s' => String (lower_char c) (lower s')
  end.

(** [sub in s] *)
Fixpoint contains (sub s : string) : bool :=
  String.prefix sub s
  || match s with
     | EmptyString => false
     | String _ s' => contains sub s'
     end.

Definition is_letter (c : Ascii.ascii) : bool :=
  let n := Ascii.nat_of_ascii c in
  ((65 <=? n)%nat && (n <=? 90)%nat) || ((97 <=? n)%nat && (n <=? 122)%nat).

Fixpoint all_letters (s : string) : bool :=
  match s with
  | EmptyString => true
  | String c s' => is_letter c && all_letters s'
  end.

(** A non-empty string of ASCII letters. *)
Definition is_word (s : string) : bool :=
  negb (bool_decide (s = "")) && all_letters s.

(** [sep.join(l)] *)
Definition join (sep : string) (l : list string) : string :=
  String.concat sep l.

(** Nearest integer to a non-negative rational, ties to even. *)
Definition round_half_even (q : Q) : Z :=
  let n := Qnum q in
  let d := Z.pos (Qden q) in
  let fl := n / d in
  let r := n mod d in
  if 2 * r <? d then fl
  else if d <? 2 * r then fl + 1
  else if Z.even fl then fl else fl + 1.

Definition two_digits (z : Z) : string :=
  if z <? 10 then "0" +:+ pretty z else pretty z.

(** [f"{amount:.2f}"] for the finite float that denotes [q]. *)
Definition format_2f (q : Q) : string :=
  let cents := round_half_even (Qabs q * 100)%Q in
  (if Qlt_le_dec q 0%Q then "-" else "")
    +:+ pretty (cents / 100) +:+ "." +:+ two_digits (cents mod 100).

Definition three_digits (z : Z) : string :=
  if z <? 10 then "00" +:+ pretty z
  else if z <? 100 then "0" +:+ pretty z
  else pretty z.

Fixpoint group_thousands (fuel : nat) (n : Z) : string :=
  match fuel with
  | O => pretty n
  | S fuel' =>
      if n <? 1000 then pretty n
      else group_thousands fuel' (n / 1000) +:+ ","
             +:+ three_digits (n mod 1000)
  end.

(** [f"{z:,}"] for an [int]. *)
Definition format_thousands (z : Z) : string :=
  (if z <? 0 then "-" else "")
    +:+ group_thousands (Z.to_nat (Z.log2 (Z.abs z))) (Z.abs z).

End PyString.

(** ** Agents, the session and the tool monad *)

Module Voice.
Import ChatCtx.

(** Values handed to [yaml.dump]. A [dict] literal is kept as the list of
    its entries in source order; a member of a [str]-mixin [Enum] is kept
    with its class name and its value. A Python [float] is kept as the
    rational it denotes. *)
Inductive PyValue :=
| PyNone
| PyBool (b : bool)
| PyInt (z : Z)
| PyFloat (q : Q)
| PyStr (s : string)
| PyEnum (cls value : string)
| PyList (l : list PyValue)
| PyDict (entries : list (string * PyValue)).

(** [d[k]] on a dict literal, [None] elsewhere. *)
Definition py_get (k : string) (d : PyValue) : option PyValue :=
  match d with
  | PyDict entries =>
      match list_find (λ kv, bool_decide (fst kv = k)) entries with
      | Some (_, kv) => Some (snd kv)
      | None => None
      end
  | _ => None
  end.

(** [d[k1][k2]...] *)
Fixpoint py_path (ks : list string) (d : PyValue) : option PyValue :=
  match ks with
  | [] => Some d
  | k :: ks' => py_get k d ≫= py_path ks'
  end.

(** The [str] values inside a value: the string itself, the strings of
    the members of a list and of the values of a dict, at any depth. *)
Fixpoint py_strings (v : PyValue) : list string :=
  match v with
  | PyStr s => [s]
  | PyList l =>
      (fix members (l : list PyValue) : list string :=
         match l with
         | [] => []
         | x :: l' => py_strings x ++ members l'
         end) l
  | PyDict entries =>
      (fix values (entries : list (string * PyValue)) : list string :=
         match entries with
         | [] => []
         | kv :: entries' => py_strings (snd kv) ++ values entries'
         end) entries
  | _ => []
  end.

Definition opt_str (o : option string) : PyValue :=
  match o with Some s => PyStr s | None => PyNone end.
Definition opt_int (o : option Z) : PyValue :=
  match o with Some z => PyInt z | None => PyNone end.
Definition opt_float (o : option Q) : PyValue :=
  match o with Some q => PyFloat q | None => PyNone end.

(** Truthiness of [Optional[str]] and of [Optional[int]]. *)
Definition truthy_str (o : option string) : bool :=
  match o with Some s => negb (bool_decide (s = "")) | None => false end.
Definition truthy_int (o : option Z) : bool :=
  match o with Some z => negb (z =? 0)%Z | None => false end.

(** [x or "unknown"] for an [Optional[str]] [x]. *)
Definition or_unknown (o : option string) : PyValue :=
  if truthy_str o then opt_str o else PyStr "unknown".

(** [f"{x}"] for an [Optional[str]] [x]. *)
Definition format_opt_str (o : option string) : string :=
  match o with Some s => s | None => "None" end.

(** An [Optional[str]] set to a non-empty string other than
    ["unknown"]. *)
Definition known_str (o : option string) : Prop :=
  ∃ v, o = Some v ∧ v ≠ "" ∧ v ≠ "unknown".

(** References to agent objects. *)
Definition AgentRef := nat.

Inductive LLMModel := TextLLM | RealtimeModel.

Inductive ToolChoice := tool_choice_auto | tool_choice_none.

(** What the examples use of an [Agent] object: its class name
    ([self.__class__.__name__]), its own [llm] if it was given one, and
    the items of its [chat_ctx]. *)
Record Agent := {
  class_name : string;
  agent_llm : option LLMModel;
  chat_ctx : list ChatItem;
}.

(** Modelled from the spec: [Agent.update_chat_ctx] is declared outside
    the examples. The entry hook commits the updated buffer: the agent's
    items become the list it is given, as it is. *)
Definition update_chat_ctx (items : list ChatItem) (a : Agent) : Agent :=
  {| class_name := class_name a; agent_llm := agent_llm a;
     chat_ctx := items |}.

(** The [AgentSession] as the examples see it: [session.userdata],
    [session.current_agent], [session.llm], the agent objects, and the
    replies requested through [session.generate_reply]. *)
Record Session (U : Type) := {
  userdata : U;
  current_agent : AgentRef;
  session_llm : option LLMModel;
  objects : gmap AgentRef Agent;
  reply_requests : list ToolChoice;
}.
Arguments userdata {U} _.
Arguments current_agent {U} _.
Arguments session_llm {U} _.
Arguments objects {U} _.
Arguments reply_requests {U} _.

Definition set_userdata {U} (u : U) (s : Session U) : Session U :=
  {| userdata := u; current_agent := current_agent s;
     session_llm := session_llm s; objects := objects s;
     reply_requests := reply_requests s |}.

Definition set_current_agent {U} (a : AgentRef) (s : Session U) : Session U :=
  {| userdata := userdata s; current_agent := a;
     session_llm := session_llm s; objects := objects s;
     reply_requests := reply_requests s |}.

Definition set_objects {U} (o : gmap AgentRef Agent) (s : Session U)
    : Session U :=
  {| userdata := userdata s; current_agent := current_agent s;
     session_llm := session_llm s; objects := o;
     reply_requests := reply_requests s |}.

Definition generate_reply {U} (c : ToolChoice) (s : Session U) : Session U :=
  {| userdata := userdata s; current_agent := current_agent s;
     session_llm := session_llm s; objects := objects s;
     reply_requests := reply_requests s ++ [c] |}.

(** The chat items of the agent a reference points to. References held
    by a session always point to an object; the empty list stands for a
    reference that does not. *)
Definition items_of {U} (r : AgentRef) (s : Session U) : list ChatItem :=
  match objects s !! r with Some a => chat_ctx a | None => [] end.

(** Exceptions raised by the modelled code: [dict.__getitem__] on a
    missing key, and the conversion of an [int] that is too large for a
    [float] or of an infinite [float] to an [int]. For the agent registry
    the first is the configuration error the specification calls
    [UnknownAgentError]. *)
Inductive Exception :=
| KeyError (key : string)
| OverflowError.

(** What a tool operation returns: a plain string, or an agent together
    with a string. *)
Inductive ToolResult :=
| Narrated (msg : string)
| Handoff (next_agent : AgentRef) (msg : string).

(** Code that reads and mutates [context.userdata] through the session
    and may raise. *)
Definition Run (U A : Type) : Type := Session U → Exception + (A * Session U).

Definition ret {U A} (a : A) : Run U A := λ s, inr (a, s).
Definition bind {U A B} (m : Run U A) (k : A → Run U B) : Run U B :=
  λ s, match m s with
       | inl e => inl e
       | inr (a, s') => k a s'
       end.
Definition raise {U A} (e : Exception) : Run U A := λ _, inl e.
Definition get_userdata {U} : Run U U := λ s, inr (userdata s, s).
Definition put_userdata {U} (u : U) : Run U unit :=
  λ s, inr (tt, set_userdata u s).
Definition modify_userdata {U} (f : U → U) : Run U unit :=
  λ s, inr (tt, set_userdata (f (userdata s)) s).
Definition when {U} (b : bool) (m : Run U unit) : Run U unit :=
  if b then m else ret tt.

(** [x ← m; k] and [m;; k] sequence such code. *)
#[global] Instance Run_ret {U} : MRet (Run U) := λ A a, ret a.
#[global] Instance Run_bind {U} : MBind (Run U) := λ A B k m, bind m k.

End Voice.

(** ** [BaseAgent]: entry hook, handoff and truncation

    The class is written out identically in both example files; it is
    embedded once, over what it uses of the [UserData] dataclass. *)

Module BaseAgent.
Import ChatCtx Voice.

(** What [BaseAgent] touches of [UserData]: the [agents] registry, the
    [prev_agent] reference and [summarize]. [yaml.dump] belongs to PyYAML
    and is an argument of [summarize]. *)
Class UserDataLike (U : Type) := {
  ud_agents : U → gmap string AgentRef;
  ud_prev_agent : U → option AgentRef;
  ud_set_prev_agent : option AgentRef → U → U;
  ud_summarize : (PyValue → string) → U → string;
}.

(** [isinstance(llm_model, llm.RealtimeModel)] *)
Definition is_realtime (llm_model : option LLMModel) : bool :=
  match llm_model with Some RealtimeModel => true | _ => false end.

(** [self.llm or self.session.llm] *)
Definition llm_or (agent_llm session_llm : option LLMModel)
    : option LLMModel :=
  match agent_llm with Some m => Some m | None => session_llm end.

(** The body of the [if userdata.prev_agent and not isinstance(...)]
    branch of [on_enter]: truncate the previous agent's items with
    [keep_function_call=True], drop those whose id is already in
    [chat_ctx], extend [chat_ctx] with the rest. *)
Definition carry_over (chat_ctx prev_items : list ChatItem)
    : list ChatItem :=
  let items_copy := _truncate_chat_ctx prev_items 6 false true in
  let existing_ids : gset string := list_to_set (item_id <$> chat_ctx) in
  let items_copy :=
    filter (λ item, item_id item ∉ existing_ids) items_copy in
  chat_ctx ++ items_copy.

(** The items [carry_over] appends. *)
Definition carried (chat_ctx prev_items : list ChatItem) : list ChatItem :=
  filter
    (λ item, item_id item ∉@{gset string} list_to_set (item_id <$> chat_ctx))
    (_truncate_chat_ctx prev_items 6 false true).

(** Modelled from the spec: [ChatContext.add_message] is declared outside
    the examples; it appends one message, whose id the caller of this
    model supplies. *)
Definition add_message (id : string) (role : ChatRole) (content : string)
    (chat_ctx : list ChatItem) : list ChatItem :=
  chat_ctx ++ [ChatMessage id role content].

(** The text of the system message of [on_enter]. *)
Definition enter_message `{UserDataLike U} (yaml_dump : PyValue → string)
    (agent_name : string) (userdata : U) : string :=
  "You are " +:+ agent_name +:+ " agent. Current user data is "
    +:+ ud_summarize yaml_dump userdata.

(** [BaseAgent.on_enter] of the agent [self] points to. [new_id] is the id
    given to the appended system message. [None] stands for a receiver
    that is not an object of the session. *)
Definition on_enter `{UserDataLike U} (yaml_dump : PyValue → string)
    (new_id : string) (self : AgentRef) (s : Session U)
    : option (Session U) :=
  me ← objects s !! self;
  let agent_name := class_name me in
  let userdata := userdata s in
  let chat_ctx := chat_ctx me in
  let llm_model := llm_or (agent_llm me) (session_llm s) in
  let chat_ctx :=
    match ud_prev_agent userdata with
    | Some prev =>
        if negb (is_realtime llm_model)
        then carry_over chat_ctx (items_of prev s)
        else chat_ctx
    | None => chat_ctx
    end in
  let chat_ctx :=
    add_message new_id system (enter_message yaml_dump agent_name userdata)
      chat_ctx in
  let s := set_objects (<[self := update_chat_ctx chat_ctx me]> (objects s)) s in
  Some (generate_reply tool_choice_none s).

(** [BaseAgent._transfer_to_agent] *)
Definition _transfer_to_agent `{UserDataLike U} (name : string)
    : Run U ToolResult :=
  λ s,
    let userdata := userdata s in
    let current_agent := current_agent s in
    match ud_agents userdata !! name with
    | None => inl (KeyError name)
    | Some next_agent =>
        inr (Handoff next_agent ("Transferring to " +:+ name +:+ "."),
             set_userdata (ud_set_prev_agent (Some current_agent) userdata) s)
    end.

(** Modelled from the spec: the Session Driver is outside the examples.
    A plain string is narrated with no state transition; an
    [(Agent, string)] pair makes the driver swap the active agent and
    invoke its entry hook. *)
Definition apply_tool_result `{UserDataLike U}
    (yaml_dump : PyValue → string) (new_id : string) (r : ToolResult)
    (s : Session U) : option (Session U) :=
  match r with
  | Narrated _ => Some s
  | Handoff next_agent _ =>
      on_enter yaml_dump new_id next_agent (set_current_agent next_agent s)
  end.

(** Modelled from the spec: one tool operation of a turn, run by the
    Session Driver on the session and followed by what its result asks
    for. [None] stands for a turn the raised exception ends. *)
Definition run_tool `{UserDataLike U} (yaml_dump : PyValue → string)
    (new_id : string) (tool : Run U ToolResult) (s : Session U)
    : option (Session U) :=
  match tool s with
  | inl _ => None
  | inr (r, s') => apply_tool_result yaml_dump new_id r s'
  end.

(** What is assumed of [yaml.dump] where a statement is about the text
    it returns: a [str] value that is a word is written out letter for
    letter, plain or between quotes. *)
Definition writes_words (yaml_dump : PyValue → string) : Prop :=
  ∀ (d : PyValue) (w : string),
    PyString.is_word w = true → w ∈ py_strings d →
    PyString.contains w (yaml_dump d) = true.

End BaseAgent.

(** ** [customer_support_agent.py]

    As the file is written Python does not compile it: the [def] of
    [InitialSupport.identify_issue] and that of
    [ManagerAgent.resolve_escalated_issue] list a parameter without a
    default after parameters with one, which is a [SyntaxError], so the
    module cannot be imported and none of its functions can be called.
    The definitions below are the bodies of the functions; what is proved
    of them is what the statements do on the values their parameters
    name. *)

Module CustomerSupport.
Import ChatCtx Voice BaseAgent PyString.

(** One entry of [PRODUCT_DATABASE]; a key an entry does not have is
    [None]. *)
Record Product := {
  id : string;
  name : string;
  price : Q;
  warranty : option string;
  return_period_days : option Z;
  billing_cycle : option string;
  categories : list string;
}.

Definition PRODUCT_DATABASE : list Product :=
  [ {| id := "P001"; name := "Premium Wireless Headphones";
       price := 199.99%Q; warranty := Some "1 year limited warranty";
       return_period_days := Some 30; billing_cycle := None;
       categories := ["Electronics"; "Audio"] |};
    {| id := "P002"; name := "Ultra HD Smart TV 55" +:+ quote;
       price := 699.99%Q; warranty := Some "2 year limited warranty";
       return_period_days := Some 30; billing_cycle := None;
       categories := ["Electronics"; "Television"] |};
    {| id := "P003"; name := "Ergonomic Office Chair";
       price := 249.99%Q; warranty := Some "5 year limited warranty";
       return_period_days := Some 60; billing_cycle := None;
       categories := ["Furniture"; "Office"] |};
    {| id := "P004"; name := "Premium Subscription";
       price := 12.99%Q; warranty := None;
       return_period_days := None; billing_cycle := Some "monthly";
       categories := ["Services"; "Subscription"] |} ].

(** The three entries of [TECHNICAL_KNOWLEDGE_BASE]. *)
Definition kb_headphones_not_connecting : string :=
  "If your headphones aren't connecting via Bluetooth: "
  +:+ "1. Ensure Bluetooth is enabled on your device. "
  +:+ "2. Put the headphones in pairing mode (usually by holding the power button). "
  +:+ "3. Make sure the headphones are charged. "
  +:+ "4. If previously paired, try removing the device from your Bluetooth settings and reconnect. "
  +:+ "5. Reset the headphones by holding the power button for 10 seconds.".

Definition kb_tv_no_picture : string :=
  "If your TV has power but no picture: "
  +:+ "1. Check that the correct input source is selected. "
  +:+ "2. Verify all cables are securely connected. "
  +:+ "3. Try unplugging the TV for 30 seconds, then plug it back in. "
  +:+ "4. If using external devices, try disconnecting them and connecting directly to TV. "
  +:+ "5. Try a factory reset through your TV settings.".

Definition kb_subscription_access_issues : string :=
  "If you're having trouble accessing your subscription content: "
  +:+ "1. Verify your account is active and subscription hasn't expired. "
  +:+ "2. Try logging out and back in. "
  +:+ "3. Clear your browser cache and cookies. "
  +:+ "4. Check if the service is experiencing an outage. "
  +:+ "5. Try accessing from a different device or browser.".

Inductive IssueType := RETURN | TECHNICAL | BILLING | OTHER.

#[global] Instance IssueType_eq_dec : EqDecision IssueType.
Proof. solve_decision. Defined.

(** The [str] value of a member. *)
Definition issue_type_value (t : IssueType) : string :=
  match t with
  | RETURN => "return"
  | TECHNICAL => "technical"
  | BILLING => "billing"
  | OTHER => "other"
  end.

Record UserData := {
  customer_name : option string;
  customer_email : option string;
  customer_phone : option string;
  order_number : option string;
  product_id : option string;
  issue_type : option IssueType;
  issue_description : option string;
  return_reason : option string;
  return_approved : bool;
  return_label_sent : bool;
  refund_amount : option Q;
  refund_approved : bool;
  escalated : bool;
  escalation_reason : option string;
  satisfaction_rating : option Z;
  agents : gmap string AgentRef;
  prev_agent : option AgentRef;
}.

Definition set_customer_name (v : option string) (u : UserData) : UserData :=
  {| customer_name := v; customer_email := customer_email u;
     customer_phone := customer_phone u; order_number := order_number u;
     product_id := product_id u; issue_type := issue_type u;
     issue_description := issue_description u;
     return_reason := return_reason u;
     return_approved := return_approved u;
     return_label_sent := return_label_sent u;
     refund_amount := refund_amount u;
     refund_approved := refund_approved u; escalated := escalated u;
     escalation_reason := escalation_reason u;
     satisfaction_rating := satisfaction_rating u; agents := agents u;
     prev_agent := prev_agent u |}.
Definition set_customer_email (v : option string) (u : UserData) : UserData :=
  {| customer_name := customer_name u; customer_email := v;
     customer_phone := customer_phone u; order_number := order_number u;
     product_id := product_id u; issue_type := issue_type u;
     issue_description := issue_description u;
     return_reason := return_reason u;
     return_approved := return_approved u;
     return_label_sent := return_label_sent u;
     refund_amount := refund_amount u;
     refund_approved := refund_approved u; escalated := escalated u;
     escalation_reason := escalation_reason u;
     satisfaction_rating := satisfaction_rating u; agents := agents u;
     prev_agent := prev_agent u |}.
Definition set_customer_phone (v : option string) (u : UserData) : UserData :=
  {| customer_name := customer_name u; customer_email := customer_email u;
     customer_phone := v; order_number := order_number u;
     product_id := product_id u; issue_type := issue_type u;
     issue_description := issue_description u;
     return_reason := return_reason u;
     return_approved := return_approved u;
     return_label_sent := return_label_sent u;
     refund_amount := refund_amount u;
     refund_approved := refund_approved u; escalated := escalated u;
     escalation_reason := escalation_reason u;
     satisfaction_rating := satisfaction_rating u; agents := agents u;
     prev_agent := prev_agent u |}.
Definition set_order_number (v : option string) (u : UserData) : UserData :=
  {| customer_name := customer_name u; customer_email := customer_email u;
     customer_phone := customer_phone u; order_number := v;
     product_id := product_id u; issue_type := issue_type u;
     issue_description := issue_description u;
     return_reason := return_reason u;
     return_approved := return_approved u;
     return_label_sent := return_label_sent u;
     refund_amount := refund_amount u;
     refund_approved := refund_approved u; escalated := escalated u;
     escalation_reason := escalation_reason u;
     satisfaction_rating := satisfaction_rating u; agents := agents u;
     prev_agent := prev_agent u |}.
Definition set_product_id (v : option string) (u : UserData) : UserData :=
  {| customer_name := customer_name u; customer_email := customer_email u;
     customer_phone := customer_phone u; order_number := order_number u;
     product_id := v; issue_type := issue_type u;
     issue_description := issue_description u;
     return_reason := return_reason u;
     return_approved := return_approved u;
     return_label_sent := return_label_sent u;
     refund_amount := refund_amount u;
     refund_approved := refund_approved u; escalated := escalated u;
     escalation_reason := escalation_reason u;
     satisfaction_rating := satisfaction_rating u; agents := agents u;
     prev_agent := prev_agent u |}.
Definition set_issue_type (v : option IssueType) (u : UserData) : UserData :=
  {| customer_name := customer_name u; customer_email := customer_email u;
     customer_phone := customer_phone u; order_number := order_number u;
     product_id := product_id u; issue_type := v;
     issue_description := issue_description u;
     return_reason := return_reason u;
     return_approved := return_approved u;
     return_label_sent := return_label_sent u;
     refund_amount := refund_amount u;
     refund_approved := refund_approved u; escalated := escalated u;
     escalation_reason := escalation_reason u;
     satisfaction_rating := satisfaction_rating u; agents := agents u;
     prev_agent := prev_agent u |}.
Definition set_issue_description (v : option string) (u : UserData) : UserData :=
  {| customer_name := customer_name u; customer_email := customer_email u;
     customer_phone := customer_phone u; order_number := order_number u;
     product_id := product_id u; issue_type := issue_type u;
     issue_description := v; return_reason := return_reason u;
     return_approved := return_approved u;
     return_label_sent := return_label_sent u;
     refund_amount := refund_amount u;
     refund_approved := refund_approved u; escalated := escalated u;
     escalation_reason := escalation_reason u;
     satisfaction_rating := satisfaction_rating u; agents := agents u;
     prev_agent := prev_agent u |}.
Definition set_return_reason (v : option string) (u : UserData) : UserData :=
  {| customer_name := customer_name u; customer_email := customer_email u;
     customer_phone := customer_phone u; order_number := order_number u;
     product_id := product_id u; issue_type := issue_type u;
     issue_description := issue_description u; return_reason := v;
     return_approved := return_approved u;
     return_label_sent := return_label_sent u;
     refund_amount := refund_amount u;
     refund_approved := refund_approved u; escalated := escalated u;
     escalation_reason := escalation_reason u;
     satisfaction_rating := satisfaction_rating u; agents := agents u;
     prev_agent := prev_agent u |}.
Definition set_return_approved (v : bool) (u : UserData) : UserData :=
  {| customer_name := customer_name u; customer_email := customer_email u;
     customer_phone := customer_phone u; order_number := order_number u;
     product_id := product_id u; issue_type := issue_type u;
     issue_description := issue_description u;
     return_reason := return_reason u; return_approved := v;
     return_label_sent := return_label_sent u;
     refund_amount := refund_amount u;
     refund_approved := refund_approved u; escalated := escalated u;
     escalation_reason := escalation_reason u;
     satisfaction_rating := satisfaction_rating u; agents := agents u;
     prev_agent := prev_agent u |}.
Definition set_return_label_sent (v : bool) (u : UserData) : UserData :=
  {| customer_name := customer_name u; customer_email := customer_email u;
     customer_phone := customer_phone u; order_number := order_number u;
     product_id := product_id u; issue_type := issue_type u;
     issue_description := issue_description u;
     return_reason := return_reason u;
     return_approved := return_approved u; return_label_sent := v;
     refund_amount := refund_amount u;
     refund_approved := refund_approved u; escalated := escalated u;
     escalation_reason := escalation_reason u;
     satisfaction_rating := satisfaction_rating u; agents := agents u;
     prev_agent := prev_agent u |}.
Definition set_refund_amount (v : option Q) (u : UserData) : UserData :=
  {| customer_name := customer_name u; customer_email := customer_email u;
     customer_phone := customer_phone u; order_number := order_number u;
     product_id := product_id u; issue_type := issue_type u;
     issue_description := issue_description u;
     return_reason := return_reason u;
     return_approved := return_approved u;
     return_label_sent := return_label_sent u; refund_amount := v;
     refund_approved := refund_approved u; escalated := escalated u;
     escalation_reason := escalation_reason u;
     satisfaction_rating := satisfaction_rating u; agents := agents u;
     prev_agent := prev_agent u |}.
Definition set_refund_approved (v : bool) (u : UserData) : UserData :=
  {| customer_name := customer_name u; customer_email := customer_email u;
     customer_phone := customer_phone u; order_number := order_number u;
     product_id := product_id u; issue_type := issue_type u;
     issue_description := issue_description u;
     return_reason := return_reason u;
     return_approved := return_approved u;
     return_label_sent := return_label_sent u;
     refund_amount := refund_amount u; refund_approved := v;
     escalated := escalated u; escalation_reason := escalation_reason u;
     satisfaction_rating := satisfaction_rating u; agents := agents u;
     prev_agent := prev_agent u |}.
Definition set_escalated (v : bool) (u : UserData) : UserData :=
  {| customer_name := customer_name u; customer_email := customer_email u;
     customer_phone := customer_phone u; order_number := order_number u;
     product_id := product_id u; issue_type := issue_type u;
     issue_description := issue_description u;
     return_reason := return_reason u;
     return_approved := return_approved u;
     return_label_sent := return_label_sent u;
     refund_amount := refund_amount u;
     refund_approved := refund_approved u; escalated := v;
     escalation_reason := escalation_reason u;
     satisfaction_rating := satisfaction_rating u; agents := agents u;
     prev_agent := prev_agent u |}.
Definition set_escalation_reason (v : option string) (u : UserData) : UserData :=
  {| customer_name := customer_name u; customer_email := customer_email u;
     customer_phone := customer_phone u; order_number := order_number u;
     product_id := product_id u; issue_type := issue_type u;
     issue_description := issue_description u;
     return_reason := return_reason u;
     return_approved := return_approved u;
     return_label_sent := return_label_sent u;
     refund_amount := refund_amount u;
     refund_approved := refund_approved u; escalated := escalated u;
     escalation_reason := v; satisfaction_rating := satisfaction_rating u;
     agents := agents u; prev_agent := prev_agent u |}.
Definition set_satisfaction_rating (v : option Z) (u : UserData) : UserData :=
  {| customer_name := customer_name u; customer_email := customer_email u;
     customer_phone := customer_phone u; order_number := order_number u;
     product_id := product_id u; issue_type := issue_type u;
     issue_description := issue_description u;
     return_reason := return_reason u;
     return_approved := return_approved u;
     return_label_sent := return_label_sent u;
     refund_amount := refund_amount u;
     refund_approved := refund_approved u; escalated := escalated u;
     escalation_reason := escalation_reason u; satisfaction_rating := v;
     agents := agents u; prev_agent := prev_agent u |}.
Definition set_prev_agent (v : option AgentRef) (u : UserData) : UserData :=
  {| customer_name := customer_name u; customer_email := customer_email u;
     customer_phone := customer_phone u; order_number := order_number u;
     product_id := product_id u; issue_type := issue_type u;
     issue_description := issue_description u;
     return_reason := return_reason u;
     return_approved := return_approved u;
     return_label_sent := return_label_sent u;
     refund_amount := refund_amount u;
     refund_approved := refund_approved u; escalated := escalated u;
     escalation_reason := escalation_reason u;
     satisfaction_rating := satisfaction_rating u; agents := agents u;
     prev_agent := v |}.


(** [UserData()]: every default of the dataclass. *)
Definition UserData_default : UserData :=
  {| customer_name := None; customer_email := None; customer_phone := None;
     order_number := None; product_id := None; issue_type := None;
     issue_description := None; return_reason := None;
     return_approved := false; return_label_sent := false;
     refund_amount := None; refund_approved := false; escalated := false;
     escalation_reason := None; satisfaction_rating := None;
     agents := ∅; prev_agent := None |}.

(** [self.issue_type or "unknown"]: a member of the enum is a non-empty
    [str], hence truthy. *)
Definition issue_type_or_unknown (o : option IssueType) : PyValue :=
  match o with
  | Some t => PyEnum "IssueType" (issue_type_value t)
  | None => PyStr "unknown"
  end.

(** The [data] dict of [UserData.summarize]. *)
Definition summarize_data (self : UserData) : PyValue :=
  PyDict
    [ ("customer_info",
        PyDict [ ("name", or_unknown (customer_name self));
                 ("email", or_unknown (customer_email self));
                 ("phone", or_unknown (customer_phone self)) ]);
      ("issue_details",
        PyDict [ ("order_number", or_unknown (order_number self));
                 ("product_id", or_unknown (product_id self));
                 ("issue_type", issue_type_or_unknown (issue_type self));
                 ("description", or_unknown (issue_description self)) ]);
      ("return_status",
        if bool_decide (issue_type self = Some RETURN)
        then PyDict [ ("reason", opt_str (return_reason self));
                      ("approved", PyBool (return_approved self));
                      ("label_sent", PyBool (return_label_sent self)) ]
        else PyNone);
      ("billing_status",
        if bool_decide (issue_type self = Some BILLING)
        then PyDict [ ("refund_amount", opt_float (refund_amount self));
                      ("approved", PyBool (refund_approved self)) ]
        else PyNone);
      ("escalation",
        PyDict [ ("escalated", PyBool (escalated self));
                 ("reason", opt_str (escalation_reason self)) ]);
      ("satisfaction", opt_int (satisfaction_rating self)) ].

(** [UserData.summarize]: [yaml.dump(data)]. *)
Definition summarize (yaml_dump : PyValue → string) (self : UserData)
    : string :=
  yaml_dump (summarize_data self).

#[global] Instance UserData_like : UserDataLike UserData := {|
  ud_agents := agents;
  ud_prev_agent := prev_agent;
  ud_set_prev_agent := set_prev_agent;
  ud_summarize := summarize;
|}.

(** The string fields the summary always holds, and the return reason,
    which it holds for a return. *)
Definition shown_in_summary (u : UserData) (v : string) : Prop :=
  customer_name u = Some v ∨ customer_email u = Some v
  ∨ customer_phone u = Some v ∨ order_number u = Some v
  ∨ product_id u = Some v ∨ issue_description u = Some v
  ∨ escalation_reason u = Some v
  ∨ (issue_type u = Some RETURN ∧ return_reason u = Some v).

(** [u'] has every scalar field that is set in [u], with the value it has
    in [u]. *)
Definition fields_recovered (u u' : UserData) : Prop :=
  (∀ v, customer_name u = Some v → customer_name u' = Some v)
  ∧ (∀ v, customer_email u = Some v → customer_email u' = Some v)
  ∧ (∀ v, customer_phone u = Some v → customer_phone u' = Some v)
  ∧ (∀ v, order_number u = Some v → order_number u' = Some v)
  ∧ (∀ v, product_id u = Some v → product_id u' = Some v)
  ∧ (∀ v, issue_type u = Some v → issue_type u' = Some v)
  ∧ (∀ v, issue_description u = Some v → issue_description u' = Some v)
  ∧ (∀ v, return_reason u = Some v → return_reason u' = Some v)
  ∧ return_approved u' = return_approved u
  ∧ return_label_sent u' = return_label_sent u
  ∧ (∀ v, refund_amount u = Some v → refund_amount u' = Some v)
  ∧ refund_approved u' = refund_approved u
  ∧ escalated u' = escalated u
  ∧ (∀ v, escalation_reason u = Some v → escalation_reason u' = Some v)
  ∧ (∀ v, satisfaction_rating u = Some v → satisfaction_rating u' = Some v).

(** Serialising with [summarize] and reading the text back with [parse]
    recovers the set scalar fields of every [UserData]. *)
Definition round_trips (yaml_dump : PyValue → string)
    (parse : string → UserData) : Prop :=
  ∀ u, fields_recovered u (parse (summarize yaml_dump u)).

Definition Tool : Type := Run UserData ToolResult.

(** *** Common functions *)

Definition update_customer_info (name email phone : option string) : Tool :=
  when (truthy_str name) (modify_userdata (set_customer_name name));;
  when (truthy_str email) (modify_userdata (set_customer_email email));;
  when (truthy_str phone) (modify_userdata (set_customer_phone phone));;
  let updated_fields :=
    (if truthy_str name then ["name"] else [])
    ++ (if truthy_str email then ["email"] else [])
    ++ (if truthy_str phone then ["phone"] else []) in
  mret (Narrated ("Thank you, I've updated your "
                  +:+ join ", " updated_fields +:+ ".")).

Definition record_satisfaction (rating : Z) : Tool :=
  modify_userdata (set_satisfaction_rating (Some rating));;
  if rating >=? 4 then
    mret (Narrated "Thank you for your positive feedback! We're glad we could help you today.")
  else if rating =? 3 then
    mret (Narrated "Thank you for your feedback. We're always working to improve our service.")
  else
    mret (Narrated "I'm sorry to hear that. We take your feedback seriously and will use it to improve our service.").

(** *** [InitialSupport] *)

Module InitialSupport.

(** The body of [identify_issue]. Its [def] is not valid Python:
    [issue_type], [description] and [context] have no default and follow
    [order_number] and [product_id], which have one. [format_issue_type]
    is the text an f-string gives for a member of the enum, which depends
    on the Python version. *)
Definition identify_issue (format_issue_type : IssueType → string)
    (order_number product_id : option string) (issue_type : IssueType)
    (description : string) : Tool :=
  when (truthy_str order_number)
    (modify_userdata (set_order_number order_number));;
  when (truthy_str product_id)
    (modify_userdata (set_product_id product_id));;
  modify_userdata (set_issue_type (Some issue_type));;
  modify_userdata (set_issue_description (Some description));;
  mret (Narrated
    ("Thank you for providing those details. I understand you're having a "
     +:+ format_issue_type issue_type
     +:+ " issue. I'll route you to the appropriate specialist.")).

(** [if not userdata.issue_type: userdata.issue_type = t] *)
Definition default_issue_type (t : IssueType) : Run UserData unit :=
  userdata ← get_userdata;
  when (negb (bool_decide (is_Some (issue_type userdata))))
    (modify_userdata (set_issue_type (Some t))).

Definition to_returns : Tool :=
  default_issue_type RETURN;; _transfer_to_agent "returns".

Definition to_technical : Tool :=
  default_issue_type TECHNICAL;; _transfer_to_agent "technical".

Definition to_billing : Tool :=
  default_issue_type BILLING;; _transfer_to_agent "billing".

Definition to_manager : Tool :=
  modify_userdata (set_escalated true);;
  modify_userdata (set_escalation_reason (Some "Customer requested manager"));;
  _transfer_to_agent "manager".

End InitialSupport.

(** *** [ReturnsAgent] *)

Module ReturnsAgent.

Definition process_return (return_reason : string) : Tool :=
  userdata ← get_userdata;
  if negb (truthy_str (order_number userdata))
     || negb (truthy_str (product_id userdata))
  then
    mret (Narrated "Before I can process your return, I'll need your order number and the product ID. Do you have those available?")
  else
    let product_found :=
      List.find
        (λ product, bool_decide (Some (id product) = product_id userdata))
        PRODUCT_DATABASE in
    match product_found with
    | None =>
        mret (Narrated
          ("I'm unable to find product ID "
           +:+ format_opt_str (product_id userdata)
           +:+ " in our system. Could you please verify the product ID?"))
    | Some product_found =>
        if bool_decide ("Subscription" ∈ categories product_found)
        then
          mret (Narrated "This appears to be a subscription service, which follows our digital services cancellation policy. Let me transfer you to our billing department who can help with cancellations and refunds.")
        else
          modify_userdata (set_return_reason (Some return_reason));;
          modify_userdata (set_return_approved true);;
          mret (Narrated "Thank you for providing that information. Based on our policy, your return has been approved. Would you like me to email you a return shipping label?")
    end.

Definition send_return_label : Tool :=
  userdata ← get_userdata;
  if negb (return_approved userdata) then
    mret (Narrated "I see that your return hasn't been approved yet. Let's first verify if your product is eligible for return.")
  else if negb (truthy_str (customer_email userdata)) then
    mret (Narrated "I'll need your email address to send the return label. Could you please provide that?")
  else
    modify_userdata (set_return_label_sent true);;
    mret (Narrated
      ("Great! I've sent a return shipping label to "
       +:+ format_opt_str (customer_email userdata)
       +:+ ". Once you ship the item back, your refund will be processed within 5-7 business days after we receive it. Is there anything else I can help you with today?")).

Definition to_initial : Tool := _transfer_to_agent "initial".

Definition to_billing : Tool := _transfer_to_agent "billing".

Definition to_manager : Tool :=
  modify_userdata (set_escalated true);;
  modify_userdata (set_escalation_reason (Some "Complex return issue"));;
  _transfer_to_agent "manager".

End ReturnsAgent.

(** *** [TechnicalAgent] *)

Module TechnicalAgent.

Definition generic_steps : string :=
  "Based on the information you've provided, I recommend the following general troubleshooting steps:"
  +:+ newline +:+ newline
  +:+ "1. Power cycle the device (turn it off, unplug it for 30 seconds, then plug it back in and turn it on)."
  +:+ newline
  +:+ "2. Ensure all connections are secure and properly attached."
  +:+ newline
  +:+ "3. Check for any available software or firmware updates."
  +:+ newline
  +:+ "4. Try using the device in a different environment or setup if possible."
  +:+ newline +:+ newline
  +:+ "Did any of these steps help resolve your issue?".

Definition troubleshoot_issue : Tool :=
  userdata ← get_userdata;
  if negb (truthy_str (product_id userdata))
     && negb (truthy_str (issue_description userdata))
  then
    mret (Narrated "To help troubleshoot your issue, I'll need more details about the product and the problem you're experiencing. Could you describe what's happening?")
  else
    let issue_description :=
      if truthy_str (issue_description userdata)
      then lower (default "" (issue_description userdata))
      else "" in
    if contains "headphone" issue_description
       && (contains "connect" issue_description
           || contains "bluetooth" issue_description
           || contains "pair" issue_description)
    then mret (Narrated kb_headphones_not_connecting)
    else if contains "tv" issue_description
            && (contains "picture" issue_description
                || contains "display" issue_description
                || contains "screen" issue_description)
    then mret (Narrated kb_tv_no_picture)
    else if contains "subscription" issue_description
            && (contains "access" issue_description
                || contains "login" issue_description
                || contains "content" issue_description)
    then mret (Narrated kb_subscription_access_issues)
    else mret (Narrated generic_steps).

Definition escalate_technical_issue (reason : string) : Tool :=
  modify_userdata (set_escalated true);;
  modify_userdata (set_escalation_reason (Some reason));;
  _transfer_to_agent "manager".

Definition to_initial : Tool := _transfer_to_agent "initial".

Definition to_returns : Tool := _transfer_to_agent "returns".

End TechnicalAgent.

(** *** [BillingAgent] *)

Module BillingAgent.

Definition process_refund (amount : Q) : Tool :=
  userdata ← get_userdata;
  if negb (truthy_str (order_number userdata)) then
    mret (Narrated "Before I can process a refund, I'll need your order number. Do you have that available?")
  else if negb (truthy_str (customer_email userdata)) then
    mret (Narrated "I'll need your email address to process the refund. Could you please provide that?")
  else
    modify_userdata (set_refund_amount (Some amount));;
    modify_userdata (set_refund_approved true);;
    mret (Narrated
      ("I've processed a refund of $" +:+ format_2f amount
       +:+ " for your order. The refund will be credited back to your original payment method within 5-7 business days. You'll receive a confirmation email at "
       +:+ format_opt_str (customer_email userdata)
       +:+ ". Is there anything else I can help you with today?")).

Definition manage_subscription (action : string) : Tool :=
  userdata ← get_userdata;
  if negb (truthy_str (customer_email userdata)) then
    mret (Narrated "I'll need your email address to locate your subscription. Could you please provide that?")
  else if bool_decide (lower action = "cancel") then
    mret (Narrated
      ("I've cancelled your subscription. You'll have access until the end of your current billing period. You'll receive a confirmation email at "
       +:+ format_opt_str (customer_email userdata)
       +:+ ". Is there anything else I can help you with today?"))
  else if bool_decide (lower action = "pause") then
    mret (Narrated
      ("I've paused your subscription for 30 days. Your billing will resume after that period. You'll receive a confirmation email at "
       +:+ format_opt_str (customer_email userdata)
       +:+ ". Is there anything else I can help you with today?"))
  else if bool_decide (lower action = "resume") then
    mret (Narrated
      ("I've resumed your subscription. Your next billing date will be updated accordingly. You'll receive a confirmation email at "
       +:+ format_opt_str (customer_email userdata)
       +:+ ". Is there anything else I can help you with today?"))
  else
    mret (Narrated "I'm not sure what action you want to take on your subscription. Would you like to cancel, pause, or resume your subscription?").

Definition to_initial : Tool := _transfer_to_agent "initial".

Definition to_manager : Tool :=
  modify_userdata (set_escalated true);;
  modify_userdata (set_escalation_reason (Some "Complex billing issue"));;
  _transfer_to_agent "manager".

End BillingAgent.

(** *** [ManagerAgent] *)

Module ManagerAgent.

(** The body of [resolve_escalated_issue]. Its [def] is not valid Python:
    [context] has no default and follows [special_accommodation], which
    has one. *)
Definition resolve_escalated_issue (resolution : string)
    (special_accommodation : option string) : Tool :=
  userdata ← get_userdata;
  if negb (escalated userdata) then
    mret (Narrated "I'm not seeing any escalated issue in our system. Could you please explain the issue you're experiencing?")
  else
    let response :=
      "I understand this has been a frustrating experience, and I appreciate your patience. Here's what I can do to resolve this issue: "
      +:+ resolution in
    let response :=
      if truthy_str special_accommodation
      then response
           +:+ " Additionally, as a one-time special accommodation, I'm also offering: "
           +:+ format_opt_str special_accommodation
      else response in
    let response := response +:+ " Is this resolution satisfactory for you?" in
    mret (Narrated response).

Definition to_initial : Tool := _transfer_to_agent "initial".
Definition to_returns : Tool := _transfer_to_agent "returns".
Definition to_technical : Tool := _transfer_to_agent "technical".
Definition to_billing : Tool := _transfer_to_agent "billing".

End ManagerAgent.

(** *** [entrypoint] *)

(** The five agent objects [entrypoint] creates, in creation order. Only
    [InitialSupport] is given an [llm] of its own, an [openai.LLM]. *)
Definition initial_ref : AgentRef := 0%nat.
Definition returns_ref : AgentRef := 1%nat.
Definition technical_ref : AgentRef := 2%nat.
Definition billing_ref : AgentRef := 3%nat.
Definition manager_ref : AgentRef := 4%nat.

Definition new_agent (cls : string) (llm : option LLMModel) : Agent :=
  {| class_name := cls; agent_llm := llm; chat_ctx := [] |}.

Definition entrypoint_objects : gmap AgentRef Agent :=
  {[ initial_ref := new_agent "InitialSupport" (Some TextLLM);
     returns_ref := new_agent "ReturnsAgent" None;
     technical_ref := new_agent "TechnicalAgent" None;
     billing_ref := new_agent "BillingAgent" None;
     manager_ref := new_agent "ManagerAgent" None ]}.

Definition entrypoint_agents : gmap string AgentRef :=
  {[ "initial" := initial_ref; "returns" := returns_ref;
     "technical" := technical_ref; "billing" := billing_ref;
     "manager" := manager_ref ]}.

(** [userdata] after [userdata.agents.update({...})]. *)
Definition entrypoint_userdata : UserData :=
  {| customer_name := None; customer_email := None; customer_phone := None;
     order_number := None; product_id := None; issue_type := None;
     issue_description := None; return_reason := None;
     return_approved := false; return_label_sent := false;
     refund_amount := None; refund_approved := false; escalated := false;
     escalation_reason := None; satisfaction_rating := None;
     agents := entrypoint_agents; prev_agent := None |}.

(** [max_tool_steps=5] of the [AgentSession]. *)
Definition max_tool_steps : nat := 5.

(** The session [entrypoint] builds, with [userdata.agents["initial"]]
    as the agent it is started with. *)
Definition entrypoint_session : Session UserData :=
  {| userdata := entrypoint_userdata; current_agent := initial_ref;
     session_llm := Some TextLLM; objects := entrypoint_objects;
     reply_requests := [] |}.

(** [agent.start(agent=userdata.agents["initial"], ...)]: the first agent
    becomes active and its entry hook runs. *)
Definition entrypoint (yaml_dump : PyValue → string) (new_id : string)
    : option (Session UserData) :=
  on_enter yaml_dump new_id initial_ref entrypoint_session.

End CustomerSupport.

(** ** [real_estate_agent.py] *)

Module RealEstate.
Import ChatCtx Voice BaseAgent PyString.

(** One entry of [PROPERTY_DATABASE]. *)
Record Property := {
  id : string;
  address : string;
  price : Z;
  bedrooms : Z;
  bathrooms : Z;
  sqft : Z;
  type : string;
  description : string;
}.

Definition PROPERTY_DATABASE : list Property :=
  [ {| id := "P001"; address := "123 Main Street"; price := 350000;
       bedrooms := 3; bathrooms := 2; sqft := 1800;
       type := "Single Family Home";
       description := "Beautiful single-family home with a spacious backyard, updated kitchen, and hardwood floors throughout." |};
    {| id := "P002"; address := "456 Oak Avenue"; price := 275000;
       bedrooms := 2; bathrooms := 2; sqft := 1200;
       type := "Condo";
       description := "Modern condo in the heart of downtown with stunning city views, stainless steel appliances, and a fitness center in the building." |};
    {| id := "P003"; address := "789 Pine Road"; price := 425000;
       bedrooms := 4; bathrooms := 3; sqft := 2400;
       type := "Single Family Home";
       description := "Spacious family home in a quiet neighborhood with a two-car garage, finished basement, and newly renovated bathrooms." |};
    {| id := "P004"; address := "101 River Lane"; price := 550000;
       bedrooms := 5; bathrooms := 4; sqft := 3200;
       type := "Luxury Home";
       description := "Luxurious home with an open floor plan, gourmet kitchen, master suite with walk-in closet, and a private pool in the backyard." |} ].

Record UserData := {
  customer_name : option string;
  customer_phone : option string;
  customer_email : option string;
  property_preferences : gmap string PyValue;
  viewed_properties : list string;
  interested_properties : list string;
  viewing_date : option string;
  viewing_time : option string;
  prequalified : bool;
  prequalified_amount : option Z;
  agents : gmap string AgentRef;
  prev_agent : option AgentRef;
}.

Definition set_customer_name (v : option string) (u : UserData) : UserData :=
  {| customer_name := v; customer_phone := customer_phone u;
     customer_email := customer_email u;
     property_preferences := property_preferences u;
     viewed_properties := viewed_properties u;
     interested_properties := interested_properties u;
     viewing_date := viewing_date u; viewing_time := viewing_time u;
     prequalified := prequalified u;
     prequalified_amount := prequalified_amount u; agents := agents u;
     prev_agent := prev_agent u |}.
Definition set_customer_phone (v : option string) (u : UserData) : UserData :=
  {| customer_name := customer_name u; customer_phone := v;
     customer_email := customer_email u;
     property_preferences := property_preferences u;
     viewed_properties := viewed_properties u;
     interested_properties := interested_properties u;
     viewing_date := viewing_date u; viewing_time := viewing_time u;
     prequalified := prequalified u;
     prequalified_amount := prequalified_amount u; agents := agents u;
     prev_agent := prev_agent u |}.
Definition set_customer_email (v : option string) (u : UserData) : UserData :=
  {| customer_name := customer_name u; customer_phone := customer_phone u;
     customer_email := v; property_preferences := property_preferences u;
     viewed_properties := viewed_properties u;
     interested_properties := interested_properties u;
     viewing_date := viewing_date u; viewing_time := viewing_time u;
     prequalified := prequalified u;
     prequalified_amount := prequalified_amount u; agents := agents u;
     prev_agent := prev_agent u |}.
Definition set_property_preferences (v : gmap string PyValue) (u : UserData) : UserData :=
  {| customer_name := customer_name u; customer_phone := customer_phone u;
     customer_email := customer_email u; property_preferences := v;
     viewed_properties := viewed_properties u;
     interested_properties := interested_properties u;
     viewing_date := viewing_date u; viewing_time := viewing_time u;
     prequalified := prequalified u;
     prequalified_amount := prequalified_amount u; agents := agents u;
     prev_agent := prev_agent u |}.
Definition set_viewed_properties (v : list string) (u : UserData) : UserData :=
  {| customer_name := customer_name u; customer_phone := customer_phone u;
     customer_email := customer_email u;
     property_preferences := property_preferences u;
     viewed_properties := v;
     interested_properties := interested_properties u;
     viewing_date := viewing_date u; viewing_time := viewing_time u;
     prequalified := prequalified u;
     prequalified_amount := prequalified_amount u; agents := agents u;
     prev_agent := prev_agent u |}.
Definition set_interested_properties (v : list string) (u : UserData) : UserData :=
  {| customer_name := customer_name u; customer_phone := customer_phone u;
     customer_email := customer_email u;
     property_preferences := property_preferences u;
     viewed_properties := viewed_properties u; interested_properties := v;
     viewing_date := viewing_date u; viewing_time := viewing_time u;
     prequalified := prequalified u;
     prequalified_amount := prequalified_amount u; agents := agents u;
     prev_agent := prev_agent u |}.
Definition set_viewing_date (v : option string) (u : UserData) : UserData :=
  {| customer_name := customer_name u; customer_phone := customer_phone u;
     customer_email := customer_email u;
     property_preferences := property_preferences u;
     viewed_properties := viewed_properties u;
     interested_properties := interested_properties u; viewing_date := v;
     viewing_time := viewing_time u; prequalified := prequalified u;
     prequalified_amount := prequalified_amount u; agents := agents u;
     prev_agent := prev_agent u |}.
Definition set_viewing_time (v : option string) (u : UserData) : UserData :=
  {| customer_name := customer_name u; customer_phone := customer_phone u;
     customer_email := customer_email u;
     property_preferences := property_preferences u;
     viewed_properties := viewed_properties u;
     interested_properties := interested_properties u;
     viewing_date := viewing_date u; viewing_time := v;
     prequalified := prequalified u;
     prequalified_amount := prequalified_amount u; agents := agents u;
     prev_agent := prev_agent u |}.
Definition set_prequalified (v : bool) (u : UserData) : UserData :=
  {| customer_name := customer_name u; customer_phone := customer_phone u;
     customer_email := customer_email u;
     property_preferences := property_preferences u;
     viewed_properties := viewed_properties u;
     interested_properties := interested_properties u;
     viewing_date := viewing_date u; viewing_time := viewing_time u;
     prequalified := v; prequalified_amount := prequalified_amount u;
     agents := agents u; prev_agent := prev_agent u |}.
Definition set_prequalified_amount (v : option Z) (u : UserData) : UserData :=
  {| customer_name := customer_name u; customer_phone := customer_phone u;
     customer_email := customer_email u;
     property_preferences := property_preferences u;
     viewed_properties := viewed_properties u;
     interested_properties := interested_properties u;
     viewing_date := viewing_date u; viewing_time := viewing_time u;
     prequalified := prequalified u; prequalified_amount := v;
     agents := agents u; prev_agent := prev_agent u |}.
Definition set_prev_agent (v : option AgentRef) (u : UserData) : UserData :=
  {| customer_name := customer_name u; customer_phone := customer_phone u;
     customer_email := customer_email u;
     property_preferences := property_preferences u;
     viewed_properties := viewed_properties u;
     interested_properties := interested_properties u;
     viewing_date := viewing_date u; viewing_time := viewing_time u;
     prequalified := prequalified u;
     prequalified_amount := prequalified_amount u; agents := agents u;
     prev_agent := v |}.


(** The default of [property_preferences]: six keys, each [None]. *)
Definition default_preferences : gmap string PyValue :=
  {[ "min_price" := PyNone; "max_price" := PyNone;
     "min_bedrooms" := PyNone; "min_bathrooms" := PyNone;
     "property_type" := PyNone; "location" := PyNone ]}.

(** [UserData()]: every default of the dataclass. *)
Definition UserData_default : UserData :=
  {| customer_name := None; customer_phone := None; customer_email := None;
     property_preferences := default_preferences;
     viewed_properties := []; interested_properties := [];
     viewing_date := None; viewing_time := None;
     prequalified := false; prequalified_amount := None;
     agents := ∅; prev_agent := None |}.

(** The [data] dict of [UserData.summarize]. *)
Definition summarize_data (self : UserData) : PyValue :=
  PyDict
    [ ("customer_name", or_unknown (customer_name self));
      ("customer_phone", or_unknown (customer_phone self));
      ("customer_email", or_unknown (customer_email self));
      ("property_preferences",
        PyDict (map_to_list (property_preferences self)));
      ("viewed_properties", PyList (PyStr <$> viewed_properties self));
      ("interested_properties",
        PyList (PyStr <$> interested_properties self));
      ("viewing_scheduled",
        if truthy_str (viewing_date self)
        then PyDict [ ("date", opt_str (viewing_date self));
                      ("time", opt_str (viewing_time self)) ]
        else PyNone);
      ("prequalified",
        PyDict [ ("status", PyBool (prequalified self));
                 ("amount", opt_int (prequalified_amount self)) ]) ].

(** [UserData.summarize]: [yaml.dump(data)]. *)
Definition summarize (yaml_dump : PyValue → string) (self : UserData)
    : string :=
  yaml_dump (summarize_data self).

#[global] Instance UserData_like : UserDataLike UserData := {|
  ud_agents := agents;
  ud_prev_agent := prev_agent;
  ud_set_prev_agent := set_prev_agent;
  ud_summarize := summarize;
|}.

Definition Tool : Type := Run UserData ToolResult.

(** *** Common functions *)

Definition update_name (name : string) : Tool :=
  modify_userdata (set_customer_name (Some name));;
  mret (Narrated ("Thank you, " +:+ name
                  +:+ ". I've updated your name in our system.")).

Definition update_phone (phone : string) : Tool :=
  modify_userdata (set_customer_phone (Some phone));;
  mret (Narrated ("Got it. Your phone number (" +:+ phone
                  +:+ ") has been recorded.")).

Definition update_email (email : string) : Tool :=
  modify_userdata (set_customer_email (Some email));;
  mret (Narrated ("Perfect. I've saved your email address as " +:+ email
                  +:+ ".")).

(** *** [Greeter] *)

Module Greeter.
Definition to_property_finder : Tool := _transfer_to_agent "propertyFinder".
Definition to_viewing_scheduler : Tool :=
  _transfer_to_agent "viewingScheduler".
Definition to_mortgage_advisor : Tool :=
  _transfer_to_agent "mortgageAdvisor".
End Greeter.

(** *** [PropertyFinder] *)

Module PropertyFinder.

(** [userdata.property_preferences[key] = value] *)
Definition set_preference (key : string) (value : PyValue)
    : Run UserData unit :=
  modify_userdata
    (λ u, set_property_preferences
            (<[key := value]> (property_preferences u)) u).

Definition update_property_preferences
    (min_price max_price min_bedrooms min_bathrooms : option Z)
    (property_type location : option string) : Tool :=
  when (truthy_int min_price)
    (set_preference "min_price" (opt_int min_price));;
  when (truthy_int max_price)
    (set_preference "max_price" (opt_int max_price));;
  when (truthy_int min_bedrooms)
    (set_preference "min_bedrooms" (opt_int min_bedrooms));;
  when (truthy_int min_bathrooms)
    (set_preference "min_bathrooms" (opt_int min_bathrooms));;
  when (truthy_str property_type)
    (set_preference "property_type" (opt_str property_type));;
  when (truthy_str location)
    (set_preference "location" (opt_str location));;
  mret (Narrated "I've updated your property preferences. Now I can search for properties that match your criteria.").

(** The [for prop in PROPERTY_DATABASE] search by address. *)
Definition find_by_address (property_address : string) : option Property :=
  List.find
    (λ prop, bool_decide (lower (address prop) = lower property_address))
    PROPERTY_DATABASE.

Definition express_interest (property_address : string) : Tool :=
  userdata ← get_userdata;
  match find_by_address property_address with
  | None =>
      mret (Narrated
        ("I couldn't find a property with the address '"
         +:+ property_address
         +:+ "' in our database. Could you please verify the address?"))
  | Some property_found =>
      when (negb (bool_decide
                    (id property_found ∈ interested_properties userdata)))
        (modify_userdata
           (λ u, set_interested_properties
                   (interested_properties u ++ [id property_found]) u));;
      mret (Narrated
        ("Great! I've noted your interest in the property at "
         +:+ property_address
         +:+ ". Would you like to schedule a viewing or learn more about this property?"))
  end.

Definition to_greeter : Tool := _transfer_to_agent "greeter".

Definition to_viewing_scheduler : Tool :=
  userdata ← get_userdata;
  if negb (bool_decide (interested_properties userdata ≠ [])) then
    mret (Narrated "Before scheduling a viewing, please select at least one property you're interested in.")
  else _transfer_to_agent "viewingScheduler".

End PropertyFinder.

(** *** [ViewingScheduler] *)

Module ViewingScheduler.

Definition schedule_viewing (property_address date time : string) : Tool :=
  userdata ← get_userdata;
  match PropertyFinder.find_by_address property_address with
  | None =>
      mret (Narrated
        ("I couldn't find a property with the address '"
         +:+ property_address
         +:+ "' in our database. Could you please verify the address?"))
  | Some _ =>
      if negb (truthy_str (customer_name userdata))
         || negb (truthy_str (customer_phone userdata))
      then
        mret (Narrated "Before I can schedule a viewing, I'll need your name and phone number so our agent can contact you.")
      else
        modify_userdata (set_viewing_date (Some date));;
        modify_userdata (set_viewing_time (Some time));;
        mret (Narrated
          ("Great! I've scheduled a viewing for the property at "
           +:+ property_address +:+ " on " +:+ date +:+ " at " +:+ time
           +:+ ". One of our agents will meet you there. They may call you at "
           +:+ format_opt_str (customer_phone userdata)
           +:+ " to confirm closer to the date."))
  end.

Definition to_greeter : Tool := _transfer_to_agent "greeter".
Definition to_mortgage_advisor : Tool :=
  _transfer_to_agent "mortgageAdvisor".

End ViewingScheduler.

(** *** [MortgageAdvisor] *)

Module MortgageAdvisor.

(** [estimate] stands for the floating-point computation of
    [max_home_price] from the four arguments, from [annual_income / 12] up
    to and including [round(max_home_price / 1000) * 1000], which leaves
    an [int]. It is [None] where that computation raises [OverflowError]:
    an argument too large for a [float], or a value that is infinite when
    it is rounded. The computation comes after the test of the contact
    fields and before the two assignments. *)
Definition prequalify_mortgage (estimate : Z → Z → Z → Z → option Z)
    (annual_income credit_score down_payment monthly_debt : Z) : Tool :=
  userdata ← get_userdata;
  if negb (truthy_str (customer_name userdata))
     || negb (truthy_str (customer_phone userdata))
     || negb (truthy_str (customer_email userdata))
  then
    mret (Narrated "Before I can pre-qualify you, I'll need your full contact information (name, phone, and email).")
  else
    match estimate annual_income credit_score down_payment monthly_debt with
    | None => raise OverflowError
    | Some max_home_price =>
        modify_userdata (set_prequalified true);;
        modify_userdata (set_prequalified_amount (Some max_home_price));;
        mret (Narrated
          ("Based on the information you've provided, I estimate you could qualify for a home up to $"
           +:+ format_thousands max_home_price
           +:+ ". This is just an estimate - a formal pre-approval would require verification of your income, assets, and credit. Would you like me to connect you with a mortgage specialist to get officially pre-approved?"))
    end.

Definition to_greeter : Tool := _transfer_to_agent "greeter".
Definition to_property_finder : Tool := _transfer_to_agent "propertyFinder".
End MortgageAdvisor.

(** *** [entrypoint] *)

Definition greeter_ref : AgentRef := 0%nat.
Definition property_finder_ref : AgentRef := 1%nat.
Definition viewing_scheduler_ref : AgentRef := 2%nat.
Definition mortgage_advisor_ref : AgentRef := 3%nat.

Definition new_agent (cls : string) (llm : option LLMModel) : Agent :=
  {| class_name := cls; agent_llm := llm; chat_ctx := [] |}.

Definition entrypoint_objects : gmap AgentRef Agent :=
  {[ greeter_ref := new_agent "Greeter" (Some TextLLM);
     property_finder_ref := new_agent "PropertyFinder" None;
     viewing_scheduler_ref := new_agent "ViewingScheduler" None;
     mortgage_advisor_ref := new_agent "MortgageAdvisor" None ]}.

Definition entrypoint_agents : gmap string AgentRef :=
  {[ "greeter" := greeter_ref; "propertyFinder" := property_finder_ref;
     "viewingScheduler" := viewing_scheduler_ref;
     "mortgageAdvisor" := mortgage_advisor_ref ]}.

(** [userdata] after [userdata.agents.update({...})]. *)
Definition entrypoint_userdata : UserData :=
  {| customer_name := None; customer_phone := None; customer_email := None;
     property_preferences := default_preferences;
     viewed_properties := []; interested_properties := [];
     viewing_date := None; viewing_time := None;
     prequalified := false; prequalified_amount := None;
     agents := entrypoint_agents; prev_agent := None |}.

(** [max_tool_steps=5] of the [AgentSession]. *)
Definition max_tool_steps : nat := 5.

Definition entrypoint_session : Session UserData :=
  {| userdata := entrypoint_userdata; current_agent := greeter_ref;
     session_llm := Some TextLLM; objects := entrypoint_objects;
     reply_requests := [] |}.

(** [agent.start(agent=userdata.agents["greeter"], ...)] *)
Definition entrypoint (yaml_dump : PyValue → string) (new_id : string)
    : option (Session UserData) :=
  on_enter yaml_dump new_id greeter_ref entrypoint_session.

End RealEstate.

(** ** The turn loop *)

Module TurnLoop.
Import ChatCtx.

(** Modelled from the spec: the language-model backend is outside the
    examples. Given a chat history it produces, with the tools enabled,
    either a narrated reply or a tool invocation request, and with the
    tools disabled a narrated reply. *)
Inductive LLMOutput :=
| Reply (text : string)
| ToolRequest (name arguments : string).

Record LanguageModel := {
  generate : list ChatItem → LLMOutput;
  narrate : list ChatItem → string;
}.

(** What a turn leaves: the reply for the user, the tool operations that
    were dispatched, in order, the history with the items of the turn
    committed, and the state the tools work on. *)
Record Turn (St : Type) := {
  reply : string;
  dispatched : list (string * string);
  history : list ChatItem;
  state : St;
}.
Arguments reply {St} _.
Arguments dispatched {St} _.
Arguments history {St} _.
Arguments state {St} _.

Section Loop.
Context {St : Type}.
Variable llm : LanguageModel.
(** Runs the tool of that name on the arguments: its output and the
    state it leaves. *)
Variable dispatch : string → string → St → string * St.

(** Modelled from the spec: the turn loop of the Session Driver is
    outside the examples, which only set [max_tool_steps]. Each round
    trip asks the model with the tools enabled; a reply ends the turn,
    a request is dispatched and its call and result are committed to
    the history. Once the maximum number of round trips has been made,
    nothing more is dispatched and the turn ends with what the model
    narrates from the history so far. [steps_left] is what is left of
    the bound, [step] numbers the round trips. *)
Fixpoint turn_loop (steps_left step : nat) (items : list ChatItem)
    (st : St) (calls : list (string * string)) : Turn St :=
  match steps_left with
  | O =>
      {| reply := narrate llm items; dispatched := calls;
         history := items; state := st |}
  | S steps_left' =>
      match generate llm items with
      | Reply text =>
          {| reply := text; dispatched := calls;
             history := items; state := st |}
      | ToolRequest name arguments =>
          let '(output, st') := dispatch name arguments st in
          let call_id := "call_" +:+ pretty step in
          turn_loop steps_left' (S step)
            (items ++ [ FunctionCall call_id name arguments;
                        FunctionCallOutput ("out_" +:+ pretty step)
                          call_id output ])
            st' (calls ++ [(name, arguments)])
      end
  end.

(** One turn under the bound [max_tool_steps]. *)
Definition run_turn (max_tool_steps : nat) (items : list ChatItem)
    (st : St) : Turn St :=
  turn_loop max_tool_steps 0 items st [].

End Loop.

End TurnLoop.

(** ** Sample conversations *)

Module Samples.
Import ChatCtx Voice.

(** One user question, a tool round trip and the spoken answer. *)
Definition exchange (n : string) : list ChatItem :=
  [ ChatMessage ("user_" +:+ n) user "Where is my order?";
    FunctionCall ("call_" +:+ n) "lookup_order" "{}";
    FunctionCallOutput ("out_" +:+ n) ("call_" +:+ n) "shipped";
    ChatMessage ("reply_" +:+ n) assistant "It has shipped." ].

(** Seven exchanges behind a system prompt: 29 items. *)
Definition long_history : list ChatItem :=
  ChatMessage "sys_0" system "You are a support agent."
    :: (["a"; "b"; "c"; "d"; "e"; "f"; "g"] ≫= exchange).

Definition short_history : list ChatItem :=
  ChatMessage "sys_0" system "You are a support agent." :: exchange "a".

(** A buffer that already holds one of the items of [short_history]. *)
Definition own_buffer : list ChatItem :=
  [ ChatMessage "greeting" assistant "Hello, how can I help?";
    ChatMessage "reply_a" assistant "It has shipped." ].

(** A stand-in for [yaml.dump] that writes the [str] values of its
    argument one per line. *)
Definition words_dump (d : PyValue) : string :=
  PyString.join PyString.newline (py_strings d).

(** A session in which the initial agent hands over to returns, and the
    returns agent records the name and hands over to billing. The three
    ids are those of the system messages of the three entry hooks. *)
Definition at_returns (yaml_dump : PyValue → string)
    : option (Session CustomerSupport.UserData) :=
  s ← CustomerSupport.entrypoint yaml_dump "sys_1";
  BaseAgent.run_tool yaml_dump "sys_2"
    CustomerSupport.InitialSupport.to_returns s.

Definition ada_flow (yaml_dump : PyValue → string)
    : option (Session CustomerSupport.UserData) :=
  s ← at_returns yaml_dump;
  s ← BaseAgent.run_tool yaml_dump "unused"
        (CustomerSupport.update_customer_info (Some "Ada") None None) s;
  BaseAgent.run_tool yaml_dump "sys_3"
    CustomerSupport.ReturnsAgent.to_billing s.

(** A session in which a technical issue, with order number and product
    id on record, has reached the returns agent. *)
Definition return_in_progress : Session CustomerSupport.UserData :=
  set_userdata
    (CustomerSupport.set_prev_agent (Some CustomerSupport.technical_ref)
       (CustomerSupport.set_issue_description (Some "the screen flickers")
          (CustomerSupport.set_issue_type (Some CustomerSupport.TECHNICAL)
             (CustomerSupport.set_product_id (Some "P001")
                (CustomerSupport.set_order_number (Some "A100")
                   CustomerSupport.entrypoint_userdata)))))
    (set_current_agent CustomerSupport.returns_ref
       CustomerSupport.entrypoint_session).

(** The returns agent approves the return for [reason] and hands over to
    billing. *)
Definition return_handoff (yaml_dump : PyValue → string) (reason : string)
    : option (Session CustomerSupport.UserData) :=
  s ← BaseAgent.run_tool yaml_dump "unused"
        (CustomerSupport.ReturnsAgent.process_return reason)
        return_in_progress;
  BaseAgent.run_tool yaml_dump "sys_4"
    CustomerSupport.ReturnsAgent.to_billing s.

(** A model that asks for the order to be looked up until the history
    holds seven results, and then answers. *)
Definition eager_model : TurnLoop.LanguageModel :=
  {| TurnLoop.generate items :=
       if (length (filter (λ item, is_function_item item) items) <? 14)%nat
       then TurnLoop.ToolRequest "lookup_order" "{}"
       else TurnLoop.Reply "Your order has shipped.";
     TurnLoop.narrate items := "Let me get back to you on that." |}.

(** A tool that counts its calls. *)
Definition counting_tool (name arguments : string) (calls : nat)
    : string * nat :=
  ("shipped", S calls).

(** A return in progress, with order number and email on record, for
    which billing has approved a refund. *)
Definition refunded (amount : Q) : CustomerSupport.UserData :=
  CustomerSupport.set_refund_approved true
    (CustomerSupport.set_refund_amount (Some amount)
       (CustomerSupport.set_customer_email (Some "ada@example.com")
          (CustomerSupport.set_order_number (Some "A100")
             (CustomerSupport.set_issue_type (Some CustomerSupport.RETURN)
                CustomerSupport.entrypoint_userdata)))).

End Samples.

(** ** A session caught in the middle of a handoff *)

Module HandoffSamples.
Import ChatCtx Voice CustomerSupport.

(** The initial agent has had one exchange and has just handed over to
    the returns agent, whose buffer already holds two items, one of them
    the answer of that exchange; the entry hook of the returns agent has
    not run yet. *)
Definition mid_handoff : Session UserData :=
  {| userdata := set_prev_agent (Some initial_ref) entrypoint_userdata;
     current_agent := returns_ref;
     session_llm := Some TextLLM;
     objects :=
       <[initial_ref :=
           update_chat_ctx Samples.short_history
             (new_agent "InitialSupport" (Some TextLLM))]>
         (<[returns_ref :=
              update_chat_ctx Samples.own_buffer
                (new_agent "ReturnsAgent" None)]> entrypoint_objects);
     reply_requests := [] |}.

(** The returns agent as [mid_handoff] holds it. *)
Definition returns_agent : Agent :=
  update_chat_ctx Samples.own_buffer (new_agent "ReturnsAgent" None).

End HandoffSamples.

(** ** Sessions of the customer-support agents *)

Module SupportScript.
Import ChatCtx Voice BaseAgent CustomerSupport.

(** One tool operation the model can ask for, with its arguments. *)
Inductive ToolCall :=
| update_customer_info_call (name email phone : option string)
| record_satisfaction_call (rating : Z)
| identify_issue_call (order_number product_id : option string)
    (issue_type : IssueType) (description : string)
| initial_to_returns
| initial_to_technical
| initial_to_billing
| initial_to_manager
| process_return_call (return_reason : string)
| send_return_label_call
| returns_to_initial
| returns_to_billing
| returns_to_manager
| troubleshoot_issue_call
| escalate_technical_issue_call (reason : string)
| technical_to_initial
| technical_to_returns
| process_refund_call (amount : Q)
| manage_subscription_call (action : string)
| billing_to_initial
| billing_to_manager
| resolve_escalated_issue_call (resolution : string)
    (special_accommodation : option string)
| manager_to_initial
| manager_to_returns
| manager_to_technical
| manager_to_billing.

(** The tool a call runs. [format_issue_type] is passed on to
    [identify_issue]. *)
Definition run_call (format_issue_type : IssueType → string) (c : ToolCall)
    : Tool :=
  match c with
  | update_customer_info_call name email phone =>
      update_customer_info name email phone
  | record_satisfaction_call rating => record_satisfaction rating
  | identify_issue_call order_number product_id issue_type description =>
      InitialSupport.identify_issue format_issue_type order_number product_id
        issue_type description
  | initial_to_returns => InitialSupport.to_returns
  | initial_to_technical => InitialSupport.to_technical
  | initial_to_billing => InitialSupport.to_billing
  | initial_to_manager => InitialSupport.to_manager
  | process_return_call return_reason => ReturnsAgent.process_return return_reason
  | send_return_label_call => ReturnsAgent.send_return_label
  | returns_to_initial => ReturnsAgent.to_initial
  | returns_to_billing => ReturnsAgent.to_billing
  | returns_to_manager => ReturnsAgent.to_manager
  | troubleshoot_issue_call => TechnicalAgent.troubleshoot_issue
  | escalate_technical_issue_call reason =>
      TechnicalAgent.escalate_technical_issue reason
  | technical_to_initial => TechnicalAgent.to_initial
  | technical_to_returns => TechnicalAgent.to_returns
  | process_refund_call amount => BillingAgent.process_refund amount
  | manage_subscription_call action => BillingAgent.manage_subscription action
  | billing_to_initial => BillingAgent.to_initial
  | billing_to_manager => BillingAgent.to_manager
  | resolve_escalated_issue_call resolution special_accommodation =>
      ManagerAgent.resolve_escalated_issue resolution special_accommodation
  | manager_to_initial => ManagerAgent.to_initial
  | manager_to_returns => ManagerAgent.to_returns
  | manager_to_technical => ManagerAgent.to_technical
  | manager_to_billing => ManagerAgent.to_billing
  end.

(** A script is a sequence of calls, each with the id the entry hook is to
    give its system message should the call hand over. The calls are run in
    order through [run_tool]; [None] is a turn that an exception or a
    missing agent object ended. A script may name any tool whichever agent
    is active, so the scripts cover every sequence of calls a session can
    see. *)
Fixpoint run_script (yaml_dump : PyValue → string)
    (format_issue_type : IssueType → string)
    (script : list (string * ToolCall)) (s : Session UserData)
    : option (Session UserData) :=
  match script with
  | [] => Some s
  | (new_id, c) :: rest =>
      s' ← run_tool yaml_dump new_id (run_call format_issue_type c) s;
      run_script yaml_dump format_issue_type rest s'
  end.

(** The session [entrypoint] starts, after a script. *)
Definition session_after (yaml_dump : PyValue → string)
    (format_issue_type : IssueType → string) (first_id : string)
    (script : list (string * ToolCall)) : option (Session UserData) :=
  s ← entrypoint yaml_dump first_id;
  run_script yaml_dump format_issue_type script s.

(** Class and model of every agent object. *)
Definition agent_kinds (objects : gmap AgentRef Agent)
    : gmap AgentRef (string * option LLMModel) :=
  (λ a, (class_name a, agent_llm a)) <$> objects.

(** What an approval flag that is set says of the other fields. *)
Definition approvals_consistent (u : UserData) : Prop :=
  (return_approved u = true →
   truthy_str (order_number u) = true ∧ truthy_str (product_id u) = true
   ∧ is_Some (return_reason u))
  ∧ (return_label_sent u = true →
     return_approved u = true ∧ truthy_str (customer_email u) = true)
  ∧ (refund_approved u = true →
     truthy_str (order_number u) = true
     ∧ truthy_str (customer_email u) = true
     ∧ is_Some (refund_amount u)).

(** Nothing that is set in [u] is unset in [u']: a contact field, order
    number or product id that holds a non-empty string still does, a field
    that holds a value still holds one, a flag that is up is still up. *)
Definition never_unset (u u' : UserData) : Prop :=
  (truthy_str (customer_name u) = true → truthy_str (customer_name u') = true)
  ∧ (truthy_str (customer_email u) = true →
     truthy_str (customer_email u') = true)
  ∧ (truthy_str (customer_phone u) = true →
     truthy_str (customer_phone u') = true)
  ∧ (truthy_str (order_number u) = true → truthy_str (order_number u') = true)
  ∧ (truthy_str (product_id u) = true → truthy_str (product_id u') = true)
  ∧ (is_Some (issue_type u) → is_Some (issue_type u'))
  ∧ (is_Some (issue_description u) → is_Some (issue_description u'))
  ∧ (is_Some (return_reason u) → is_Some (return_reason u'))
  ∧ (is_Some (refund_amount u) → is_Some (refund_amount u'))
  ∧ (is_Some (escalation_reason u) → is_Some (escalation_reason u'))
  ∧ (is_Some (satisfaction_rating u) → is_Some (satisfaction_rating u'))
  ∧ (return_approved u = true → return_approved u' = true)
  ∧ (return_label_sent u = true → return_label_sent u' = true)
  ∧ (refund_approved u = true → refund_approved u' = true)
  ∧ (escalated u = true → escalated u' = true).

(** The state a script may leave: the registry and the agent objects are
    those of [entrypoint], the current and the previous agent are among
    them, approvals have what they need, and the manager is only active
    once the issue is escalated. *)
Definition reachable_shape (s : Session UserData) : Prop :=
  agents (userdata s) = entrypoint_agents
  ∧ agent_kinds (objects s) = agent_kinds entrypoint_objects
  ∧ is_Some (objects s !! current_agent s)
  ∧ (∀ r, prev_agent (userdata s) = Some r → is_Some (objects s !! r))
  ∧ approvals_consistent (userdata s)
  ∧ (current_agent s = manager_ref → escalated (userdata s) = true).

End SupportScript.

(** ** [PropertyFinder.search_properties] and sessions of the real-estate
    agents *)

Module EstateScript.
Import ChatCtx Voice BaseAgent PyString RealEstate.

(** The exceptions the search can raise on a preferences dict: a missing
    key, an ordering comparison of an [int] with a value that has none,
    and [.lower()] on a value that is not a [str]; and the
    [OverflowError] of [prequalify_mortgage]. *)
Inductive PyError :=
| PyKeyError (key : string)
| PyTypeError
| PyAttributeError
| PyOverflowError.

(** Truthiness of a value. *)
Definition py_truthy (v : PyValue) : bool :=
  match v with
  | PyNone => false
  | PyBool b => b
  | PyInt z => negb (z =? 0)
  | PyFloat q => negb (Qeq_bool q 0)
  | PyStr s => negb (bool_decide (s = ""))
  | PyEnum _ value => negb (bool_decide (value = ""))
  | PyList l => match l with [] => false | _ => true end
  | PyDict entries => match entries with [] => false | _ => true end
  end.

(** [n >= v] and [n <= v] for an [int] [n]: defined against an [int], a
    [bool] and a [float], a [TypeError] against anything else. *)
Definition int_ge (n : Z) (v : PyValue) : PyError + bool :=
  match v with
  | PyInt z => inr (z <=? n)
  | PyBool b => inr ((if b then 1 else 0) <=? n)
  | PyFloat q => inr (Qle_bool q (inject_Z n))
  | _ => inl PyTypeError
  end.

Definition int_le (n : Z) (v : PyValue) : PyError + bool :=
  match v with
  | PyInt z => inr (n <=? z)
  | PyBool b => inr (n <=? (if b then 1 else 0))
  | PyFloat q => inr (Qle_bool (inject_Z n) q)
  | _ => inl PyTypeError
  end.

(** [t.lower() == v.lower()] for a [str] [t]. *)
Definition lower_eq (t : string) (v : PyValue) : PyError + bool :=
  match v with
  | PyStr s => inr (bool_decide (lower t = lower s))
  | PyEnum _ value => inr (bool_decide (lower t = lower value))
  | _ => inl PyAttributeError
  end.

(** [[p for p in l if test(p)]], where the test may raise. *)
Fixpoint filter_raising (test : Property → PyError + bool)
    (l : list Property) : PyError + list Property :=
  match l with
  | [] => inr []
  | p :: l' =>
      match test p with
      | inl e => inl e
      | inr b =>
          match filter_raising test l' with
          | inl e => inl e
          | inr kept => inr (if b then p :: kept else kept)
          end
      end
  end.

(** One [if preferences[key]: matching = [p for p in matching if ...]]. *)
Definition filter_by (preferences : gmap string PyValue) (key : string)
    (test : Property → PyValue → PyError + bool)
    (matching_properties : list Property) : PyError + list Property :=
  match preferences !! key with
  | None => inl (PyKeyError key)
  | Some v =>
      if py_truthy v
      then filter_raising (λ p, test p v) matching_properties
      else inr matching_properties
  end.

(** The five filters of [search_properties], in order. *)
Definition matching (preferences : gmap string PyValue)
    : PyError + list Property :=
  match filter_by preferences "min_price" (λ p, int_ge (price p))
          PROPERTY_DATABASE with
  | inl e => inl e
  | inr l =>
  match filter_by preferences "max_price" (λ p, int_le (price p)) l with
  | inl e => inl e
  | inr l =>
  match filter_by preferences "min_bedrooms" (λ p, int_ge (bedrooms p)) l with
  | inl e => inl e
  | inr l =>
  match filter_by preferences "min_bathrooms" (λ p, int_ge (bathrooms p)) l with
  | inl e => inl e
  | inr l => filter_by preferences "property_type" (λ p, lower_eq (type p)) l
  end end end end.

(** The text the loop adds for the [i]-th property. *)
Definition describe (i : nat) (prop : Property) : string :=
  "Property " +:+ pretty i +:+ ": " +:+ address prop +:+ newline
  +:+ "Price: $" +:+ format_thousands (price prop) +:+ newline
  +:+ pretty (bedrooms prop) +:+ " bed, " +:+ pretty (bathrooms prop)
  +:+ " bath, " +:+ pretty (sqft prop) +:+ " sq ft" +:+ newline
  +:+ "Type: " +:+ type prop +:+ newline
  +:+ "Description: " +:+ description prop +:+ newline +:+ newline.

(** The [for i, prop in enumerate(matching_properties, 1)] loop: the text
    built and the viewed properties, from [i] on. *)
Fixpoint report (i : nat) (matching_properties : list Property)
    (result : string) (viewed : list string) : string * list string :=
  match matching_properties with
  | [] => (result, viewed)
  | prop :: rest =>
      report (S i) rest (result +:+ describe i prop)
        (if bool_decide (id prop ∈ viewed) then viewed
         else viewed ++ [id prop])
  end.

(** [PropertyFinder.search_properties] *)
Definition search_properties (s : Session UserData)
    : PyError + (ToolResult * Session UserData) :=
  let userdata := userdata s in
  let preferences := property_preferences userdata in
  match matching preferences with
  | inl e => inl e
  | inr [] =>
      inr (Narrated "I couldn't find any properties matching your criteria. Would you like to adjust your preferences?",
           s)
  | inr matching_properties =>
      let result :=
        "I found " +:+ pretty (length matching_properties)
        +:+ " properties matching your criteria:" +:+ newline +:+ newline in
      let '(result, viewed) :=
        report 1 matching_properties result (viewed_properties userdata) in
      inr (Narrated result,
           set_userdata (set_viewed_properties viewed userdata) s)
  end.

(** A tool of the [Run] kind, its exception kept. *)
Definition lift (tool : Tool) (s : Session UserData)
    : PyError + (ToolResult * Session UserData) :=
  match tool s with
  | inl (KeyError key) => inl (PyKeyError key)
  | inl OverflowError => inl PyOverflowError
  | inr out => inr out
  end.

(** One tool operation the model can ask for, with its arguments. *)
Inductive ToolCall :=
| update_name_call (name : string)
| update_phone_call (phone : string)
| update_email_call (email : string)
| greeter_to_property_finder
| greeter_to_viewing_scheduler
| greeter_to_mortgage_advisor
| update_property_preferences_call
    (min_price max_price min_bedrooms min_bathrooms : option Z)
    (property_type location : option string)
| search_properties_call
| express_interest_call (property_address : string)
| finder_to_greeter
| finder_to_viewing_scheduler
| schedule_viewing_call (property_address date time : string)
| scheduler_to_greeter
| scheduler_to_mortgage_advisor
| prequalify_mortgage_call
    (annual_income credit_score down_payment monthly_debt : Z)
| advisor_to_greeter
| advisor_to_property_finder.

(** The tool a call runs. [estimate] is passed on to
    [prequalify_mortgage]. *)
Definition run_call (estimate : Z → Z → Z → Z → option Z) (c : ToolCall)
    (s : Session UserData) : PyError + (ToolResult * Session UserData) :=
  match c with
  | update_name_call name => lift (update_name name) s
  | update_phone_call phone => lift (update_phone phone) s
  | update_email_call email => lift (update_email email) s
  | greeter_to_property_finder => lift Greeter.to_property_finder s
  | greeter_to_viewing_scheduler => lift Greeter.to_viewing_scheduler s
  | greeter_to_mortgage_advisor => lift Greeter.to_mortgage_advisor s
  | update_property_preferences_call min_price max_price min_bedrooms
      min_bathrooms property_type location =>
      lift (PropertyFinder.update_property_preferences min_price max_price
              min_bedrooms min_bathrooms property_type location) s
  | search_properties_call => search_properties s
  | express_interest_call property_address =>
      lift (PropertyFinder.express_interest property_address) s
  | finder_to_greeter => lift PropertyFinder.to_greeter s
  | finder_to_viewing_scheduler => lift PropertyFinder.to_viewing_scheduler s
  | schedule_viewing_call property_address date time =>
      lift (ViewingScheduler.schedule_viewing property_address date time) s
  | scheduler_to_greeter => lift ViewingScheduler.to_greeter s
  | scheduler_to_mortgage_advisor =>
      lift ViewingScheduler.to_mortgage_advisor s
  | prequalify_mortgage_call annual_income credit_score down_payment
      monthly_debt =>
      lift (MortgageAdvisor.prequalify_mortgage estimate annual_income
              credit_score down_payment monthly_debt) s
  | advisor_to_greeter => lift MortgageAdvisor.to_greeter s
  | advisor_to_property_finder => lift MortgageAdvisor.to_property_finder s
  end.

(** A script of calls, run in order; after each call the driver does what
    its result asks for. [None] is a turn that an exception or a missing
    agent object ended. A script may name any tool whichever agent is
    active. *)
Fixpoint run_script (yaml_dump : PyValue → string)
    (estimate : Z → Z → Z → Z → option Z)
    (script : list (string * ToolCall)) (s : Session UserData)
    : option (Session UserData) :=
  match script with
  | [] => Some s
  | (new_id, c) :: rest =>
      match run_call estimate c s with
      | inl _ => None
      | inr (r, s') =>
          s'' ← apply_tool_result yaml_dump new_id r s';
          run_script yaml_dump estimate rest s''
      end
  end.

(** The session [entrypoint] starts, after a script. *)
Definition session_after (yaml_dump : PyValue → string)
    (estimate : Z → Z → Z → Z → option Z) (first_id : string)
    (script : list (string * ToolCall)) : option (Session UserData) :=
  s ← entrypoint yaml_dump first_id;
  run_script yaml_dump estimate script s.

(** A numeric preference is [None] or an [int], a text preference [None]
    or a [str]. *)
Definition numeric_preference (v : PyValue) : Prop :=
  v = PyNone ∨ ∃ z, v = PyInt z.
Definition text_preference (v : PyValue) : Prop :=
  v = PyNone ∨ ∃ t, v = PyStr t.

(** The preferences have the six keys of the default and values of the
    kind each key is for. *)
Definition preferences_typed (preferences : gmap string PyValue) : Prop :=
  dom preferences = dom default_preferences
  ∧ (∀ key v, key ∈ ["min_price"; "max_price"; "min_bedrooms"; "min_bathrooms"] →
              preferences !! key = Some v → numeric_preference v)
  ∧ (∀ key v, key ∈ ["property_type"; "location"] →
              preferences !! key = Some v → text_preference v).

(** A list of property ids without repetition, all from the catalogue. *)
Definition catalogue_ids (ids : list string) : Prop :=
  NoDup ids ∧ ids ⊆ id <$> PROPERTY_DATABASE.

(** What a viewing or a pre-qualification on file says of the other
    fields: date and time are set together, and only once name and phone
    hold a value; the flag is up exactly when an amount is stored, and only
    once name, phone and email hold a value. *)
Definition bookings_consistent (u : UserData) : Prop :=
  (is_Some (viewing_date u) ↔ is_Some (viewing_time u))
  ∧ (is_Some (viewing_date u) →
     is_Some (customer_name u) ∧ is_Some (customer_phone u))
  ∧ (prequalified u = true ↔ is_Some (prequalified_amount u))
  ∧ (prequalified u = true →
     is_Some (customer_name u) ∧ is_Some (customer_phone u)
     ∧ is_Some (customer_email u)).

(** The state a script may leave. *)
Definition reachable_shape (s : Session UserData) : Prop :=
  agents (userdata s) = entrypoint_agents
  ∧ SupportScript.agent_kinds (objects s)
    = SupportScript.agent_kinds entrypoint_objects
  ∧ is_Some (objects s !! current_agent s)
  ∧ (∀ r, prev_agent (userdata s) = Some r → is_Some (objects s !! r))
  ∧ preferences_typed (property_preferences (userdata s))
  ∧ catalogue_ids (viewed_properties (userdata s))
  ∧ catalogue_ids (interested_properties (userdata s))
  ∧ bookings_consistent (userdata s).

End EstateScript.

(** ** Scripts whose estimates return *)

Module EstateRuns.
Import Voice RealEstate EstateScript.

(** The float computation of a [prequalify_mortgage] call raises nothing;
    any other call has none. *)
Definition estimate_returns (estimate : Z → Z → Z → Z → option Z)
    (c : ToolCall) : Prop :=
  match c with
  | prequalify_mortgage_call annual_income credit_score down_payment
      monthly_debt =>
      is_Some (estimate annual_income credit_score down_payment monthly_debt)
  | _ => True
  end.

(** Every call of a script is one whose estimate returns. *)
Definition estimates_return (estimate : Z → Z → Z → Z → option Z)
    (script : list (string * ToolCall)) : Prop :=
  Forall (λ call, estimate_returns estimate call.2) script.

End EstateRuns.

(** ** What a summary holds and what it leaves out *)

Module SupportSummary.
Import Voice BaseAgent CustomerSupport.

Definition set_agents (v : gmap string AgentRef) (u : UserData) : UserData :=
  {| customer_name := customer_name u; customer_email := customer_email u;
     customer_phone := customer_phone u; order_number := order_number u;
     product_id := product_id u; issue_type := issue_type u;
     issue_description := issue_description u;
     return_reason := return_reason u; return_approved := return_approved u;
     return_label_sent := return_label_sent u;
     refund_amount := refund_amount u; refund_approved := refund_approved u;
     escalated := escalated u; escalation_reason := escalation_reason u;
     satisfaction_rating := satisfaction_rating u; agents := v;
     prev_agent := prev_agent u |}.

(** Every populated scalar field of [u] is in the mapping [d], under its
    key and with its value. A string field written through
    [or "unknown"] is populated when it is set and not empty. The return
    fields are looked for when the issue type is [RETURN], the refund
    fields when it is [BILLING]. *)
Definition populated_shown (u : UserData) (d : PyValue) : Prop :=
  (∀ v, v ≠ "" → customer_name u = Some v →
        py_path ["customer_info"; "name"] d = Some (PyStr v))
  ∧ (∀ v, v ≠ "" → customer_email u = Some v →
          py_path ["customer_info"; "email"] d = Some (PyStr v))
  ∧ (∀ v, v ≠ "" → customer_phone u = Some v →
          py_path ["customer_info"; "phone"] d = Some (PyStr v))
  ∧ (∀ v, v ≠ "" → order_number u = Some v →
          py_path ["issue_details"; "order_number"] d = Some (PyStr v))
  ∧ (∀ v, v ≠ "" → product_id u = Some v →
          py_path ["issue_details"; "product_id"] d = Some (PyStr v))
  ∧ (∀ t, issue_type u = Some t →
          py_path ["issue_details"; "issue_type"] d
          = Some (PyEnum "IssueType" (issue_type_value t)))
  ∧ (∀ v, v ≠ "" → issue_description u = Some v →
          py_path ["issue_details"; "description"] d = Some (PyStr v))
  ∧ py_path ["escalation"; "escalated"] d = Some (PyBool (escalated u))
  ∧ (∀ v, escalation_reason u = Some v →
          py_path ["escalation"; "reason"] d = Some (PyStr v))
  ∧ (∀ r, satisfaction_rating u = Some r →
          py_path ["satisfaction"] d = Some (PyInt r))
  ∧ (issue_type u = Some RETURN →
     (∀ v, return_reason u = Some v →
           py_path ["return_status"; "reason"] d = Some (PyStr v))
     ∧ py_path ["return_status"; "approved"] d
       = Some (PyBool (return_approved u))
     ∧ py_path ["return_status"; "label_sent"] d
       = Some (PyBool (return_label_sent u)))
  ∧ (issue_type u = Some BILLING →
     (∀ q, refund_amount u = Some q →
           py_path ["billing_status"; "refund_amount"] d = Some (PyFloat q))
     ∧ py_path ["billing_status"; "approved"] d
       = Some (PyBool (refund_approved u))).

(** Unless the issue type is [RETURN] the summary has [None] for the
    return section, and its text is the same whatever the return reason
    and the two return flags hold; likewise the refund amount and
    approval unless the issue type is [BILLING]. *)
Definition sections_hidden (yaml_dump : PyValue → string) (u : UserData)
    : Prop :=
  (issue_type u ≠ Some RETURN →
   py_get "return_status" (summarize_data u) = Some PyNone
   ∧ ∀ reason approved sent,
       summarize yaml_dump
         (set_return_label_sent sent
            (set_return_approved approved (set_return_reason reason u)))
       = summarize yaml_dump u)
  ∧ (issue_type u ≠ Some BILLING →
     py_get "billing_status" (summarize_data u) = Some PyNone
     ∧ ∀ amount approved,
         summarize yaml_dump
           (set_refund_approved approved (set_refund_amount amount u))
         = summarize yaml_dump u).

(** The text of the summary is the same for any two values of a string
    field written through [or "unknown"] that are unset, empty or
    ["unknown"]. *)
Definition unknown_alike (yaml_dump : PyValue → string) (u : UserData)
    : Prop :=
  ∀ o1 o2, ¬ known_str o1 → ¬ known_str o2 →
    summarize yaml_dump (set_customer_name o1 u)
    = summarize yaml_dump (set_customer_name o2 u)
    ∧ summarize yaml_dump (set_customer_email o1 u)
      = summarize yaml_dump (set_customer_email o2 u)
    ∧ summarize yaml_dump (set_customer_phone o1 u)
      = summarize yaml_dump (set_customer_phone o2 u)
    ∧ summarize yaml_dump (set_order_number o1 u)
      = summarize yaml_dump (set_order_number o2 u)
    ∧ summarize yaml_dump (set_product_id o1 u)
      = summarize yaml_dump (set_product_id o2 u)
    ∧ summarize yaml_dump (set_issue_description o1 u)
      = summarize yaml_dump (set_issue_description o2 u).

(** [u2] has the scalar fields of [u1] that a summary shows: a string
    field written through [or "unknown"] when it is known in [u1], the
    return fields when the issue type is [RETURN], the refund fields when
    it is [BILLING], every other scalar field always. *)
Definition same_where_shown (u1 u2 : UserData) : Prop :=
  (known_str (customer_name u1) → customer_name u2 = customer_name u1)
  ∧ (known_str (customer_email u1) → customer_email u2 = customer_email u1)
  ∧ (known_str (customer_phone u1) → customer_phone u2 = customer_phone u1)
  ∧ (known_str (order_number u1) → order_number u2 = order_number u1)
  ∧ (known_str (product_id u1) → product_id u2 = product_id u1)
  ∧ (known_str (issue_description u1) →
     issue_description u2 = issue_description u1)
  ∧ issue_type u2 = issue_type u1
  ∧ escalated u2 = escalated u1
  ∧ escalation_reason u2 = escalation_reason u1
  ∧ satisfaction_rating u2 = satisfaction_rating u1
  ∧ (issue_type u1 = Some RETURN →
     return_reason u2 = return_reason u1
     ∧ return_approved u2 = return_approved u1
     ∧ return_label_sent u2 = return_label_sent u1)
  ∧ (issue_type u1 = Some BILLING →
     refund_amount u2 = refund_amount u1
     ∧ refund_approved u2 = refund_approved u1).

End SupportSummary.

Module EstateSummary.
Import Voice BaseAgent RealEstate.

(** Unless the viewing date is set and not empty the summary has [None]
    for the viewing, and its text is the same whatever the time holds and
    whichever of unset and empty the date is. *)
Definition sections_hidden (yaml_dump : PyValue → string) (u : UserData)
    : Prop :=
  truthy_str (viewing_date u) = false →
  py_get "viewing_scheduled" (summarize_data u) = Some PyNone
  ∧ ∀ date time,
      truthy_str date = false →
      summarize yaml_dump (set_viewing_time time (set_viewing_date date u))
      = summarize yaml_dump u.

Definition unknown_alike (yaml_dump : PyValue → string) (u : UserData)
    : Prop :=
  ∀ o1 o2, ¬ known_str o1 → ¬ known_str o2 →
    summarize yaml_dump (set_customer_name o1 u)
    = summarize yaml_dump (set_customer_name o2 u)
    ∧ summarize yaml_dump (set_customer_phone o1 u)
      = summarize yaml_dump (set_customer_phone o2 u)
    ∧ summarize yaml_dump (set_customer_email o1 u)
      = summarize yaml_dump (set_customer_email o2 u).

(** [u2] has the scalar fields of [u1] that a summary shows, and the
    preferences and the two lists of properties. *)
Definition same_where_shown (u1 u2 : UserData) : Prop :=
  (known_str (customer_name u1) → customer_name u2 = customer_name u1)
  ∧ (known_str (customer_phone u1) → customer_phone u2 = customer_phone u1)
  ∧ (known_str (customer_email u1) → customer_email u2 = customer_email u1)
  ∧ property_preferences u2 = property_preferences u1
  ∧ viewed_properties u2 = viewed_properties u1
  ∧ interested_properties u2 = interested_properties u1
  ∧ (truthy_str (viewing_date u1) = true →
     viewing_date u2 = viewing_date u1 ∧ viewing_time u2 = viewing_time u1)
  ∧ prequalified u2 = prequalified u1
  ∧ prequalified_amount u2 = prequalified_amount u1.

End EstateSummary.

(** ** Reading a summary back *)

Module Reparse.
Import Voice.

(** [yaml_load] reads the text [yaml_dump] writes for [d] back to [d].
    PyYAML is outside the repository: that its [load] undoes its [dump] on
    a mapping is taken as given where a statement needs it. *)
Definition reparses (yaml_dump : PyValue → string)
    (yaml_load : string → option PyValue) (d : PyValue) : Prop :=
  yaml_load (yaml_dump d) = Some d.

(** A stand-in for [yaml.load] that knows the texts of the listed
    mappings. *)
Definition table_load (yaml_dump : PyValue → string) (known : list PyValue)
    (text : string) : option PyValue :=
  snd <$> list_find (λ d, bool_decide (yaml_dump d = text)) known.

End Reparse.


(** * Properties *)

(** Unfolds the sequencing of [Run]. *)
Ltac unfold_run :=
  cbv [mbind mret Voice.Run_bind Voice.Run_ret Voice.bind Voice.ret
       Voice.get_userdata Voice.put_userdata Voice.modify_userdata
       Voice.when].

Section Truncation.
Import ChatCtx.

Implicit Types (items new_items : list ChatItem) (item : ChatItem).

Lemma pop_leading_head new_items :
  match head (pop_leading_function_items new_items) with
  | Some item => is_function_item item = false
  | None => True
  end.
Proof.
  induction new_items as [|item rest IH]; simpl; [done|].
  destruct (is_function_item item) eqn:E; [exact IH | simpl; exact E].
Qed.

(** While the requested count has not been reached, the loop takes the
    next valid items in the order it meets them. *)
Lemma collect_loop_take (valid : ChatItem → bool) (n : Z) rev_items :
  ∀ new_items,
    Z.of_nat (length new_items) < n →
    collect_loop valid n rev_items new_items
    = new_items ++ take (Z.to_nat n - length new_items) (filter valid rev_items).
Proof.
  induction rev_items as [|item rest IH]; intros new_items Hlt; simpl.
  - by rewrite filter_nil, take_nil, app_nil_r.
  - rewrite filter_cons. destruct (valid item) eqn:Hv; simpl.
    + rewrite length_app; simpl.
      destruct (Z.geb_spec (Z.of_nat (length new_items + 1)) n) as [Hge|Hlt'].
      * replace (Z.to_nat n - length new_items)%nat with 1%nat by lia.
        simpl. by rewrite take_0.
      * rewrite IH by (rewrite length_app; simpl; lia).
        rewrite length_app; simpl. rewrite <- app_assoc; simpl.
        replace (Z.to_nat n - length new_items)%nat
          with (S (Z.to_nat n - (length new_items + 1)))%nat by lia.
        done.
    + destruct (Z.geb_spec (Z.of_nat (length new_items)) n); [lia|].
      by apply IH.
Qed.

(** For a positive count, truncation is: keep the valid items, take the
    last [n] of them, pop the leading function items. *)
Lemma truncate_positive items (n : Z) (ks kf : bool) :
  0 < n →
  _truncate_chat_ctx items n ks kf
  = pop_leading_function_items
      (last_n (Z.to_nat n) (filter (_valid_item ks kf) items)).
Proof.
  intros Hn. unfold _truncate_chat_ctx, last_n.
  rewrite collect_loop_take by (simpl; lia). simpl.
  rewrite Nat.sub_0_r, filter_reverse, take_reverse, reverse_involutive.
  done.
Qed.

(** C1. Whatever the items, the count and the two flags, the list
    [_truncate_chat_ctx] returns does not start with a [function_call] or
    a [function_call_output] item. *)
Theorem truncate_head_not_function_item items (n : Z) (ks kf : bool) :
  match head (_truncate_chat_ctx items n ks kf) with
  | Some item => is_function_item item = false
  | None => True
  end.
Proof. unfold _truncate_chat_ctx. apply pop_leading_head. Qed.

End Truncation.

Section TruncationKeepsLastItems.
Import ChatCtx.

Implicit Types (items new_items : list ChatItem) (item : ChatItem).

Lemma pop_leading_suffix new_items :
  pop_leading_function_items new_items `suffix_of` new_items.
Proof.
  induction new_items as [|item rest IH]; simpl; [done|].
  destruct (is_function_item item); [by apply suffix_cons_r | done].
Qed.

Lemma suffix_is_sublist {A} (l1 l2 : list A) :
  l1 `suffix_of` l2 → l1 `sublist_of` l2.
Proof. intros [k ->]. by apply sublist_inserts_l. Qed.

Lemma last_n_length {A} (n : nat) (l : list A) :
  (n ≤ length l)%nat → length (last_n n l) = n.
Proof. intros Hn. unfold last_n. rewrite length_drop. lia. Qed.

Lemma truncate_positive_sublist items (n : Z) (ks kf : bool) :
  0 < n → _truncate_chat_ctx items n ks kf `sublist_of` items.
Proof.
  intros Hn. rewrite truncate_positive by done.
  etrans; [apply suffix_is_sublist, pop_leading_suffix|].
  etrans; [apply sublist_drop|]. apply sublist_filter.
Qed.

(** C2. With [keep_last_n_messages = 6] and at least 20 eligible items,
    the result is the last 6 eligible items, which are exactly 6 and form
    the end of the eligible items in input order, with the leading
    function items popped; what is returned is in the order of the
    input. *)
Theorem truncate_keeps_last_six items (ks kf : bool) :
  (20 ≤ length (filter (_valid_item ks kf) items))%nat →
  _truncate_chat_ctx items 6 ks kf
    = pop_leading_function_items
        (last_n 6 (filter (_valid_item ks kf) items))
  ∧ length (last_n 6 (filter (_valid_item ks kf) items)) = 6%nat
  ∧ last_n 6 (filter (_valid_item ks kf) items)
      `suffix_of` filter (_valid_item ks kf) items
  ∧ _truncate_chat_ctx items 6 ks kf
      `suffix_of` last_n 6 (filter (_valid_item ks kf) items)
  ∧ _truncate_chat_ctx items 6 ks kf `sublist_of` items.
Proof.
  intros Hlen.
  assert (Heq : _truncate_chat_ctx items 6 ks kf
                = pop_leading_function_items
                    (last_n 6 (filter (_valid_item ks kf) items)))
    by (by rewrite truncate_positive).
  repeat split.
  - exact Heq.
  - apply last_n_length. lia.
  - apply suffix_drop.
  - rewrite Heq. apply pop_leading_suffix.
  - by apply truncate_positive_sublist.
Qed.

Lemma truncate_keeps_last_six_witness :
  (20 ≤ length (filter (_valid_item false true) Samples.long_history))%nat
  ∧ _truncate_chat_ctx Samples.long_history 6 false true
    = [ ChatMessage "reply_f" assistant "It has shipped.";
        ChatMessage "user_g" user "Where is my order?";
        FunctionCall "call_g" "lookup_order" "{}";
        FunctionCallOutput "out_g" "call_g" "shipped";
        ChatMessage "reply_g" assistant "It has shipped." ].
Proof.
  assert (H : (20 ≤ length (filter (_valid_item false true)
                              Samples.long_history))%nat)
    by (vm_compute; lia).
  split; [exact H|].
  destruct (truncate_keeps_last_six Samples.long_history false true H)
    as [-> _].
  reflexivity.
Defined.

End TruncationKeepsLastItems.

Section CarryOver.
Import ChatCtx BaseAgent.

Implicit Types (chat_ctx prev_items : list ChatItem) (item : ChatItem).

Lemma carry_over_app chat_ctx prev_items :
  carry_over chat_ctx prev_items = chat_ctx ++ carried chat_ctx prev_items.
Proof. reflexivity. Qed.

Lemma filter_none {A} (P : A → Prop) `{∀ x, Decision (P x)} (l : list A) :
  (∀ x, x ∈ l → ¬ P x) → filter P l = [].
Proof.
  induction l as [|x l IH]; intros Hl; [done|].
  rewrite filter_cons, decide_False by (apply Hl; left).
  apply IH. intros y Hy. apply Hl. by right.
Qed.

(** A second carry-over from the same history finds every item already
    present. *)
Lemma carried_again_nil chat_ctx prev_items :
  carried (carry_over chat_ctx prev_items) prev_items = [].
Proof.
  apply filter_none. intros item Hitem Hnew. apply Hnew.
  rewrite elem_of_list_to_set, carry_over_app, fmap_app, elem_of_app.
  destruct (decide (item_id item ∈ item_id <$> chat_ctx)) as [Hin|Hout].
  - by left.
  - right. apply list_elem_of_fmap_2, list_elem_of_filter.
    split; [|done]. by rewrite elem_of_list_to_set.
Qed.

Lemma carried_ids_NoDup chat_ctx prev_items :
  NoDup (item_id <$> prev_items) →
  NoDup (item_id <$> carried chat_ctx prev_items).
Proof.
  intros Hprev. eapply sublist_NoDup; [exact Hprev|]. apply fmap_sublist.
  etrans; [apply sublist_filter|]. by apply truncate_positive_sublist.
Qed.

(** C3. Carrying the previous agent's history over twice in a row gives
    the buffer one carry-over gives: the second one appends nothing. With
    the ids of the receiving buffer and of the history each unique (ids
    are unique within a session), no id occurs twice in the buffer after
    the two carry-overs. *)
Theorem carry_over_twice_no_duplicate_id chat_ctx prev_items :
  carry_over (carry_over chat_ctx prev_items) prev_items
    = carry_over chat_ctx prev_items
  ∧ (NoDup (item_id <$> chat_ctx) →
     NoDup (item_id <$> prev_items) →
     NoDup (item_id <$>
              carry_over (carry_over chat_ctx prev_items) prev_items)).
Proof.
  assert (Heq : carry_over (carry_over chat_ctx prev_items) prev_items
                = carry_over chat_ctx prev_items).
  { rewrite (carry_over_app (carry_over _ _)), carried_again_nil.
    apply app_nil_r. }
  split; [exact Heq|]. intros Hctx Hprev.
  rewrite Heq, carry_over_app, fmap_app. apply NoDup_app.
  split; [done|]. split; [|by apply carried_ids_NoDup].
  intros id Hid [item [-> Hitem]]%list_elem_of_fmap.
  apply list_elem_of_filter in Hitem as [Hnew _].
  apply Hnew. by rewrite elem_of_list_to_set.
Qed.

Lemma carry_over_twice_no_duplicate_id_witness :
  carry_over (carry_over Samples.own_buffer Samples.short_history)
      Samples.short_history
    = Samples.own_buffer
        ++ [ ChatMessage "user_a" user "Where is my order?";
             FunctionCall "call_a" "lookup_order" "{}";
             FunctionCallOutput "out_a" "call_a" "shipped" ]
  ∧ NoDup (item_id <$> carry_over
             (carry_over Samples.own_buffer Samples.short_history)
             Samples.short_history).
Proof.
  destruct (carry_over_twice_no_duplicate_id
              Samples.own_buffer Samples.short_history) as [Heq Hnd].
  split.
  - rewrite Heq. vm_compute. reflexivity.
  - apply Hnd; apply (bool_decide_unpack _); vm_compute; exact I.
Defined.

End CarryOver.

Section Handoff.
Import ChatCtx Voice BaseAgent.

(** C4. For a name that is not a key of [userdata.agents],
    [_transfer_to_agent] raises the [KeyError] of the registry lookup
    (the configuration error) and returns no result at all, be it a
    string or an agent with a string. *)
Theorem transfer_to_unknown_agent_raises `{UserDataLike U} (name : string)
    (s : Session U) :
  ud_agents (userdata s) !! name = None →
  _transfer_to_agent name s = inl (KeyError name)
  ∧ ∀ (r : ToolResult) (s' : Session U),
      _transfer_to_agent name s ≠ inr (r, s').
Proof.
  intros Hname. unfold _transfer_to_agent. rewrite Hname.
  split; [reflexivity | discriminate].
Qed.

Lemma transfer_to_unknown_agent_raises_witness :
  CustomerSupport.ReturnsAgent.to_billing
    (set_userdata CustomerSupport.UserData_default
       CustomerSupport.entrypoint_session)
  = inl (KeyError "billing").
Proof.
  refine (proj1 (transfer_to_unknown_agent_raises "billing"
                   (set_userdata CustomerSupport.UserData_default
                      CustomerSupport.entrypoint_session) _)).
  reflexivity.
Defined.

(** C6. For a registered name, [_transfer_to_agent] returns the agent
    registered under it with the text ["Transferring to <name>."]; in the
    session it leaves, [prev_agent] is the agent that was current, every
    other field of the user data is as before, and the current agent, the
    session's model, the agent objects with their chat items and the
    requested replies are as before. This holds for the [UserData] of
    both example files. *)
Theorem transfer_to_agent_frame (name : string) (next : AgentRef) :
  (∀ s : Session CustomerSupport.UserData,
     CustomerSupport.agents (userdata s) !! name = Some next →
     ∃ s',
       _transfer_to_agent name s
         = inr (Handoff next ("Transferring to " +:+ name +:+ "."), s')
       ∧ CustomerSupport.prev_agent (userdata s') = Some (current_agent s)
       ∧ userdata s'
         = CustomerSupport.set_prev_agent (Some (current_agent s)) (userdata s)
       ∧ CustomerSupport.set_prev_agent
           (CustomerSupport.prev_agent (userdata s)) (userdata s')
         = userdata s
       ∧ current_agent s' = current_agent s
       ∧ session_llm s' = session_llm s
       ∧ objects s' = objects s
       ∧ (∀ r, items_of r s' = items_of r s)
       ∧ reply_requests s' = reply_requests s)
  ∧ (∀ s : Session RealEstate.UserData,
     RealEstate.agents (userdata s) !! name = Some next →
     ∃ s',
       _transfer_to_agent name s
         = inr (Handoff next ("Transferring to " +:+ name +:+ "."), s')
       ∧ RealEstate.prev_agent (userdata s') = Some (current_agent s)
       ∧ userdata s'
         = RealEstate.set_prev_agent (Some (current_agent s)) (userdata s)
       ∧ RealEstate.set_prev_agent
           (RealEstate.prev_agent (userdata s)) (userdata s')
         = userdata s
       ∧ current_agent s' = current_agent s
       ∧ session_llm s' = session_llm s
       ∧ objects s' = objects s
       ∧ (∀ r, items_of r s' = items_of r s)
       ∧ reply_requests s' = reply_requests s).
Proof.
  split; intros s Hname; eexists; unfold _transfer_to_agent; simpl;
    rewrite Hname; (split; [reflexivity|]); simpl;
    destruct s as [[] ? ? ? ?]; simpl; repeat split; reflexivity.
Qed.

Lemma transfer_to_agent_frame_witness :
  ∃ s',
    CustomerSupport.ReturnsAgent.to_billing CustomerSupport.entrypoint_session
      = inr (Handoff CustomerSupport.billing_ref "Transferring to billing.", s')
    ∧ CustomerSupport.prev_agent (userdata s')
      = Some CustomerSupport.initial_ref
    ∧ objects s' = CustomerSupport.entrypoint_objects.
Proof.
  destruct (proj1 (transfer_to_agent_frame "billing"
                     CustomerSupport.billing_ref)
              CustomerSupport.entrypoint_session)
    as (s' & Hrun & Hprev & _ & _ & _ & _ & Hobj & _).
  - reflexivity.
  - exists s'. repeat split; assumption.
Defined.

End Handoff.

Section SoftFailure.
Import Voice BaseAgent.

(** C7. A tool whose guard on the user data fails returns the string
    that asks for what is missing and hands back the very session it was
    given: no field of the user data, and nothing else of the session,
    has changed. This covers every guarded tool of the customer-support
    agents ([process_return], [send_return_label], [troubleshoot_issue],
    [process_refund], [manage_subscription], [resolve_escalated_issue])
    and of the real-estate agents ([to_viewing_scheduler],
    [schedule_viewing], [prequalify_mortgage]). *)
Theorem unmet_precondition_returns_guidance :
  (∀ (s : Session CustomerSupport.UserData),
     let u := userdata s in
     (∀ reason,
        truthy_str (CustomerSupport.order_number u) = false
        ∨ truthy_str (CustomerSupport.product_id u) = false →
        CustomerSupport.ReturnsAgent.process_return reason s
        = inr (Narrated "Before I can process your return, I'll need your order number and the product ID. Do you have those available?", s))
     ∧ (CustomerSupport.return_approved u = false →
        CustomerSupport.ReturnsAgent.send_return_label s
        = inr (Narrated "I see that your return hasn't been approved yet. Let's first verify if your product is eligible for return.", s))
     ∧ (CustomerSupport.return_approved u = true →
        truthy_str (CustomerSupport.customer_email u) = false →
        CustomerSupport.ReturnsAgent.send_return_label s
        = inr (Narrated "I'll need your email address to send the return label. Could you please provide that?", s))
     ∧ (truthy_str (CustomerSupport.product_id u) = false →
        truthy_str (CustomerSupport.issue_description u) = false →
        CustomerSupport.TechnicalAgent.troubleshoot_issue s
        = inr (Narrated "To help troubleshoot your issue, I'll need more details about the product and the problem you're experiencing. Could you describe what's happening?", s))
     ∧ (∀ amount,
        truthy_str (CustomerSupport.order_number u) = false →
        CustomerSupport.BillingAgent.process_refund amount s
        = inr (Narrated "Before I can process a refund, I'll need your order number. Do you have that available?", s))
     ∧ (∀ amount,
        truthy_str (CustomerSupport.order_number u) = true →
        truthy_str (CustomerSupport.customer_email u) = false →
        CustomerSupport.BillingAgent.process_refund amount s
        = inr (Narrated "I'll need your email address to process the refund. Could you please provide that?", s))
     ∧ (∀ action,
        truthy_str (CustomerSupport.customer_email u) = false →
        CustomerSupport.BillingAgent.manage_subscription action s
        = inr (Narrated "I'll need your email address to locate your subscription. Could you please provide that?", s))
     ∧ (∀ resolution accommodation,
        CustomerSupport.escalated u = false →
        CustomerSupport.ManagerAgent.resolve_escalated_issue
          resolution accommodation s
        = inr (Narrated "I'm not seeing any escalated issue in our system. Could you please explain the issue you're experiencing?", s)))
  ∧ (∀ (s : Session RealEstate.UserData),
     let u := userdata s in
     (RealEstate.interested_properties u = [] →
      RealEstate.PropertyFinder.to_viewing_scheduler s
      = inr (Narrated "Before scheduling a viewing, please select at least one property you're interested in.", s))
     ∧ (∀ property_address date time,
        truthy_str (RealEstate.customer_name u) = false
        ∨ truthy_str (RealEstate.customer_phone u) = false →
        RealEstate.ViewingScheduler.schedule_viewing
          property_address date time s
        = inr (Narrated
                 (if RealEstate.PropertyFinder.find_by_address property_address
                  is Some _
                  then "Before I can schedule a viewing, I'll need your name and phone number so our agent can contact you."
                  else "I couldn't find a property with the address '"
                       +:+ property_address
                       +:+ "' in our database. Could you please verify the address?"),
               s))
     ∧ (∀ estimate annual_income credit_score down_payment monthly_debt,
        truthy_str (RealEstate.customer_name u) = false
        ∨ truthy_str (RealEstate.customer_phone u) = false
        ∨ truthy_str (RealEstate.customer_email u) = false →
        RealEstate.MortgageAdvisor.prequalify_mortgage estimate
          annual_income credit_score down_payment monthly_debt s
        = inr (Narrated "Before I can pre-qualify you, I'll need your full contact information (name, phone, and email).", s))).
Proof.
  split; intros s u; subst u.
  - repeat split.
    + intros reason Hor.
      unfold CustomerSupport.ReturnsAgent.process_return; unfold_run.
      destruct Hor as [-> | ->]; [reflexivity|].
      by rewrite orb_true_r.
    + intros Ha. unfold CustomerSupport.ReturnsAgent.send_return_label; unfold_run.
      by rewrite Ha.
    + intros Ha He.
      unfold CustomerSupport.ReturnsAgent.send_return_label; unfold_run.
      by rewrite Ha, He.
    + intros Hp Hd.
      unfold CustomerSupport.TechnicalAgent.troubleshoot_issue; unfold_run.
      by rewrite Hp, Hd.
    + intros amount Ho.
      unfold CustomerSupport.BillingAgent.process_refund; unfold_run.
      by rewrite Ho.
    + intros amount Ho He.
      unfold CustomerSupport.BillingAgent.process_refund; unfold_run.
      by rewrite Ho, He.
    + intros action He.
      unfold CustomerSupport.BillingAgent.manage_subscription; unfold_run.
      by rewrite He.
    + intros resolution accommodation He.
      unfold CustomerSupport.ManagerAgent.resolve_escalated_issue; unfold_run.
      by rewrite He.
  - repeat split.
    + intros Hi.
      unfold RealEstate.PropertyFinder.to_viewing_scheduler; unfold_run.
      by rewrite Hi.
    + intros property_address date time Hor.
      unfold RealEstate.ViewingScheduler.schedule_viewing; unfold_run.
      destruct (RealEstate.PropertyFinder.find_by_address property_address);
        [|reflexivity].
      destruct Hor as [-> | ->]; [reflexivity|].
      by rewrite orb_true_r.
    + intros estimate annual_income credit_score down_payment monthly_debt Hor.
      unfold RealEstate.MortgageAdvisor.prequalify_mortgage; unfold_run.
      destruct Hor as [-> | [-> | ->]]; [reflexivity| |].
      * by rewrite orb_true_r.
      * by rewrite orb_true_r.
Qed.

(** At the start of a session [order_number] is unset: [process_refund]
    asks for it and the session is the one [entrypoint] built. *)
Lemma unmet_precondition_returns_guidance_witness :
  CustomerSupport.order_number
    (userdata CustomerSupport.entrypoint_session) = None
  ∧ CustomerSupport.BillingAgent.process_refund 50
      CustomerSupport.entrypoint_session
    = inr (Narrated "Before I can process a refund, I'll need your order number. Do you have that available?",
           CustomerSupport.entrypoint_session).
Proof.
  split; [reflexivity|].
  destruct unmet_precondition_returns_guidance as [Hcs _].
  destruct (Hcs CustomerSupport.entrypoint_session)
    as (_ & _ & _ & _ & Hrefund & _).
  apply Hrefund. reflexivity.
Defined.

End SoftFailure.

Section TruthinessGates.
Import Voice BaseAgent.

Lemma truthy_int_falsy (o : option Z) :
  o = None ∨ o = Some 0 → truthy_int o = false.
Proof. by intros [-> | ->]. Qed.

Lemma truthy_str_falsy (o : option string) :
  o = None ∨ o = Some "" → truthy_str o = false.
Proof. by intros [-> | ->]. Qed.

(** C10. The update tools assign a field only when the argument is
    truthy. [update_property_preferences] called with [0] (or [None]) for
    a numeric argument, or with the empty string (or [None]) for
    [property_type] or [location], leaves that key of
    [property_preferences] as it was; [update_customer_info] called with
    the empty string or [None] for an argument leaves that customer field
    as it was. Both return their string. *)
Theorem falsy_argument_leaves_field_unchanged :
  (∀ (s : Session RealEstate.UserData)
     (min_price max_price min_bedrooms min_bathrooms : option Z)
     (property_type location : option string),
     ∃ s',
       RealEstate.PropertyFinder.update_property_preferences
         min_price max_price min_bedrooms min_bathrooms
         property_type location s
       = inr (Narrated "I've updated your property preferences. Now I can search for properties that match your criteria.", s')
       ∧ let before := RealEstate.property_preferences (userdata s) in
         let after := RealEstate.property_preferences (userdata s') in
         (min_price = None ∨ min_price = Some 0 →
          after !! "min_price" = before !! "min_price")
         ∧ (max_price = None ∨ max_price = Some 0 →
            after !! "max_price" = before !! "max_price")
         ∧ (min_bedrooms = None ∨ min_bedrooms = Some 0 →
            after !! "min_bedrooms" = before !! "min_bedrooms")
         ∧ (min_bathrooms = None ∨ min_bathrooms = Some 0 →
            after !! "min_bathrooms" = before !! "min_bathrooms")
         ∧ (property_type = None ∨ property_type = Some "" →
            after !! "property_type" = before !! "property_type")
         ∧ (location = None ∨ location = Some "" →
            after !! "location" = before !! "location"))
  ∧ (∀ (s : Session CustomerSupport.UserData) (name email phone : option string),
     ∃ s' msg,
       CustomerSupport.update_customer_info name email phone s
       = inr (Narrated msg, s')
       ∧ (name = None ∨ name = Some "" →
          CustomerSupport.customer_name (userdata s')
          = CustomerSupport.customer_name (userdata s))
       ∧ (email = None ∨ email = Some "" →
          CustomerSupport.customer_email (userdata s')
          = CustomerSupport.customer_email (userdata s))
       ∧ (phone = None ∨ phone = Some "" →
          CustomerSupport.customer_phone (userdata s')
          = CustomerSupport.customer_phone (userdata s))).
Proof.
  split.
  - intros s a b c d e f.
    destruct (truthy_int a) eqn:Ha, (truthy_int b) eqn:Hb,
      (truthy_int c) eqn:Hc, (truthy_int d) eqn:Hd,
      (truthy_str e) eqn:He, (truthy_str f) eqn:Hf;
      (eexists; split;
       [ unfold RealEstate.PropertyFinder.update_property_preferences,
           RealEstate.PropertyFinder.set_preference;
         unfold_run; rewrite Ha, Hb, Hc, Hd, He, Hf; reflexivity
       | cbv zeta; repeat split; intros Hfalsy;
         first [apply truthy_int_falsy in Hfalsy
               |apply truthy_str_falsy in Hfalsy];
         try congruence; simpl;
         repeat (rewrite lookup_insert_ne by done); reflexivity ]).
  - intros s name email phone.
    destruct (truthy_str name) eqn:Hn, (truthy_str email) eqn:He,
      (truthy_str phone) eqn:Hp;
      (eexists; eexists; split;
       [ unfold CustomerSupport.update_customer_info; unfold_run;
         rewrite Hn, He, Hp; reflexivity
       | repeat split; intros Hfalsy; apply truthy_str_falsy in Hfalsy;
         try congruence; reflexivity ]).
Qed.

(** A minimum price of 350000 is on record; a later call with
    [min_price = 0] and an empty [location] does not replace it. *)
Lemma falsy_argument_leaves_field_unchanged_witness :
  ∃ s1 s2 msg,
    RealEstate.PropertyFinder.update_property_preferences
      (Some 350000) None None None None None RealEstate.entrypoint_session
    = inr (Narrated msg, s1)
    ∧ RealEstate.PropertyFinder.update_property_preferences
        (Some 0) None (Some 2) None None (Some "") s1
      = inr (Narrated msg, s2)
    ∧ RealEstate.property_preferences (userdata s2) !! "min_price"
      = Some (PyInt 350000)
    ∧ RealEstate.property_preferences (userdata s2) !! "location"
      = Some PyNone.
Proof.
  destruct (proj1 falsy_argument_leaves_field_unchanged
              RealEstate.entrypoint_session
              (Some 350000) None None None None None)
    as (s1 & Hrun1 & _).
  destruct (proj1 falsy_argument_leaves_field_unchanged
              s1 (Some 0) None (Some 2) None None (Some ""))
    as (s2 & Hrun2 & Hmin & _ & _ & _ & _ & Hloc).
  eexists s1, s2, _. split; [exact Hrun1|]. split; [exact Hrun2|].
  injection Hrun1 as <-.
  split.
  - rewrite Hmin by (right; reflexivity). reflexivity.
  - rewrite Hloc by (right; reflexivity). reflexivity.
Defined.

End TruthinessGates.

Section StringFacts.
Import PyString.

Lemma prefix_empty (t : string) : String.prefix "" t = true.
Proof. by destruct t. Qed.

Lemma prefix_append (s t : string) : String.prefix s (s +:+ t) = true.
Proof.
  induction s as [|c s IH]; simpl; [apply prefix_empty|].
  destruct (Ascii.ascii_dec c c); [exact IH | congruence].
Qed.

Lemma prefix_append_l (sub s t : string) :
  String.prefix sub s = true → String.prefix sub (s +:+ t) = true.
Proof.
  revert s. induction sub as [|c sub IH]; intros s; [intros _; apply prefix_empty|].
  destruct s as [|c' s]; simpl; [discriminate|].
  destruct (Ascii.ascii_dec c c'); [apply IH | discriminate].
Qed.

Lemma contains_prefix (sub s : string) :
  String.prefix sub s = true → contains sub s = true.
Proof. intros H. destruct s; cbn [contains]; rewrite H; reflexivity. Qed.

Lemma contains_append_r (sub s t : string) :
  contains sub t = true → contains sub (s +:+ t) = true.
Proof.
  intros H. induction s as [|c s IH]; simpl; [exact H|].
  rewrite IH. apply orb_true_r.
Qed.

Lemma contains_append_l (sub s t : string) :
  contains sub s = true → contains sub (s +:+ t) = true.
Proof.
  induction s as [|c s IH]; cbn [contains].
  - rewrite orb_false_r. intros H.
    apply contains_prefix. by apply (prefix_append_l sub "" t).
  - intros [H|H]%orb_true_iff;
      change (String c s +:+ t) with (String c (s +:+ t)); cbn [contains].
    + apply orb_true_iff. left.
      by apply (prefix_append_l sub (String c s) t).
    + rewrite IH by exact H. apply orb_true_r.
Qed.

Lemma contains_self (s : string) : contains s s = true.
Proof.
  apply contains_prefix. pose proof (prefix_append s "") as H.
  revert H. replace (s +:+ "") with s; [done|].
  clear. induction s as [|c s IH]; [reflexivity|].
  change (String c s +:+ "") with (String c (s +:+ "")). by f_equal.
Qed.

Lemma contains_join (sep w : string) (l : list string) :
  w ∈ l → contains w (join sep l) = true.
Proof.
  unfold join. induction l as [|x l IH]; intros Hin.
  - by apply elem_of_nil in Hin.
  - apply elem_of_cons in Hin as [-> | Hin].
    + destruct l; simpl; [apply contains_self|].
      apply contains_append_l, contains_self.
    + destruct l as [|y l]; [by apply elem_of_nil in Hin|].
      change (String.concat sep (x :: y :: l))
        with (x +:+ sep +:+ String.concat sep (y :: l)).
      by apply contains_append_r, contains_append_r, IH.
Qed.

Lemma words_dump_writes_words : BaseAgent.writes_words Samples.words_dump.
Proof. intros d w _ Hin. by apply contains_join. Qed.

End StringFacts.

Section SummaryAcrossHandoff.
Import ChatCtx Voice BaseAgent PyString CustomerSupport SupportSummary.

(** The entry hook leaves the user data alone and ends the agent's items
    with the system message built from it. *)
Lemma on_enter_appends `{UserDataLike U} (yaml_dump : PyValue → string)
    (new_id : string) (self : AgentRef) (me : Agent) (s : Session U) :
  objects s !! self = Some me →
  ∃ s',
    on_enter yaml_dump new_id self s = Some s'
    ∧ userdata s' = userdata s
    ∧ last (items_of self s')
      = Some (ChatMessage new_id system
                (enter_message yaml_dump (class_name me) (userdata s))).
Proof.
  intros Hme. unfold on_enter. rewrite Hme. simpl.
  eexists. split; [reflexivity|]. split; [reflexivity|].
  unfold items_of, generate_reply, set_objects; simpl.
  rewrite lookup_insert_eq. simpl. unfold add_message. apply last_snoc.
Qed.

Lemma or_unknown_set (v : string) :
  v ≠ "" → or_unknown (Some v) = PyStr v.
Proof.
  intros Hv. unfold or_unknown, truthy_str.
  by rewrite bool_decide_eq_false_2.
Qed.

Lemma shown_in_summary_strings (u : UserData) (v : string) :
  v ≠ "" → shown_in_summary u v → v ∈ py_strings (summarize_data u).
Proof.
  intros Hv Hshown. unfold summarize_data. cbn [py_strings snd].
  destruct Hshown as [H|[H|[H|[H|[H|[H|[H|[Ht H]]]]]]]]; rewrite H;
    try rewrite (or_unknown_set v Hv);
    try (rewrite Ht; rewrite bool_decide_eq_true_2 by done);
    cbn [py_strings snd opt_str];
    rewrite !elem_of_app, ?elem_of_cons; tauto.
Qed.

Lemma populated_fields_shown (u : UserData) :
  populated_shown u (summarize_data u).
Proof.
  unfold populated_shown, summarize_data.
  split_and!.
  all: try (intros v Hv Hu; rewrite Hu, (or_unknown_set v Hv); reflexivity).
  all: try (by intros x ->).
  all: try reflexivity.
  - intros Ht. rewrite Ht.
    rewrite (bool_decide_eq_true_2 (Some RETURN = Some RETURN)) by done.
    split_and!; [|reflexivity..]. by intros v ->.
  - intros Ht. rewrite Ht.
    rewrite (bool_decide_eq_true_2 (Some BILLING = Some BILLING)) by done.
    split; [|reflexivity]. by intros q ->.
Qed.

Lemma summary_sections_hidden (yaml_dump : PyValue → string) (u : UserData) :
  sections_hidden yaml_dump u.
Proof.
  unfold sections_hidden, summarize, summarize_data. split; intros Ht.
  - rewrite (bool_decide_eq_false_2 (issue_type u = Some RETURN)) by done.
    split; [reflexivity|].
    intros reason approved sent. simpl.
    by rewrite (bool_decide_eq_false_2 (issue_type u = Some RETURN)).
  - rewrite (bool_decide_eq_false_2 (issue_type u = Some BILLING)) by done.
    split; [reflexivity|].
    intros amount approved. simpl.
    by rewrite (bool_decide_eq_false_2 (issue_type u = Some BILLING)).
Qed.

(** C5 (amended). Whatever the session, once [update_customer_info] has
    set the name to ["Ada"] and the session is handed over to a registered
    agent, the entry hook of that agent ends its items with a system
    message built from the user data, in which [customer_info.name] is
    ["Ada"]; the text of the message contains ["Ada"] for a [yaml.dump]
    that writes out words. For every state, whichever agent wrote it:
    every populated scalar field is in the summarised mapping under its
    key and with its value, the return reason and the two return flags
    when the issue type is [RETURN] and the refund amount and approval
    when it is [BILLING]; when the issue type is not [RETURN] the mapping
    has [None] for the return section and the text is the same whatever
    the return fields hold, and likewise for the refund fields and
    [BILLING]; the text is the same whatever the registry and the
    previous agent are; and a populated string field that the mapping
    holds is a word of the text. *)
Theorem summary_carries_name_across_handoff (yaml_dump : PyValue → string) :
  writes_words yaml_dump →
  (∀ (s : Session UserData) (email phone : option string)
     (name : string) (next : AgentRef) (agent : Agent) (new_id : string),
     agents (userdata s) !! name = Some next →
     objects s !! next = Some agent →
     ∃ msg s1 s2 s3 content,
       update_customer_info (Some "Ada") email phone s
         = inr (Narrated msg, s1)
       ∧ _transfer_to_agent name s1
         = inr (Handoff next ("Transferring to " +:+ name +:+ "."), s2)
       ∧ apply_tool_result yaml_dump new_id
           (Handoff next ("Transferring to " +:+ name +:+ ".")) s2
         = Some s3
       ∧ last (items_of next s3) = Some (ChatMessage new_id system content)
       ∧ content
         = "You are " +:+ class_name agent
             +:+ " agent. Current user data is "
             +:+ yaml_dump (summarize_data (userdata s3))
       ∧ py_path ["customer_info"; "name"] (summarize_data (userdata s3))
         = Some (PyStr "Ada")
       ∧ contains "Ada" content = true)
  ∧ (∀ u : UserData,
       populated_shown u (summarize_data u)
       ∧ sections_hidden yaml_dump u
       ∧ (∀ registry prev,
            summarize yaml_dump (set_agents registry (set_prev_agent prev u))
            = summarize yaml_dump u)
       ∧ (∀ v, v ≠ "" → shown_in_summary u v →
               v ∈ py_strings (summarize_data u)
               ∧ (is_word v = true →
                  contains v (summarize yaml_dump u) = true))).
Proof.
  intros Hwords.
  assert (Hgeneral : ∀ (u : UserData) (v : string),
            v ≠ "" → shown_in_summary u v →
            v ∈ py_strings (summarize_data u)
            ∧ (is_word v = true → contains v (summarize yaml_dump u) = true)).
  { intros u v Hv Hshown.
    pose proof (shown_in_summary_strings u v Hv Hshown) as Hin.
    split; [exact Hin|]. intros Hw. by apply Hwords. }
  split;
    [|intros u; split_and!;
        [apply populated_fields_shown | apply summary_sections_hidden
        | reflexivity | apply Hgeneral]].
  intros s email phone name next agent new_id Hname Hagent.
  set (s1 := set_userdata
               ((if truthy_str phone then set_customer_phone phone else λ u, u)
                  ((if truthy_str email then set_customer_email email else λ u, u)
                     (set_customer_name (Some "Ada") (userdata s)))) s).
  assert (Hname1 : customer_name (userdata s1) = Some "Ada")
    by (unfold s1; destruct (truthy_str phone), (truthy_str email); reflexivity).
  assert (Hagents1 : agents (userdata s1) = agents (userdata s))
    by (unfold s1; destruct (truthy_str phone), (truthy_str email); reflexivity).
  set (s2 := set_userdata
               (set_prev_agent (Some (current_agent s1)) (userdata s1)) s1).
  destruct (on_enter_appends yaml_dump new_id next agent
              (set_current_agent next s2)) as (s3 & Henter & Hud & Hlast).
  { exact Hagent. }
  assert (Hname3 : customer_name (userdata s3) = Some "Ada")
    by (rewrite Hud; exact Hname1).
  exists ("Thank you, I've updated your "
          +:+ join ", "
                (["name"] ++ (if truthy_str email then ["email"] else [])
                 ++ (if truthy_str phone then ["phone"] else []))
          +:+ "."), s1, s2, s3.
  eexists.
  split.
  { unfold update_customer_info. unfold_run. unfold s1.
    destruct (truthy_str phone), (truthy_str email); reflexivity. }
  split.
  { unfold _transfer_to_agent.
    change (ud_agents (userdata s1)) with (agents (userdata s1)).
    rewrite Hagents1, Hname. reflexivity. }
  split; [exact Henter|].
  split; [exact Hlast|].
  assert (Hcontent :
            enter_message yaml_dump (class_name agent)
              (userdata (set_current_agent next s2))
            = "You are " +:+ class_name agent
                +:+ " agent. Current user data is "
                +:+ yaml_dump (summarize_data (userdata s3)))
    by (rewrite Hud; reflexivity).
  split; [exact Hcontent|].
  split.
  { unfold summarize_data. rewrite Hname3. reflexivity. }
  rewrite Hcontent.
  apply contains_append_r, contains_append_r, contains_append_r.
  apply (proj2 (Hgeneral (userdata s3) "Ada" ltac:(done)
                  (or_introl Hname3))).
  reflexivity.
Qed.

Lemma summary_carries_name_across_handoff_witness :
  ∃ s3 content,
    Samples.ada_flow Samples.words_dump = Some s3
    ∧ last (items_of billing_ref s3)
      = Some (ChatMessage "sys_3" system content)
    ∧ contains "Ada" content = true.
Proof.
  destruct (Samples.at_returns Samples.words_dump) as [s|] eqn:Hs;
    [|by vm_compute in Hs].
  assert (Hagents : agents (userdata s) !! "billing" = Some billing_ref)
    by (vm_compute in Hs; injection Hs as <-; reflexivity).
  assert (Hobj : objects s !! billing_ref
                 = Some (new_agent "BillingAgent" None))
    by (vm_compute in Hs; injection Hs as <-; reflexivity).
  destruct (proj1 (summary_carries_name_across_handoff Samples.words_dump
                     words_dump_writes_words)
              s None None "billing" billing_ref _ "sys_3" Hagents Hobj)
    as (msg & s1 & s2 & s3 & content & H1 & H2 & H3 & Hlast & _ & _ & Hin).
  exists s3, content. split; [|split; assumption].
  unfold Samples.ada_flow. rewrite Hs. cbn [mbind option_bind].
  unfold run_tool, ReturnsAgent.to_billing. rewrite H1.
  cbn [apply_tool_result mbind option_bind]. rewrite H2. exact H3.
Defined.

(** C5, as stated, fails: in a session where a technical issue has
    reached the returns agent, [process_return] populates [return_reason],
    yet the data summarised for the billing agent it then hands over to
    has [None] under [return_status] and holds the reason nowhere; the
    system message the billing agent receives is the same whatever the
    reason was. The previous agent is populated as well, and the summary
    has no entry for it. In the same way a refund amount and approval
    that billing has recorded for a return are populated, yet the summary
    has [None] under [billing_status] and is the same for another
    amount. *)
Lemma populated_return_reason_not_in_summary :
  (∃ s content,
     Samples.return_handoff Samples.words_dump "damaged" = Some s
     ∧ issue_type (userdata s) = Some TECHNICAL
     ∧ return_reason (userdata s) = Some "damaged"
     ∧ return_approved (userdata s) = true
     ∧ prev_agent (userdata s) = Some returns_ref
     ∧ py_get "return_status" (summarize_data (userdata s)) = Some PyNone
     ∧ ("damaged" ∉ py_strings (summarize_data (userdata s)))
     ∧ last (items_of billing_ref s)
       = Some (ChatMessage "sys_4" system content)
     ∧ contains "damaged" content = false)
  ∧ (∀ yaml_dump : PyValue → string,
       ((λ s, last (items_of billing_ref s))
          <$> Samples.return_handoff yaml_dump "damaged")
       = ((λ s, last (items_of billing_ref s))
            <$> Samples.return_handoff yaml_dump "scratched"))
  ∧ (issue_type (Samples.refunded 50) = Some RETURN
     ∧ refund_amount (Samples.refunded 50) = Some 50%Q
     ∧ refund_approved (Samples.refunded 50) = true
     ∧ py_get "billing_status" (summarize_data (Samples.refunded 50))
       = Some PyNone
     ∧ summarize_data (Samples.refunded 50)
       = summarize_data (Samples.refunded 75)).
Proof.
  split; [|split].
  - destruct (Samples.return_handoff Samples.words_dump "damaged")
      as [s|] eqn:Hs; [|by vm_compute in Hs].
    vm_compute in Hs. injection Hs as <-.
    eexists _, _. split; [reflexivity|].
    repeat split; try reflexivity.
    apply (bool_decide_unpack _). vm_compute. exact I.
  - intros yaml_dump. vm_compute. reflexivity.
  - split_and!; reflexivity.
Qed.

End SummaryAcrossHandoff.

Section SummaryRoundTrip.
Import Voice BaseAgent Reparse.

Lemma or_unknown_known (o1 o2 : option string) :
  or_unknown o1 = or_unknown o2 → known_str o1 → o2 = o1.
Proof.
  intros Heq (v & -> & Hne & Hunk). revert Heq.
  unfold or_unknown at 1, truthy_str.
  rewrite bool_decide_eq_false_2 by done. simpl.
  destruct o2 as [w|]; unfold or_unknown, truthy_str; [|simpl; congruence].
  case_bool_decide; simpl; congruence.
Qed.

Lemma opt_str_inj (o1 o2 : option string) : opt_str o1 = opt_str o2 → o1 = o2.
Proof. destruct o1, o2; simpl; congruence. Qed.

Lemma opt_int_inj (o1 o2 : option Z) : opt_int o1 = opt_int o2 → o1 = o2.
Proof. destruct o1, o2; simpl; congruence. Qed.

Lemma opt_float_inj (o1 o2 : option Q) :
  opt_float o1 = opt_float o2 → o1 = o2.
Proof. destruct o1, o2; simpl; congruence. Qed.

Lemma issue_type_or_unknown_inj (o1 o2 : option CustomerSupport.IssueType) :
  CustomerSupport.issue_type_or_unknown o1
  = CustomerSupport.issue_type_or_unknown o2 → o1 = o2.
Proof. destruct o1 as [[]|], o2 as [[]|]; simpl; congruence. Qed.

Lemma fmap_PyStr_inj (l1 l2 : list string) :
  PyStr <$> l1 = PyStr <$> l2 → l1 = l2.
Proof.
  revert l2. induction l1 as [|x l1 IH]; intros [|y l2]; simpl; try done.
  intros [= -> Hl]. f_equal. by apply IH.
Qed.

(** C8, as stated, fails: no way of reading the text of [summarize]
    back recovers the set scalar fields, whatever [yaml.dump] may be. With
    the issue type [RETURN] the summary is the same for a refund amount
    of 50 and one of 75. *)
Lemma summarize_round_trip_fails :
  ¬ ∃ (yaml_dump : PyValue → string)
      (parse : string → CustomerSupport.UserData),
      CustomerSupport.round_trips yaml_dump parse.
Proof.
  intros (yaml_dump & parse & Hrt).
  pose proof (Hrt (Samples.refunded 50)) as H50.
  pose proof (Hrt (Samples.refunded 75)) as H75.
  change (CustomerSupport.summarize yaml_dump (Samples.refunded 75))
    with (CustomerSupport.summarize yaml_dump (Samples.refunded 50)) in H75.
  destruct H50 as (_ & _ & _ & _ & _ & _ & _ & _ & _ & _ & H50 & _).
  destruct H75 as (_ & _ & _ & _ & _ & _ & _ & _ & _ & _ & H75 & _).
  specialize (H50 50%Q eq_refl). specialize (H75 75%Q eq_refl).
  rewrite H50 in H75. discriminate H75.
Qed.

(** The two user data of the counterexample are what [process_refund]
    leaves for the two amounts. *)
Lemma refunded_by_process_refund (amount : Q) :
  ∃ msg s,
    CustomerSupport.BillingAgent.process_refund amount
      (set_userdata
         (CustomerSupport.set_customer_email (Some "ada@example.com")
            (CustomerSupport.set_order_number (Some "A100")
               (CustomerSupport.set_issue_type (Some CustomerSupport.RETURN)
                  CustomerSupport.entrypoint_userdata)))
         CustomerSupport.entrypoint_session)
    = inr (Narrated msg, s)
    ∧ userdata s = Samples.refunded amount.
Proof. eexists _, _. split; reflexivity. Qed.

(** The mapping [summarize] hands to [yaml.dump] determines the fields it
    shows. *)
Lemma summary_data_same_where_shown :
  (∀ u1 u2 : CustomerSupport.UserData,
     CustomerSupport.summarize_data u1 = CustomerSupport.summarize_data u2 →
     SupportSummary.same_where_shown u1 u2)
  ∧ (∀ u1 u2 : RealEstate.UserData,
     RealEstate.summarize_data u1 = RealEstate.summarize_data u2 →
     EstateSummary.same_where_shown u1 u2).
Proof.
  unfold SupportSummary.same_where_shown, EstateSummary.same_where_shown.
  split; intros u1 u2 Heq.
  - unfold CustomerSupport.summarize_data in Heq.
    injection Heq as Hn He Hp Ho Hi Ht Hd Hret Hbill Hesc Hreason Hsat.
    apply issue_type_or_unknown_inj in Ht.
    repeat split;
      try (intros Hk; symmetry in Hn, He, Hp, Ho, Hi, Hd;
           eauto using or_unknown_known); try congruence.
    + symmetry. by apply opt_str_inj.
    + symmetry. by apply opt_int_inj.
    + rewrite <- Ht, H, !bool_decide_eq_true_2 in Hret by done.
      injection Hret as Hr _ _. symmetry. by apply opt_str_inj.
    + rewrite <- Ht, H, !bool_decide_eq_true_2 in Hret by done.
      by injection Hret as _ -> _.
    + rewrite <- Ht, H, !bool_decide_eq_true_2 in Hret by done.
      by injection Hret as _ _ ->.
    + rewrite <- Ht, H, !bool_decide_eq_true_2 in Hbill by done.
      injection Hbill as Hr _. symmetry. by apply opt_float_inj.
    + rewrite <- Ht, H, !bool_decide_eq_true_2 in Hbill by done.
      by injection Hbill as _ ->.
  - unfold RealEstate.summarize_data in Heq.
    injection Heq as Hn Hp He Hprefs Hviewed Hint Hview Hstatus Hamount.
    repeat split;
      try (intros Hk; symmetry in Hn, Hp, He;
           eauto using or_unknown_known); try congruence.
    + rewrite <- (list_to_map_to_list (RealEstate.property_preferences u2)),
        <- (list_to_map_to_list (RealEstate.property_preferences u1)).
      by rewrite Hprefs.
    + symmetry. by apply fmap_PyStr_inj.
    + symmetry. by apply fmap_PyStr_inj.
    + rewrite H in Hview.
      destruct (truthy_str (RealEstate.viewing_date u2)); [|discriminate].
      injection Hview as Hd _. symmetry. by apply opt_str_inj.
    + rewrite H in Hview.
      destruct (truthy_str (RealEstate.viewing_date u2)); [|discriminate].
      injection Hview as _ Ht. symmetry. by apply opt_str_inj.
    + symmetry. by apply opt_int_inj.
Qed.

Lemma or_unknown_not_known (o : option string) :
  ¬ known_str o → or_unknown o = PyStr "unknown".
Proof.
  intros Hno. destruct o as [v|]; [|reflexivity].
  unfold or_unknown, truthy_str. case_bool_decide as Hv; [reflexivity|].
  simpl. destruct (decide (v = "unknown")) as [->|Hu]; [reflexivity|].
  destruct Hno. by exists v.
Qed.

Lemma support_unknown_alike (yaml_dump : PyValue → string)
    (u : CustomerSupport.UserData) :
  SupportSummary.unknown_alike yaml_dump u.
Proof.
  intros o1 o2 H1 H2.
  unfold CustomerSupport.summarize, CustomerSupport.summarize_data. simpl.
  rewrite (or_unknown_not_known o1 H1), (or_unknown_not_known o2 H2).
  split_and!; reflexivity.
Qed.

Lemma estate_unknown_alike (yaml_dump : PyValue → string)
    (u : RealEstate.UserData) :
  EstateSummary.unknown_alike yaml_dump u.
Proof.
  intros o1 o2 H1 H2.
  unfold RealEstate.summarize, RealEstate.summarize_data. simpl.
  rewrite (or_unknown_not_known o1 H1), (or_unknown_not_known o2 H2).
  split_and!; reflexivity.
Qed.

Lemma estate_sections_hidden (yaml_dump : PyValue → string)
    (u : RealEstate.UserData) :
  EstateSummary.sections_hidden yaml_dump u.
Proof.
  intros Hdate.
  unfold RealEstate.summarize, RealEstate.summarize_data.
  rewrite Hdate. split; [reflexivity|].
  intros date time Hfalsy. simpl. by rewrite Hfalsy.
Qed.

(** C8 (amended). Serialising a state to the text of its summary and
    reading that text back, where the reading returns the mapping that
    was dumped, recovers the scalar fields the summary shows, with their
    exact values: two states whose texts are the same have the same such
    fields. Customer support: name, email, phone, order number, product
    id and issue description when set to a non-empty string other than
    ["unknown"]; issue type, escalation flag and reason, and satisfaction
    rating always; return reason and the two return flags when the issue
    type is [RETURN]; refund amount and approval when it is [BILLING].
    Real estate: name, phone and email under the same condition; the
    preferences, the viewed and interested properties, and the
    prequalification status and amount always; the viewing date and time
    when the date is set and not empty. Nothing else is recovered: the
    text is the same whatever the return fields hold unless the issue
    type is [RETURN], whatever the refund fields hold unless it is
    [BILLING], whatever the viewing time holds unless the date is set and
    not empty, and for any two values of such a string field that are
    unset, empty or ["unknown"]. *)
Theorem summary_text_recovers_shown_fields (yaml_dump : PyValue → string)
    (yaml_load : string → option PyValue) :
  (∀ u1 u2 : CustomerSupport.UserData,
     reparses yaml_dump yaml_load (CustomerSupport.summarize_data u1) →
     reparses yaml_dump yaml_load (CustomerSupport.summarize_data u2) →
     CustomerSupport.summarize yaml_dump u1
     = CustomerSupport.summarize yaml_dump u2 →
     SupportSummary.same_where_shown u1 u2)
  ∧ (∀ u : CustomerSupport.UserData,
       SupportSummary.sections_hidden yaml_dump u
       ∧ SupportSummary.unknown_alike yaml_dump u)
  ∧ (∀ u1 u2 : RealEstate.UserData,
       reparses yaml_dump yaml_load (RealEstate.summarize_data u1) →
       reparses yaml_dump yaml_load (RealEstate.summarize_data u2) →
       RealEstate.summarize yaml_dump u1 = RealEstate.summarize yaml_dump u2 →
       EstateSummary.same_where_shown u1 u2)
  ∧ (∀ u : RealEstate.UserData,
       EstateSummary.sections_hidden yaml_dump u
       ∧ EstateSummary.unknown_alike yaml_dump u).
Proof.
  destruct summary_data_same_where_shown as [Hsupport Hestate].
  split_and!.
  - intros u1 u2 H1 H2 Htext. apply Hsupport.
    unfold reparses in H1, H2.
    unfold CustomerSupport.summarize in Htext.
    rewrite Htext, H2 in H1. congruence.
  - intros u. split;
      [apply summary_sections_hidden | apply support_unknown_alike].
  - intros u1 u2 H1 H2 Htext. apply Hestate.
    unfold reparses in H1, H2.
    unfold RealEstate.summarize in Htext.
    rewrite Htext, H2 in H1. congruence.
  - intros u. split;
      [apply estate_sections_hidden | apply estate_unknown_alike].
Qed.

(** Two user data that differ in the refund amount and the previous
    agent and have the same text: the name is the same, and so are the
    other fields the summary shows. *)
Lemma summary_text_recovers_shown_fields_witness :
  CustomerSupport.summarize Samples.words_dump
    (CustomerSupport.set_customer_name (Some "Ada")
       CustomerSupport.entrypoint_userdata)
  = CustomerSupport.summarize Samples.words_dump
      (CustomerSupport.set_prev_agent (Some CustomerSupport.returns_ref)
         (CustomerSupport.set_refund_amount (Some 50%Q)
            (CustomerSupport.set_customer_name (Some "Ada")
               CustomerSupport.entrypoint_userdata)))
  ∧ SupportSummary.same_where_shown
      (CustomerSupport.set_customer_name (Some "Ada")
         CustomerSupport.entrypoint_userdata)
      (CustomerSupport.set_prev_agent (Some CustomerSupport.returns_ref)
         (CustomerSupport.set_refund_amount (Some 50%Q)
            (CustomerSupport.set_customer_name (Some "Ada")
               CustomerSupport.entrypoint_userdata))).
Proof.
  split; [reflexivity|].
  apply (proj1 (summary_text_recovers_shown_fields Samples.words_dump
                  (table_load Samples.words_dump
                     [CustomerSupport.summarize_data
                        (CustomerSupport.set_customer_name (Some "Ada")
                           CustomerSupport.entrypoint_userdata)])));
    vm_compute; reflexivity.
Defined.

End SummaryRoundTrip.

Section StepLimit.
Import ChatCtx TurnLoop.

Context {St : Type} (llm : LanguageModel)
  (dispatch : string → string → St → string * St).

Implicit Types (items : list ChatItem) (calls : list (string * string)).

Lemma dispatched_extends n : ∀ step items st calls,
  calls `prefix_of` dispatched (turn_loop llm dispatch n step items st calls).
Proof.
  induction n as [|n IH]; intros step items st calls; simpl; [done|].
  destruct (generate llm items) as [text|name arguments]; simpl; [done|].
  destruct (dispatch name arguments st) as [output st'].
  etrans; [|apply IH]. by apply prefix_app_r.
Qed.

(** A turn never dispatches more tool operations than its bound. *)
Lemma dispatched_bound n : ∀ step items st calls,
  (length (dispatched (turn_loop llm dispatch n step items st calls))
   ≤ length calls + n)%nat.
Proof.
  induction n as [|n IH]; intros step items st calls; simpl; [lia|].
  destruct (generate llm items) as [text|name arguments]; simpl; [lia|].
  destruct (dispatch name arguments st) as [output st'].
  etrans; [apply IH|]. rewrite length_app. simpl. lia.
Qed.

(** A turn that would go on longer under a larger bound is cut after
    exactly [n] round trips and ends with a narrated reply. *)
Lemma turn_loop_cut n : ∀ m step items st calls,
  (length calls + n
   < length (dispatched (turn_loop llm dispatch m step items st calls)))%nat →
  let turn := turn_loop llm dispatch n step items st calls in
  dispatched turn
  = take (length calls + n)
      (dispatched (turn_loop llm dispatch m step items st calls))
  ∧ reply turn = narrate llm (history turn)
  ∧ length (history turn) = (length items + 2 * n)%nat.
Proof.
  induction n as [|n IH]; intros m step items st calls Hmore; simpl.
  - split; [|split; [reflexivity | lia]].
    destruct (dispatched_extends m step items st calls) as [k ->].
    rewrite Nat.add_0_r, take_app_length. reflexivity.
  - destruct m as [|m]; simpl in Hmore; [lia|]. simpl.
    destruct (generate llm items) as [text|name arguments];
      simpl in Hmore; [lia|].
    destruct (dispatch name arguments st) as [output st'].
    destruct (IH m (S step)
                (items ++ [ FunctionCall ("call_" +:+ pretty step)
                              name arguments;
                            FunctionCallOutput ("out_" +:+ pretty step)
                              ("call_" +:+ pretty step) output ])
                st' (calls ++ [(name, arguments)])) as (Hd & Hr & Hl).
    { rewrite length_app. simpl. lia. }
    split; [|split; [exact Hr|]].
    + rewrite Hd, length_app. simpl. f_equal. lia.
    + rewrite Hl, length_app. simpl. lia.
Qed.

(** C9. When the model asks for more round trips than the bound allows
    (under a larger bound the turn would dispatch more than
    [max_tool_steps] tool operations), the turn dispatches the first
    [max_tool_steps] of them and no more, and ends with a reply, the one
    the model narrates from the history of those round trips. *)
Theorem step_limit_stops_dispatch (max_tool_steps budget : nat)
    (items : list ChatItem) (st : St) :
  (max_tool_steps
   < length (dispatched (run_turn llm dispatch budget items st)))%nat →
  let turn := run_turn llm dispatch max_tool_steps items st in
  dispatched turn
  = take max_tool_steps (dispatched (run_turn llm dispatch budget items st))
  ∧ length (dispatched turn) = max_tool_steps
  ∧ reply turn = narrate llm (history turn)
  ∧ length (history turn) = (length items + 2 * max_tool_steps)%nat.
Proof.
  intros Hmore turn.
  destruct (turn_loop_cut max_tool_steps budget 0%nat items st [])
    as (Hd & Hr & Hl); [simpl; exact Hmore|].
  fold (run_turn llm dispatch max_tool_steps items st) in Hd, Hr, Hl.
  fold (run_turn llm dispatch budget items st) in Hd.
  fold turn in Hd, Hr, Hl. simpl in Hd.
  repeat split; try assumption.
  rewrite Hd, length_take. lia.
Qed.

End StepLimit.

(** Seven requests against the limit of five that [entrypoint] sets: five
    tool operations are dispatched and the turn ends with a reply. *)
Lemma step_limit_stops_dispatch_witness :
  length (TurnLoop.dispatched
            (TurnLoop.run_turn Samples.eager_model Samples.counting_tool
               7 [] 0%nat)) = 7%nat
  ∧ length (TurnLoop.dispatched
              (TurnLoop.run_turn Samples.eager_model Samples.counting_tool
                 CustomerSupport.max_tool_steps [] 0%nat)) = 5%nat
  ∧ TurnLoop.state
      (TurnLoop.run_turn Samples.eager_model Samples.counting_tool
         CustomerSupport.max_tool_steps [] 0%nat) = 5%nat
  ∧ TurnLoop.reply
      (TurnLoop.run_turn Samples.eager_model Samples.counting_tool
         CustomerSupport.max_tool_steps [] 0%nat)
    = "Let me get back to you on that.".
Proof.
  split; [reflexivity|].
  destruct (step_limit_stops_dispatch Samples.eager_model
              Samples.counting_tool CustomerSupport.max_tool_steps 7 [] 0%nat)
    as (_ & Hlen & Hreply & _).
  - vm_compute. lia.
  - split; [exact Hlen|]. split; [reflexivity|].
    rewrite Hreply. reflexivity.
Defined.

(** * Further properties of the examples *)

Section TruncationEdges.
Import ChatCtx.

Implicit Types (items new_items : list ChatItem) (item : ChatItem).

Lemma pop_leading_fixed new_items :
  match head new_items with
  | Some item => is_function_item item = false
  | None => True
  end →
  pop_leading_function_items new_items = new_items.
Proof.
  destruct new_items as [|item rest]; simpl; [done|]. by intros ->.
Qed.

(** Once the count is reached or passed, the loop stops at the next item. *)
Lemma collect_loop_reached (valid : ChatItem → bool) (n : Z) rev_items
    new_items :
  n ≤ Z.of_nat (length new_items) →
  collect_loop valid n rev_items new_items
  = match rev_items with
    | [] => new_items
    | item :: _ => if valid item then new_items ++ [item] else new_items
    end.
Proof.
  intros Hn. destruct rev_items as [|item rest]; simpl; [done|].
  destruct (valid item); simpl.
  - rewrite length_app; simpl.
    destruct (Z.geb_spec (Z.of_nat (length new_items + 1)) n); [done|lia].
  - destruct (Z.geb_spec (Z.of_nat (length new_items)) n); [done|lia].
Qed.

Lemma truncate_nonpositive items (n : Z) (ks kf : bool) :
  n ≤ 0 →
  _truncate_chat_ctx items n ks kf
  = match last items with
    | Some item =>
        if _valid_item ks kf item && negb (is_function_item item)
        then [item] else []
    | None => []
    end.
Proof.
  intros Hn. unfold _truncate_chat_ctx.
  rewrite collect_loop_reached by (simpl; lia).
  rewrite <- head_reverse.
  destruct (reverse items) as [|item rest]; simpl; [done|].
  destruct (_valid_item ks kf item); simpl; [|done].
  by destruct (is_function_item item).
Qed.

Lemma truncate_cases items (n : Z) (ks kf : bool) :
  _truncate_chat_ctx items n ks kf
  = pop_leading_function_items
      (last_n (Z.to_nat (Z.max n 1)) (filter (_valid_item ks kf) items))
  ∨ (n ≤ 0 ∧ _truncate_chat_ctx items n ks kf = []).
Proof.
  destruct (Z.lt_ge_cases 0 n) as [Hpos|Hneg].
  - left. rewrite truncate_positive by done. by rewrite Z.max_l by lia.
  - rewrite truncate_nonpositive by done.
    rewrite Z.max_r by lia. change (Z.to_nat 1) with 1%nat.
    destruct items as [|x items _] using rev_ind; [by left|].
    rewrite last_snoc, filter_app, filter_cons, filter_nil.
    destruct (_valid_item ks kf x) eqn:Hv; simpl.
    + left. unfold last_n. rewrite length_app; simpl.
      replace (length (filter (_valid_item ks kf) items) + 1 - 1)%nat
        with (length (filter (_valid_item ks kf) items) + 0)%nat by lia.
      rewrite drop_app_length'; [|lia]. simpl.
      by destruct (is_function_item x).
    + right. done.
Qed.

Lemma truncate_valid_sublist items (n : Z) (ks kf : bool) :
  _truncate_chat_ctx items n ks kf `sublist_of` items
  ∧ Forall (λ item, _valid_item ks kf item = true)
      (_truncate_chat_ctx items n ks kf).
Proof.
  destruct (truncate_cases items n ks kf) as [-> | [_ ->]].
  - set (eligible := filter (_valid_item ks kf) items).
    assert (Hsub : pop_leading_function_items
                     (last_n (Z.to_nat (n `max` 1)) eligible)
                   `sublist_of` eligible).
    { etrans; [apply suffix_is_sublist, pop_leading_suffix|].
      apply sublist_drop. }
    split.
    + etrans; [exact Hsub|]. apply sublist_filter.
    + apply Forall_forall. intros item Hin.
      apply (sublist_subseteq _ _ Hsub) in Hin.
      apply list_elem_of_filter in Hin as [Hv _].
      by apply Is_true_true.
  - split; [apply sublist_nil_l | constructor].
Qed.

Lemma truncate_bounded items (n : Z) (ks kf : bool) :
  0 < n →
  (length (_truncate_chat_ctx items n ks kf) ≤ Z.to_nat n)%nat.
Proof.
  intros Hn. rewrite truncate_positive by done.
  etrans; [apply sublist_length, suffix_is_sublist, pop_leading_suffix|].
  unfold last_n. rewrite length_drop. lia.
Qed.

(** X1. With a count of zero or less the loop still looks at the most
    recent item before it stops: the result is that item alone when it is
    eligible and not a function item, and empty otherwise. *)
Theorem truncate_nonpositive_count items (n : Z) (ks kf : bool) :
  n ≤ 0 →
  _truncate_chat_ctx items n ks kf
  = match last items with
    | Some item =>
        if _valid_item ks kf item && negb (is_function_item item)
        then [item] else []
    | None => []
    end.
Proof. exact (truncate_nonpositive items n ks kf). Qed.

Lemma truncate_nonpositive_count_witness :
  _truncate_chat_ctx Samples.short_history 0 false true
  = [ChatMessage "reply_a" assistant "It has shipped."].
Proof.
  rewrite (truncate_nonpositive_count Samples.short_history 0 false true)
    by lia.
  reflexivity.
Defined.

(** X2. Whatever the count and the flags, what [_truncate_chat_ctx] returns
    is a sublist of its input (same items, same order, nothing invented)
    and every item of it passes [_valid_item]. *)
Theorem truncate_sublist_of_valid_items items (n : Z) (ks kf : bool) :
  _truncate_chat_ctx items n ks kf `sublist_of` items
  ∧ Forall (λ item, _valid_item ks kf item = true)
      (_truncate_chat_ctx items n ks kf).
Proof. exact (truncate_valid_sublist items n ks kf). Qed.

(** X3. For a positive count the result has at most that many items. *)
Theorem truncate_length_bound items (n : Z) (ks kf : bool) :
  0 < n →
  (length (_truncate_chat_ctx items n ks kf) ≤ Z.to_nat n)%nat.
Proof. exact (truncate_bounded items n ks kf). Qed.

Lemma truncate_length_bound_witness :
  (length (_truncate_chat_ctx Samples.long_history 3 true true) ≤ 3)%nat.
Proof.
  apply (truncate_length_bound Samples.long_history 3 true true). lia.
Defined.

(** X4. For a positive count that the eligible items do not exceed, all
    eligible items are returned, less the leading function items; an empty
    input gives an empty result. *)
Theorem truncate_few_eligible items (n : Z) (ks kf : bool) :
  0 < n →
  (length (filter (_valid_item ks kf) items) ≤ Z.to_nat n)%nat →
  _truncate_chat_ctx items n ks kf
  = pop_leading_function_items (filter (_valid_item ks kf) items).
Proof.
  intros Hn Hlen. rewrite truncate_positive by done. unfold last_n.
  replace (length (filter (_valid_item ks kf) items) - Z.to_nat n)%nat
    with 0%nat by lia.
  by rewrite drop_0.
Qed.

Lemma truncate_few_eligible_witness :
  _truncate_chat_ctx Samples.short_history 6 false true
  = [ ChatMessage "user_a" user "Where is my order?";
      FunctionCall "call_a" "lookup_order" "{}";
      FunctionCallOutput "out_a" "call_a" "shipped";
      ChatMessage "reply_a" assistant "It has shipped." ]
  ∧ _truncate_chat_ctx [] 6 false true = [].
Proof.
  split.
  - rewrite (truncate_few_eligible Samples.short_history 6 false true);
      [reflexivity | lia | vm_compute; lia].
  - rewrite (truncate_few_eligible [] 6 false true);
      [reflexivity | lia | vm_compute; lia].
Defined.

(** X5. Truncating a truncated list again, with the same count and flags,
    changes nothing. *)
Theorem truncate_idempotent items (n : Z) (ks kf : bool) :
  _truncate_chat_ctx (_truncate_chat_ctx items n ks kf) n ks kf
  = _truncate_chat_ctx items n ks kf.
Proof.
  pose proof (truncate_valid_sublist items n ks kf) as [_ Hvalid].
  assert (Hhead := pop_leading_head
    (reverse (collect_loop (_valid_item ks kf) n (reverse items) []))).
  change (pop_leading_function_items _)
    with (_truncate_chat_ctx items n ks kf) in Hhead.
  set (result := _truncate_chat_ctx items n ks kf) in *.
  assert (Hfilter : filter (_valid_item ks kf) result = result).
  { clear Hhead. induction Hvalid as [|item rest Hv _ IH]; [done|].
    rewrite filter_cons, decide_True by (by rewrite Hv). by rewrite IH. }
  destruct (Z.lt_ge_cases 0 n) as [Hpos|Hneg].
  - rewrite truncate_positive, Hfilter by done.
    pose proof (truncate_bounded items n ks kf Hpos) as Hlen.
    fold result in Hlen. unfold last_n.
    replace (length result - Z.to_nat n)%nat with 0%nat by lia.
    rewrite drop_0. by apply pop_leading_fixed.
  - rewrite truncate_nonpositive by done.
    assert (Hres : result = [] ∨ ∃ item, result = [item]).
    { unfold result. rewrite truncate_nonpositive by done.
      destruct (last items) as [item|]; [|by left].
      destruct (_ && _); [right; by eexists | by left]. }
    destruct Hres as [-> | [item ->]]; [done|]. simpl.
    apply Forall_cons_1 in Hvalid as [-> _].
    simpl in Hhead. by rewrite Hhead.
Qed.

(** X6. With [keep_function_call=False] (the default) no function item is
    eligible, so nothing is popped: for a positive count the result is
    exactly the last [n] eligible items, and it holds no function item. *)
Theorem truncate_without_function_items items (n : Z) (ks : bool) :
  0 < n →
  _truncate_chat_ctx items n ks false
  = last_n (Z.to_nat n) (filter (_valid_item ks false) items)
  ∧ Forall (λ item, is_function_item item = false)
      (_truncate_chat_ctx items n ks false)
  ∧ length (_truncate_chat_ctx items n ks false)
    = (Z.to_nat n `min` length (filter (_valid_item ks false) items))%nat.
Proof.
  intros Hn.
  assert (Hnone : Forall (λ item, is_function_item item = false)
                    (last_n (Z.to_nat n) (filter (_valid_item ks false) items))).
  { apply Forall_forall. intros item Hin.
    apply (sublist_subseteq _ _ (sublist_drop _ _)) in Hin.
    apply list_elem_of_filter in Hin as [Hv _].
    apply Is_true_true in Hv. unfold _valid_item in Hv.
    destruct (negb ks && is_system_message item); [done|].
    simpl in Hv. by destruct (is_function_item item). }
  assert (Heq : _truncate_chat_ctx items n ks false
                = last_n (Z.to_nat n) (filter (_valid_item ks false) items)).
  { rewrite truncate_positive by done. apply pop_leading_fixed.
    destruct Hnone as [|item rest Hitem _]; simpl; done. }
  rewrite Heq. split; [done|]. split; [done|].
  unfold last_n. rewrite length_drop. lia.
Qed.

Lemma truncate_without_function_items_witness :
  _truncate_chat_ctx Samples.long_history 3 false false
  = [ ChatMessage "reply_f" assistant "It has shipped.";
      ChatMessage "user_g" user "Where is my order?";
      ChatMessage "reply_g" assistant "It has shipped." ].
Proof.
  destruct (truncate_without_function_items Samples.long_history 3 false)
    as [-> _]; [lia|].
  reflexivity.
Defined.

End TruncationEdges.

Section EntryHook.
Import ChatCtx Voice BaseAgent.

Context `{UserDataLike U}.

Implicit Types (s : Session U) (me : Agent) (self : AgentRef).

(** What [on_enter] puts between the agent's own items and the system
    message. *)
Lemma carried_properties (chat_ctx prev_items : list ChatItem) :
  (length (carried chat_ctx prev_items) ≤ 6)%nat
  ∧ carried chat_ctx prev_items `sublist_of` prev_items
  ∧ Forall (λ item, is_system_message item = false
                    ∧ item_id item ∉ item_id <$> chat_ctx)
      (carried chat_ctx prev_items).
Proof.
  unfold carried.
  pose proof (truncate_valid_sublist prev_items 6 false true) as [Hsub Hvalid].
  pose proof (truncate_bounded prev_items 6 false true ltac:(lia)) as Hlen.
  set (truncated := _truncate_chat_ctx prev_items 6 false true) in *.
  split; [|split].
  - etrans; [apply length_filter|]. exact Hlen.
  - etrans; [apply sublist_filter|]. exact Hsub.
  - apply Forall_forall. intros item [Hnew Hin]%list_elem_of_filter. split.
    + rewrite Forall_forall in Hvalid. specialize (Hvalid item Hin).
      unfold _valid_item in Hvalid. simpl in Hvalid.
      by destruct (is_system_message item).
    + by rewrite elem_of_list_to_set in Hnew.
Qed.

(** The items [on_enter] leaves in the buffer of [self]. *)
Lemma on_enter_items (yaml_dump : PyValue → string) (new_id : string)
    self me s :
  objects s !! self = Some me →
  ∃ s',
    on_enter yaml_dump new_id self s = Some s'
    ∧ userdata s' = userdata s
    ∧ current_agent s' = current_agent s
    ∧ session_llm s' = session_llm s
    ∧ reply_requests s' = reply_requests s ++ [tool_choice_none]
    ∧ objects s'
      = <[self :=
            update_chat_ctx
              ((match ud_prev_agent (userdata s) with
                | Some prev =>
                    if negb (is_realtime (llm_or (agent_llm me) (session_llm s)))
                    then chat_ctx me ++ carried (chat_ctx me) (items_of prev s)
                    else chat_ctx me
                | None => chat_ctx me
                end)
               ++ [ChatMessage new_id system
                     (enter_message yaml_dump (class_name me) (userdata s))])
              me]> (objects s).
Proof.
  intros Hme. unfold on_enter. rewrite Hme. simpl.
  eexists. split; [reflexivity|]. repeat split.
Qed.

(** X7. The entry hook of an agent changes that agent's chat items and
    nothing else of the session but the list of requested replies, to which
    it adds one with the tools switched off: user data, current agent,
    model, every other agent object (the previous agent's history among
    them) and the agent's own class and model stay as they were. The
    agent's earlier items are kept in place at the front, and the last item
    is the new system message. *)
Theorem on_enter_frame (yaml_dump : PyValue → string) (new_id : string)
    self me s :
  objects s !! self = Some me →
  ∃ s' me',
    on_enter yaml_dump new_id self s = Some s'
    ∧ userdata s' = userdata s
    ∧ current_agent s' = current_agent s
    ∧ session_llm s' = session_llm s
    ∧ reply_requests s' = reply_requests s ++ [tool_choice_none]
    ∧ objects s' !! self = Some me'
    ∧ (∀ r, r ≠ self → objects s' !! r = objects s !! r)
    ∧ class_name me' = class_name me
    ∧ agent_llm me' = agent_llm me
    ∧ chat_ctx me `prefix_of` chat_ctx me'
    ∧ last (chat_ctx me')
      = Some (ChatMessage new_id system
                (enter_message yaml_dump (class_name me) (userdata s))).
Proof.
  intros Hme.
  destruct (on_enter_items yaml_dump new_id self me s Hme)
    as (s' & Hrun & Hud & Hcur & Hllm & Hreq & Hobj).
  eexists s', _. split; [exact Hrun|].
  repeat (split; [assumption|]).
  split; [rewrite Hobj; apply lookup_insert_eq|].
  split; [intros r Hr; rewrite Hobj; by apply lookup_insert_ne|].
  split; [reflexivity|]. split; [reflexivity|]. simpl. split.
  - destruct (ud_prev_agent (userdata s)) as [prev|];
      [destruct (negb _)|]; rewrite <- ?app_assoc; by apply prefix_app_r.
  - apply last_snoc.
Qed.

(** X8. Without a previous agent, or when the model in use (the agent's
    own, else the session's) is a realtime model, the entry hook carries
    nothing over: the buffer is the agent's earlier items followed by the
    system message. *)
Theorem on_enter_without_carry_over (yaml_dump : PyValue → string)
    (new_id : string) self me s :
  objects s !! self = Some me →
  ud_prev_agent (userdata s) = None
  ∨ is_realtime (llm_or (agent_llm me) (session_llm s)) = true →
  ∃ s',
    on_enter yaml_dump new_id self s = Some s'
    ∧ items_of self s'
      = chat_ctx me
          ++ [ChatMessage new_id system
                (enter_message yaml_dump (class_name me) (userdata s))].
Proof.
  intros Hme Hno.
  destruct (on_enter_items yaml_dump new_id self me s Hme)
    as (s' & Hrun & _ & _ & _ & _ & Hobj).
  exists s'. split; [exact Hrun|].
  unfold items_of. rewrite Hobj, lookup_insert_eq. simpl.
  destruct Hno as [-> | ->]; [done|].
  by destruct (ud_prev_agent (userdata s)).
Qed.

(** X9. With a previous agent and a model that is not realtime, the
    buffer becomes the agent's earlier items, then at most six items of the
    previous agent's history, in their order there, none of them a system
    message and none with an id the buffer already had, then the system
    message: the buffer grows by at most seven items. *)
Theorem on_enter_carries_bounded_slice (yaml_dump : PyValue → string)
    (new_id : string) self me s (prev : AgentRef) :
  objects s !! self = Some me →
  ud_prev_agent (userdata s) = Some prev →
  is_realtime (llm_or (agent_llm me) (session_llm s)) = false →
  ∃ s' added,
    on_enter yaml_dump new_id self s = Some s'
    ∧ items_of self s'
      = chat_ctx me ++ added
          ++ [ChatMessage new_id system
                (enter_message yaml_dump (class_name me) (userdata s))]
    ∧ (length added ≤ 6)%nat
    ∧ added `sublist_of` items_of prev s
    ∧ Forall (λ item, is_system_message item = false
                      ∧ item_id item ∉ item_id <$> chat_ctx me) added
    ∧ (length (items_of self s') ≤ length (chat_ctx me) + 7)%nat.
Proof.
  intros Hme Hprev Hllm.
  destruct (on_enter_items yaml_dump new_id self me s Hme)
    as (s' & Hrun & _ & _ & _ & _ & Hobj).
  destruct (carried_properties (chat_ctx me) (items_of prev s))
    as (Hlen & Hsub & Hall).
  exists s', (carried (chat_ctx me) (items_of prev s)).
  split; [exact Hrun|].
  assert (Hitems : items_of self s'
                   = chat_ctx me ++ carried (chat_ctx me) (items_of prev s)
                       ++ [ChatMessage new_id system
                             (enter_message yaml_dump (class_name me)
                                (userdata s))]).
  { unfold items_of at 1. rewrite Hobj, lookup_insert_eq. simpl.
    rewrite Hprev, Hllm. simpl. by rewrite <- app_assoc. }
  split; [exact Hitems|]. repeat (split; [assumption|]).
  rewrite Hitems, !length_app. simpl. lia.
Qed.

(** X10. Unique ids are kept: when the ids of the agent's items and those
    of the previous agent's items are each unique, and the id given to the
    system message is in neither, the ids of the buffer the entry hook
    leaves are unique. *)
Theorem on_enter_keeps_ids_unique (yaml_dump : PyValue → string)
    (new_id : string) self me s :
  objects s !! self = Some me →
  NoDup (item_id <$> chat_ctx me) →
  (∀ prev, ud_prev_agent (userdata s) = Some prev →
           NoDup (item_id <$> items_of prev s)
           ∧ new_id ∉ item_id <$> items_of prev s) →
  new_id ∉ item_id <$> chat_ctx me →
  ∃ s',
    on_enter yaml_dump new_id self s = Some s'
    ∧ NoDup (item_id <$> items_of self s').
Proof.
  intros Hme Hown Hprev Hfresh.
  destruct (on_enter_items yaml_dump new_id self me s Hme)
    as (s' & Hrun & _ & _ & _ & _ & Hobj).
  exists s'. split; [exact Hrun|].
  unfold items_of at 1. rewrite Hobj, lookup_insert_eq. simpl.
  rewrite fmap_app. simpl. apply NoDup_app. split; [|split].
  - destruct (ud_prev_agent (userdata s)) as [prev|]; [|done].
    destruct (negb _); [|done].
    destruct (Hprev prev eq_refl) as [Hnd _].
    destruct (carried_properties (chat_ctx me) (items_of prev s))
      as (_ & _ & Hall).
    rewrite fmap_app. apply NoDup_app. split; [done|]. split.
    + intros id Hid [item [-> Hitem]]%list_elem_of_fmap.
      rewrite Forall_forall in Hall. by destruct (Hall item Hitem).
    + by apply carried_ids_NoDup.
  - intros id Hid ->%list_elem_of_singleton.
    destruct (ud_prev_agent (userdata s)) as [prev|]; [|done].
    destruct (negb _); [|done].
    destruct (Hprev prev eq_refl) as [_ Hnew].
    destruct (carried_properties (chat_ctx me) (items_of prev s))
      as (_ & Hsub & _).
    rewrite fmap_app, elem_of_app in Hid. destruct Hid as [Hid|Hid]; [done|].
    apply Hnew. revert Hid. apply sublist_subseteq. by apply fmap_sublist.
  - apply NoDup_singleton.
Qed.

End EntryHook.

(** When the returns agent is entered from the initial agent, whose
    history holds only its own system message, nothing but the new system
    message is added. *)
Lemma on_enter_frame_witness :
  ∃ s',
    BaseAgent.on_enter Samples.words_dump "sys_2" CustomerSupport.returns_ref
      CustomerSupport.entrypoint_session = Some s'
    ∧ Voice.userdata s' = CustomerSupport.entrypoint_userdata
    ∧ Voice.reply_requests s' = [Voice.tool_choice_none].
Proof.
  destruct (on_enter_frame Samples.words_dump "sys_2"
              CustomerSupport.returns_ref
              (CustomerSupport.new_agent "ReturnsAgent" None)
              CustomerSupport.entrypoint_session eq_refl)
    as (s' & me' & Hrun & Hud & _ & _ & Hreq & _).
  exists s'. repeat split; assumption.
Defined.

(** The first agent of a session is entered with no previous agent. *)
Lemma on_enter_without_carry_over_witness :
  ∃ s',
    BaseAgent.on_enter Samples.words_dump "sys_1" CustomerSupport.initial_ref
      CustomerSupport.entrypoint_session = Some s'
    ∧ Voice.items_of CustomerSupport.initial_ref s'
      = [ChatCtx.ChatMessage "sys_1" ChatCtx.system
           (BaseAgent.enter_message Samples.words_dump "InitialSupport"
              CustomerSupport.entrypoint_userdata)].
Proof.
  apply (on_enter_without_carry_over Samples.words_dump "sys_1"
           CustomerSupport.initial_ref
           (CustomerSupport.new_agent "InitialSupport" (Some Voice.TextLLM))
           CustomerSupport.entrypoint_session);
    [reflexivity | left; reflexivity].
Defined.

(** Of the five items of the initial agent's history the returns agent
    takes three: the system message is left out and the answer is already
    in its buffer. *)
Lemma on_enter_carries_bounded_slice_witness :
  ∃ s' added,
    BaseAgent.on_enter Samples.words_dump "sys_2" CustomerSupport.returns_ref
      HandoffSamples.mid_handoff = Some s'
    ∧ Voice.items_of CustomerSupport.returns_ref s'
      = Samples.own_buffer ++ added
          ++ [ChatCtx.ChatMessage "sys_2" ChatCtx.system
                (BaseAgent.enter_message Samples.words_dump "ReturnsAgent"
                   (Voice.userdata HandoffSamples.mid_handoff))]
    ∧ (length added ≤ 6)%nat
    ∧ added `sublist_of` Samples.short_history
    ∧ (length (Voice.items_of CustomerSupport.returns_ref s') ≤ 9)%nat.
Proof.
  destruct (on_enter_carries_bounded_slice Samples.words_dump "sys_2"
              CustomerSupport.returns_ref HandoffSamples.returns_agent
              HandoffSamples.mid_handoff CustomerSupport.initial_ref)
    as (s' & added & Hrun & Hitems & Hlen & Hsub & _ & Hbound);
    [reflexivity..|].
  exists s', added. split_and!; assumption.
Defined.

Lemma on_enter_keeps_ids_unique_witness :
  ∃ s',
    BaseAgent.on_enter Samples.words_dump "sys_2" CustomerSupport.returns_ref
      HandoffSamples.mid_handoff = Some s'
    ∧ NoDup (ChatCtx.item_id <$> Voice.items_of CustomerSupport.returns_ref s').
Proof.
  apply (on_enter_keeps_ids_unique Samples.words_dump "sys_2"
           CustomerSupport.returns_ref HandoffSamples.returns_agent
           HandoffSamples.mid_handoff).
  - reflexivity.
  - apply (bool_decide_unpack _). vm_compute. exact I.
  - intros prev [= <-]. split.
    + apply (bool_decide_unpack _). vm_compute. exact I.
    + apply (bool_decide_unpack _). vm_compute. exact I.
  - apply (bool_decide_unpack _). vm_compute. exact I.
Defined.

(** Unfolds a call down to the tools of the agents. *)
Ltac unfold_call :=
  unfold SupportScript.run_call,
    CustomerSupport.update_customer_info, CustomerSupport.record_satisfaction,
    CustomerSupport.InitialSupport.identify_issue,
    CustomerSupport.InitialSupport.to_returns,
    CustomerSupport.InitialSupport.to_technical,
    CustomerSupport.InitialSupport.to_billing,
    CustomerSupport.InitialSupport.to_manager,
    CustomerSupport.InitialSupport.default_issue_type,
    CustomerSupport.ReturnsAgent.process_return,
    CustomerSupport.ReturnsAgent.send_return_label,
    CustomerSupport.ReturnsAgent.to_initial,
    CustomerSupport.ReturnsAgent.to_billing,
    CustomerSupport.ReturnsAgent.to_manager,
    CustomerSupport.TechnicalAgent.troubleshoot_issue,
    CustomerSupport.TechnicalAgent.escalate_technical_issue,
    CustomerSupport.TechnicalAgent.to_initial,
    CustomerSupport.TechnicalAgent.to_returns,
    CustomerSupport.BillingAgent.process_refund,
    CustomerSupport.BillingAgent.manage_subscription,
    CustomerSupport.BillingAgent.to_initial,
    CustomerSupport.BillingAgent.to_manager,
    CustomerSupport.ManagerAgent.resolve_escalated_issue,
    CustomerSupport.ManagerAgent.to_initial,
    CustomerSupport.ManagerAgent.to_returns,
    CustomerSupport.ManagerAgent.to_technical,
    CustomerSupport.ManagerAgent.to_billing,
    BaseAgent._transfer_to_agent;
  unfold_run.

Section SupportSessions.
Import ChatCtx Voice BaseAgent CustomerSupport SupportScript.

Lemma is_Some_kinds (objects : gmap AgentRef Agent) (r : AgentRef) :
  agent_kinds objects = agent_kinds entrypoint_objects →
  is_Some (objects !! r) ↔ is_Some (entrypoint_objects !! r).
Proof.
  intros Hk. unfold agent_kinds in Hk.
  rewrite <- (fmap_is_Some (λ a, (class_name a, agent_llm a)) (objects !! r)).
  rewrite <- lookup_fmap, Hk, lookup_fmap. apply fmap_is_Some.
Qed.

(** What one call that returns leaves of the session. *)
Lemma run_call_frame (fmt : IssueType → string) (c : ToolCall)
    (s s' : Session UserData) (r : ToolResult) :
  run_call fmt c s = inr (r, s') →
  objects s' = objects s
  ∧ current_agent s' = current_agent s
  ∧ session_llm s' = session_llm s
  ∧ reply_requests s' = reply_requests s
  ∧ agents (userdata s') = agents (userdata s)
  ∧ never_unset (userdata s) (userdata s')
  ∧ (approvals_consistent (userdata s) → approvals_consistent (userdata s'))
  ∧ match r with
    | Narrated _ => prev_agent (userdata s') = prev_agent (userdata s)
    | Handoff next _ =>
        prev_agent (userdata s') = Some (current_agent s)
        ∧ ∃ name, agents (userdata s) !! name = Some next
                  ∧ (name = "manager" → escalated (userdata s') = true)
    end.
Proof.
  destruct s as [u cur llm objs reqs]. destruct u.
  destruct c; unfold_call; intros Hrun; simpl in Hrun;
    repeat case_match; simplify_eq; simpl;
    repeat match goal with
           | H : context [negb (truthy_str ?o)] |- _ =>
               destruct (truthy_str o) eqn:?; simpl in H; try discriminate H
           | H : negb ?b = false |- _ => destruct b; [clear H|discriminate H]
           end;
    (split; [reflexivity|]); (split; [reflexivity|]);
    (split; [reflexivity|]); (split; [reflexivity|]);
    (split; [reflexivity|]);
    (split; [unfold never_unset; simpl; repeat split; eauto|]);
    (split; [unfold approvals_consistent; simpl;
             try solve [intuition (eauto; try congruence)]|]).
  all: try reflexivity.
  all: try ((split; [reflexivity|]); eexists; (split; [eassumption|]);
    first [discriminate | reflexivity]).
Qed.

Lemma entrypoint_agents_lookups :
  entrypoint_agents !! "initial" = Some initial_ref
  ∧ entrypoint_agents !! "returns" = Some returns_ref
  ∧ entrypoint_agents !! "technical" = Some technical_ref
  ∧ entrypoint_agents !! "billing" = Some billing_ref
  ∧ entrypoint_agents !! "manager" = Some manager_ref.
Proof. repeat split; vm_compute; reflexivity. Qed.

(** With the registry of [entrypoint] no call raises. *)
Lemma run_call_returns (fmt : IssueType → string) (c : ToolCall)
    (s : Session UserData) :
  agents (userdata s) = entrypoint_agents →
  ∃ r s', run_call fmt c s = inr (r, s').
Proof.
  destruct entrypoint_agents_lookups as (Hi & Hr & Ht & Hb & Hm).
  destruct s as [u cur llm objs reqs]. destruct u. simpl. intros ->.
  destruct c; unfold_call; simpl; rewrite ?Hi, ?Hr, ?Ht, ?Hb, ?Hm;
    repeat (case_match; simplify_eq/=); eauto.
Qed.

Lemma registered_refs (name : string) (next : AgentRef) :
  entrypoint_agents !! name = Some next →
  is_Some (entrypoint_objects !! next)
  ∧ (next = manager_ref → name = "manager").
Proof.
  revert name next. apply map_Forall_lookup.
  apply (bool_decide_unpack _). vm_compute. exact I.
Qed.

Lemma agent_kinds_update (objs : gmap AgentRef Agent) (self : AgentRef)
    (me : Agent) (items : list ChatItem) :
  objs !! self = Some me →
  agent_kinds (<[self := update_chat_ctx items me]> objs) = agent_kinds objs.
Proof.
  intros Hme. unfold agent_kinds. rewrite fmap_insert. simpl.
  apply insert_id. by rewrite lookup_fmap, Hme.
Qed.

(** The entry hook of the agent that has just become current keeps the
    shape. *)
Lemma on_enter_shape (yaml_dump : PyValue → string) (new_id : string)
    (s : Session UserData) :
  agents (userdata s) = entrypoint_agents →
  agent_kinds (objects s) = agent_kinds entrypoint_objects →
  is_Some (objects s !! current_agent s) →
  (∀ r, prev_agent (userdata s) = Some r → is_Some (objects s !! r)) →
  approvals_consistent (userdata s) →
  (current_agent s = manager_ref → escalated (userdata s) = true) →
  ∃ s',
    on_enter yaml_dump new_id (current_agent s) s = Some s'
    ∧ reachable_shape s'.
Proof.
  intros Hagents Hkinds [me Hme] Hprev Happ Hman.
  destruct (on_enter_items yaml_dump new_id (current_agent s) me s Hme)
    as (s' & Hrun & Hud & Hcur & _ & _ & Hobj).
  exists s'. split; [exact Hrun|]. unfold reachable_shape.
  rewrite Hud, Hcur, Hobj.
  split; [exact Hagents|].
  split; [by rewrite agent_kinds_update|].
  split; [rewrite lookup_insert_eq; eauto|].
  split; [|split; assumption].
  intros r Hr. destruct (decide (current_agent s = r)) as [->|Hne].
  - rewrite lookup_insert_eq. eauto.
  - rewrite lookup_insert_ne by done. by apply Hprev.
Qed.

(** One call, run by the driver, keeps the shape and does not fail. *)
Lemma run_tool_shape (yaml_dump : PyValue → string)
    (fmt : IssueType → string) (new_id : string) (c : ToolCall)
    (s : Session UserData) :
  reachable_shape s →
  ∃ s',
    run_tool yaml_dump new_id (run_call fmt c) s = Some s'
    ∧ reachable_shape s'.
Proof.
  intros (Hagents & Hkinds & Hcur & Hprev & Happ & Hman).
  destruct (run_call_returns fmt c s Hagents) as (r & s1 & Hrun).
  destruct (run_call_frame fmt c s s1 r Hrun)
    as (Hobj & Hcur1 & _ & _ & Hagents1 & Hnever & Happ1 & Hr).
  unfold run_tool. rewrite Hrun.
  destruct r as [msg|next msg]; simpl.
  - exists s1. split; [reflexivity|]. unfold reachable_shape.
    rewrite Hobj, Hcur1, Hagents1, Hr.
    repeat (split; [assumption|]). split; [by apply Happ1|].
    intros Hm. by apply Hnever, Hman.
  - destruct Hr as (Hprev1 & name & Hname & Hesc).
    rewrite Hagents in Hname.
    destruct (registered_refs name next Hname) as [Hnext Hmanager].
    apply (on_enter_shape yaml_dump new_id (set_current_agent next s1));
      simpl; try rewrite Hobj; try rewrite Hagents1; auto.
    + by apply is_Some_kinds.
    + intros r. rewrite Hprev1. intros [= <-]. exact Hcur.
Qed.

Lemma run_script_shape (yaml_dump : PyValue → string)
    (fmt : IssueType → string) (script : list (string * ToolCall)) :
  ∀ s, reachable_shape s →
       ∃ s', run_script yaml_dump fmt script s = Some s' ∧ reachable_shape s'.
Proof.
  induction script as [|[new_id c] script IH]; intros s Hs; simpl; [eauto|].
  destruct (run_tool_shape yaml_dump fmt new_id c s Hs) as (s1 & -> & Hs1).
  simpl. by apply IH.
Qed.

(** Whatever the script, the session [entrypoint] starts runs it to the
    end and has the shape. *)
Lemma session_after_shape (yaml_dump : PyValue → string)
    (fmt : IssueType → string) (first_id : string)
    (script : list (string * ToolCall)) :
  ∃ s,
    session_after yaml_dump fmt first_id script = Some s
    ∧ reachable_shape s.
Proof.
  unfold session_after, entrypoint.
  destruct (on_enter_shape yaml_dump first_id entrypoint_session)
    as (s0 & Hrun & Hs0).
  - reflexivity.
  - reflexivity.
  - eexists. reflexivity.
  - intros r [=].
  - unfold approvals_consistent. simpl. intuition discriminate.
  - intros [=].
  - change (current_agent entrypoint_session) with initial_ref in Hrun.
    rewrite Hrun. simpl. by apply run_script_shape.
Qed.

(** X11. In every session a sequence of calls leaves, the registry is
    still the five agents of [entrypoint], no agent object has been
    created or dropped or has changed class or model, and the current and
    the previous agent are among them; so [_transfer_to_agent] for each
    of the five names the tools use returns the handoff to an agent the
    session holds, and does not raise the registry's [KeyError]. This is
    a property of the function bodies: it says what a session that some
    sequence of calls has left looks like, not that the module as written
    can be run. *)
Theorem support_handoffs_find_their_agent (yaml_dump : PyValue → string)
    (fmt : IssueType → string) (first_id : string)
    (script : list (string * ToolCall)) (s : Session UserData) :
  session_after yaml_dump fmt first_id script = Some s →
  agents (userdata s) = entrypoint_agents
  ∧ agent_kinds (objects s) = agent_kinds entrypoint_objects
  ∧ is_Some (objects s !! current_agent s)
  ∧ (∀ r, prev_agent (userdata s) = Some r → is_Some (objects s !! r))
  ∧ ∀ name,
      name ∈ ["initial"; "returns"; "technical"; "billing"; "manager"] →
      ∃ next s',
        _transfer_to_agent name s
        = inr (Handoff next ("Transferring to " +:+ name +:+ "."), s')
        ∧ agents (userdata s) !! name = Some next
        ∧ is_Some (objects s' !! next).
Proof.
  intros Hrun.
  destruct (session_after_shape yaml_dump fmt first_id script)
    as (s0 & Hrun0 & Ha & Hk & Hc & Hp & _).
  rewrite Hrun in Hrun0. injection Hrun0 as <-.
  split_and!; [done..|].
  intros name Hname.
  assert (Hnext : ∃ next, entrypoint_agents !! name = Some next)
    by (repeat (apply elem_of_cons in Hname as [->|Hname]; [by eexists|]);
        by apply elem_of_nil in Hname).
  destruct Hnext as [next Hnext].
  exists next. eexists. unfold _transfer_to_agent.
  change (ud_agents (userdata s)) with (agents (userdata s)).
  rewrite Ha, Hnext. split; [reflexivity|]. split; [reflexivity|].
  simpl. apply is_Some_kinds; [done|]. by eapply registered_refs.
Qed.

(** After three handoffs the technical agent is current, and a handoff to
    the manager finds its agent. *)
Lemma support_handoffs_find_their_agent_witness :
  ∃ s s',
    session_after Samples.words_dump issue_type_value "sys_1"
      [ ("sys_2", initial_to_billing); ("sys_3", billing_to_manager);
        ("sys_4", manager_to_technical) ] = Some s
    ∧ current_agent s = technical_ref
    ∧ _transfer_to_agent "manager" s
      = inr (Handoff manager_ref "Transferring to manager.", s').
Proof.
  destruct (session_after Samples.words_dump issue_type_value "sys_1"
              [ ("sys_2", initial_to_billing); ("sys_3", billing_to_manager);
                ("sys_4", manager_to_technical) ]) as [s|] eqn:Hrun;
    [|by vm_compute in Hrun].
  destruct (support_handoffs_find_their_agent _ _ _ _ s Hrun)
    as (Hagents & _ & _ & _ & Hfind).
  destruct (Hfind "manager") as (next & s' & Hto & Hnext & _);
    [set_solver|].
  rewrite Hagents in Hnext. injection Hnext as <-.
  exists s, s'. split; [reflexivity|]. split; [|exact Hto].
  vm_compute in Hrun. by injection Hrun as <-.
Defined.

(** X12. After any sequence of calls an approval has what its tool asked
    for: a return is approved only with order number and product id on
    record and a reason stored, a return label is sent only for an
    approved return with an email on record, and a refund is approved
    only with order number and email on record and an amount stored. *)
Theorem support_approvals_have_prerequisites (yaml_dump : PyValue → string)
    (fmt : IssueType → string) (first_id : string)
    (script : list (string * ToolCall)) :
  ∃ s,
    session_after yaml_dump fmt first_id script = Some s
    ∧ (return_approved (userdata s) = true →
       truthy_str (order_number (userdata s)) = true
       ∧ truthy_str (product_id (userdata s)) = true
       ∧ is_Some (return_reason (userdata s)))
    ∧ (return_label_sent (userdata s) = true →
       return_approved (userdata s) = true
       ∧ truthy_str (customer_email (userdata s)) = true)
    ∧ (refund_approved (userdata s) = true →
       truthy_str (order_number (userdata s)) = true
       ∧ truthy_str (customer_email (userdata s)) = true
       ∧ is_Some (refund_amount (userdata s))).
Proof.
  destruct (session_after_shape yaml_dump fmt first_id script)
    as (s & Hrun & _ & _ & _ & _ & Happ & _).
  exists s. split; [exact Hrun | exact Happ].
Qed.

(** A refund asked for before the order number is known is not approved;
    asked for again with order number and email on record, it is. *)
Lemma support_approvals_have_prerequisites_witness :
  ∃ s,
    session_after Samples.words_dump issue_type_value "sys_1"
      [ ("sys_2", initial_to_billing);
        ("unused", process_refund_call 50);
        ("unused", update_customer_info_call None (Some "ada@example.com") None);
        ("unused", identify_issue_call (Some "A100") None BILLING "charged twice");
        ("unused", process_refund_call 50) ] = Some s
    ∧ refund_approved (userdata s) = true
    ∧ truthy_str (order_number (userdata s)) = true
    ∧ truthy_str (customer_email (userdata s)) = true
    ∧ is_Some (refund_amount (userdata s)).
Proof.
  destruct (support_approvals_have_prerequisites Samples.words_dump
              issue_type_value "sys_1"
              [ ("sys_2", initial_to_billing);
                ("unused", process_refund_call 50);
                ("unused",
                 update_customer_info_call None (Some "ada@example.com") None);
                ("unused",
                 identify_issue_call (Some "A100") None BILLING "charged twice");
                ("unused", process_refund_call 50) ])
    as (s & Hrun & _ & _ & Hrefund).
  exists s. split; [exact Hrun|].
  assert (Happroved : refund_approved (userdata s) = true)
    by (vm_compute in Hrun; injection Hrun as <-; reflexivity).
  split; [exact Happroved|]. by apply Hrefund.
Defined.

End SupportSessions.

Section SupportTools.
Import ChatCtx Voice BaseAgent PyString CustomerSupport SupportScript.

Lemma lower_char_idempotent (c : Ascii.ascii) :
  lower_char (lower_char c) = lower_char c.
Proof. destruct c as [[] [] [] [] [] [] [] []]; reflexivity. Qed.

Lemma lower_idempotent (s : string) : lower (lower s) = lower s.
Proof.
  induction s as [|c s IH]; simpl; [done|].
  by rewrite lower_char_idempotent, IH.
Qed.

Lemma truthy_lower (d : string) :
  truthy_str (Some (lower d)) = truthy_str (Some d).
Proof. by destruct d. Qed.

(** X13. After any sequence of calls, if the manager is the current
    agent then the issue is escalated, so [resolve_escalated_issue] run in
    that session never answers that it sees no escalated issue: it returns
    a response that contains the resolution and leaves the session as it
    is. *)
Theorem support_manager_only_after_escalation (yaml_dump : PyValue → string)
    (fmt : IssueType → string) (first_id : string)
    (script : list (string * ToolCall)) :
  ∃ s,
    session_after yaml_dump fmt first_id script = Some s
    ∧ (current_agent s = manager_ref →
       escalated (userdata s) = true
       ∧ ∀ resolution accommodation,
           ∃ response,
             ManagerAgent.resolve_escalated_issue resolution accommodation s
             = inr (Narrated response, s)
             ∧ contains resolution response = true).
Proof.
  destruct (session_after_shape yaml_dump fmt first_id script)
    as (s & Hrun & _ & _ & _ & _ & _ & Hman).
  exists s. split; [exact Hrun|]. intros Hcur.
  specialize (Hman Hcur). split; [exact Hman|].
  intros resolution accommodation.
  unfold ManagerAgent.resolve_escalated_issue. unfold_run. rewrite Hman.
  simpl. eexists. split; [reflexivity|].
  apply contains_append_l.
  destruct (truthy_str accommodation).
  - apply contains_append_l, contains_append_r, contains_self.
  - apply contains_append_r, contains_self.
Qed.

Lemma support_manager_only_after_escalation_witness :
  ∃ s response,
    session_after Samples.words_dump issue_type_value "sys_1"
      [("sys_2", initial_to_returns); ("sys_3", returns_to_manager)] = Some s
    ∧ escalation_reason (userdata s) = Some "Complex return issue"
    ∧ ManagerAgent.resolve_escalated_issue "a full refund" None s
      = inr (Narrated response, s)
    ∧ contains "a full refund" response = true.
Proof.
  destruct (support_manager_only_after_escalation Samples.words_dump
              issue_type_value "sys_1"
              [("sys_2", initial_to_returns); ("sys_3", returns_to_manager)])
    as (s & Hrun & Hman).
  assert (Hcur : current_agent s = manager_ref)
    by (vm_compute in Hrun; injection Hrun as <-; reflexivity).
  assert (Hreason : escalation_reason (userdata s)
                    = Some "Complex return issue")
    by (vm_compute in Hrun; injection Hrun as <-; reflexivity).
  destruct (Hman Hcur) as [_ Hres].
  destruct (Hres "a full refund" None) as (response & Hresp & Hin).
  exists s, response. repeat split; assumption.
Defined.

(** X14. A call that returns leaves the agent objects with their chat
    items, the current agent, the session's model, the requested replies
    and the registry untouched, and unsets nothing in the user data: a
    contact field, order number or product id that holds a non-empty
    string still holds one, a field that holds a value still holds one,
    and an approval or escalation flag that is up stays up. *)
Theorem support_tools_never_unset (fmt : IssueType → string) (c : ToolCall)
    (s s' : Session UserData) (r : ToolResult) :
  run_call fmt c s = inr (r, s') →
  objects s' = objects s
  ∧ current_agent s' = current_agent s
  ∧ session_llm s' = session_llm s
  ∧ reply_requests s' = reply_requests s
  ∧ agents (userdata s') = agents (userdata s)
  ∧ never_unset (userdata s) (userdata s').
Proof.
  intros Hrun.
  destruct (run_call_frame fmt c s s' r Hrun)
    as (H1 & H2 & H3 & H4 & H5 & H6 & _).
  exact (conj H1 (conj H2 (conj H3 (conj H4 (conj H5 H6))))).
Qed.

(** An empty name does not erase the name on record. *)
Lemma support_tools_never_unset_witness :
  run_call issue_type_value
    (update_customer_info_call (Some "") (Some "ada@example.com") None)
    (set_userdata (set_customer_name (Some "Ada") entrypoint_userdata)
       entrypoint_session)
  = inr (Narrated "Thank you, I've updated your email.",
         set_userdata
           (set_customer_email (Some "ada@example.com")
              (set_customer_name (Some "Ada") entrypoint_userdata))
           entrypoint_session)
  ∧ truthy_str
      (customer_name
         (set_customer_email (Some "ada@example.com")
            (set_customer_name (Some "Ada") entrypoint_userdata))) = true.
Proof.
  assert (Hrun :
    run_call issue_type_value
      (update_customer_info_call (Some "") (Some "ada@example.com") None)
      (set_userdata (set_customer_name (Some "Ada") entrypoint_userdata)
         entrypoint_session)
    = inr (Narrated "Thank you, I've updated your email.",
           set_userdata
             (set_customer_email (Some "ada@example.com")
                (set_customer_name (Some "Ada") entrypoint_userdata))
             entrypoint_session))
    by (vm_compute; reflexivity).
  split; [exact Hrun|].
  destruct (support_tools_never_unset _ _ _ _ _ Hrun)
    as (_ & _ & _ & _ & _ & Hname & _).
  apply Hname. reflexivity.
Defined.

(** X15. With an order number on record, [process_return] approves the
    return exactly for the three catalogue products that are not a
    subscription, storing the reason and raising [return_approved]; for
    the subscription [P004] and for an id that is not in the catalogue it
    answers without changing anything. *)
Theorem process_return_outcome (return_reason : string) (pid : string)
    (s : Session UserData) :
  truthy_str (order_number (userdata s)) = true →
  product_id (userdata s) = Some pid →
  pid ≠ "" →
  ReturnsAgent.process_return return_reason s
  = if bool_decide (pid ∈ ["P001"; "P002"; "P003"]) then
      inr (Narrated "Thank you for providing that information. Based on our policy, your return has been approved. Would you like me to email you a return shipping label?",
           set_userdata
             (set_return_approved true
                (set_return_reason (Some return_reason) (userdata s))) s)
    else if bool_decide (pid = "P004") then
      inr (Narrated "This appears to be a subscription service, which follows our digital services cancellation policy. Let me transfer you to our billing department who can help with cancellations and refunds.", s)
    else
      inr (Narrated
             ("I'm unable to find product ID " +:+ pid
              +:+ " in our system. Could you please verify the product ID?"),
           s).
Proof.
  intros Horder Hpid Hne.
  unfold ReturnsAgent.process_return. unfold_run.
  rewrite Horder, Hpid. unfold truthy_str at 1.
  rewrite bool_decide_eq_false_2 by done. simpl.
  destruct (decide (pid = "P001")) as [->|H1]; [reflexivity|].
  rewrite (bool_decide_eq_false_2 (Some "P001" = Some pid)) by congruence.
  destruct (decide (pid = "P002")) as [->|H2]; [reflexivity|].
  rewrite (bool_decide_eq_false_2 (Some "P002" = Some pid)) by congruence.
  destruct (decide (pid = "P003")) as [->|H3]; [reflexivity|].
  rewrite (bool_decide_eq_false_2 (Some "P003" = Some pid)) by congruence.
  rewrite (bool_decide_eq_false_2 (pid ∈ ["P001"; "P002"; "P003"]))
    by (rewrite !elem_of_cons, elem_of_nil; tauto).
  destruct (decide (pid = "P004")) as [->|H4]; [reflexivity|].
  rewrite (bool_decide_eq_false_2 (Some "P004" = Some pid)) by congruence.
  rewrite (bool_decide_eq_false_2 (pid = "P004")) by done.
  reflexivity.
Qed.

Lemma process_return_outcome_witness :
  ReturnsAgent.process_return "arrived damaged"
    (set_userdata
       (set_product_id (Some "P004")
          (set_order_number (Some "A100") entrypoint_userdata))
       entrypoint_session)
  = inr (Narrated "This appears to be a subscription service, which follows our digital services cancellation policy. Let me transfer you to our billing department who can help with cancellations and refunds.",
         set_userdata
           (set_product_id (Some "P004")
              (set_order_number (Some "A100") entrypoint_userdata))
           entrypoint_session).
Proof.
  rewrite (process_return_outcome "arrived damaged" "P004");
    [reflexivity | reflexivity | reflexivity | done].
Defined.

(** X16. Called with no argument that is set and not empty,
    [update_customer_info] changes nothing and answers with an empty list
    of updated fields. *)
Theorem update_customer_info_nothing_given (name email phone : option string)
    (s : Session UserData) :
  truthy_str name = false →
  truthy_str email = false →
  truthy_str phone = false →
  update_customer_info name email phone s
  = inr (Narrated "Thank you, I've updated your .", s).
Proof.
  intros Hn He Hp. unfold update_customer_info. unfold_run.
  rewrite Hn, He, Hp. reflexivity.
Qed.

Lemma update_customer_info_nothing_given_witness :
  update_customer_info None (Some "") None entrypoint_session
  = inr (Narrated "Thank you, I've updated your .", entrypoint_session).
Proof.
  apply update_customer_info_nothing_given; reflexivity.
Defined.

(** X17. [manage_subscription] reads its action without regard to case
    and never changes the session. *)
Theorem manage_subscription_ignores_case (action : string)
    (s : Session UserData) :
  BillingAgent.manage_subscription (lower action) s
  = BillingAgent.manage_subscription action s
  ∧ ∃ msg, BillingAgent.manage_subscription action s = inr (Narrated msg, s).
Proof.
  unfold BillingAgent.manage_subscription. unfold_run.
  rewrite lower_idempotent. split; [reflexivity|].
  repeat case_match; eauto.
Qed.

(** X18. [troubleshoot_issue] never changes the session, answers with the
    request for details, one of the three knowledge-base entries or the
    general steps, and reads the issue description without regard to
    case. *)
Theorem troubleshoot_issue_reads_only (s : Session UserData) :
  (∃ msg,
     TechnicalAgent.troubleshoot_issue s = inr (Narrated msg, s)
     ∧ msg ∈ [ "To help troubleshoot your issue, I'll need more details about the product and the problem you're experiencing. Could you describe what's happening?";
               kb_headphones_not_connecting; kb_tv_no_picture;
               kb_subscription_access_issues;
               TechnicalAgent.generic_steps ])
  ∧ ∀ description,
      ∃ msg,
        TechnicalAgent.troubleshoot_issue
          (set_userdata
             (set_issue_description (Some description) (userdata s)) s)
        = inr (Narrated msg,
               set_userdata
                 (set_issue_description (Some description) (userdata s)) s)
        ∧ TechnicalAgent.troubleshoot_issue
            (set_userdata
               (set_issue_description (Some (lower description)) (userdata s))
               s)
          = inr (Narrated msg,
                 set_userdata
                   (set_issue_description (Some (lower description))
                      (userdata s)) s).
Proof.
  split.
  - unfold TechnicalAgent.troubleshoot_issue. unfold_run.
    repeat case_match; eexists; (split; [reflexivity|]);
      rewrite !elem_of_cons; tauto.
  - intros description.
    unfold TechnicalAgent.troubleshoot_issue. unfold_run.
    cbn [userdata set_userdata issue_description set_issue_description
         product_id].
    rewrite truthy_lower.
    change (default "" (Some (lower description))) with (lower description).
    change (default "" (Some description)) with description.
    rewrite lower_idempotent.
    repeat case_match; eexists; split; reflexivity.
Qed.

(** X19. The handoffs of the initial agent to returns, technical support
    and billing keep an issue type that has been identified and set their
    own only when there is none. *)
Theorem initial_handoffs_keep_issue_type (s : Session UserData) :
  agents (userdata s) = entrypoint_agents →
  (∃ s',
     InitialSupport.to_returns s
     = inr (Handoff returns_ref "Transferring to returns.", s')
     ∧ issue_type (userdata s')
       = Some (default RETURN (issue_type (userdata s))))
  ∧ (∃ s',
       InitialSupport.to_technical s
       = inr (Handoff technical_ref "Transferring to technical.", s')
       ∧ issue_type (userdata s')
         = Some (default TECHNICAL (issue_type (userdata s))))
  ∧ (∃ s',
       InitialSupport.to_billing s
       = inr (Handoff billing_ref "Transferring to billing.", s')
       ∧ issue_type (userdata s')
         = Some (default BILLING (issue_type (userdata s)))).
Proof.
  destruct entrypoint_agents_lookups as (_ & Hr & Ht & Hb & _).
  destruct s as [u cur llm objs reqs]. destruct u. simpl. intros ->.
  repeat split;
    unfold InitialSupport.to_returns, InitialSupport.to_technical,
      InitialSupport.to_billing, InitialSupport.default_issue_type,
      _transfer_to_agent; unfold_run; simpl;
    destruct issue_type0; simpl; rewrite ?Hr, ?Ht, ?Hb;
    eexists; split; reflexivity.
Qed.

(** A technical issue that ends with the returns agent is still recorded
    as technical. *)
Lemma initial_handoffs_keep_issue_type_witness :
  ∃ s',
    InitialSupport.to_returns
      (set_userdata (set_issue_type (Some TECHNICAL) entrypoint_userdata)
         entrypoint_session)
    = inr (Handoff returns_ref "Transferring to returns.", s')
    ∧ issue_type (userdata s') = Some TECHNICAL.
Proof.
  destruct (initial_handoffs_keep_issue_type
              (set_userdata (set_issue_type (Some TECHNICAL) entrypoint_userdata)
                 entrypoint_session) eq_refl)
    as [(s' & Hrun & Htype) _].
  exists s'. split; assumption.
Defined.

End SupportTools.

Set Warnings "-clear-no-such-hyp".

Section EstateSearch.
Import ChatCtx Voice BaseAgent PyString RealEstate EstateScript.

Implicit Types (preferences : gmap string PyValue) (l : list Property).

(** What a comprehension that does not raise keeps. *)
Lemma filter_raising_kept (test : Property → PyError + bool) l kept :
  filter_raising test l = inr kept →
  kept `sublist_of` l ∧ ∀ p, p ∈ kept → test p = inr true.
Proof.
  revert kept. induction l as [|x l IH]; intros kept; simpl.
  - intros [= <-]. split; [done|]. intros p Hp. by apply elem_of_nil in Hp.
  - destruct (test x) as [e|b] eqn:Hx; [done|].
    destruct (filter_raising test l) as [e|kept'] eqn:Hl; [done|].
    destruct (IH kept' eq_refl) as [Hsub Hall].
    intros [= <-]. destruct b.
    + split; [by apply sublist_skip|].
      intros p [->|Hp]%elem_of_cons; [done | by apply Hall].
    + split; [by apply sublist_cons|]. exact Hall.
Qed.

(** A test that never raises gives a comprehension that never raises. *)
Lemma filter_raising_total (test : Property → PyError + bool) l :
  (∀ p, ∃ b, test p = inr b) → ∃ kept, filter_raising test l = inr kept.
Proof.
  intros Htest. induction l as [|x l [kept IH]]; simpl; [eauto|].
  destruct (Htest x) as [b ->]. rewrite IH. eauto.
Qed.

Lemma filter_by_kept preferences key test l kept :
  filter_by preferences key test l = inr kept →
  kept `sublist_of` l
  ∧ ∃ v, preferences !! key = Some v
         ∧ (py_truthy v = true → ∀ p, p ∈ kept → test p v = inr true).
Proof.
  unfold filter_by. destruct (preferences !! key) as [v|]; [|done].
  destruct (py_truthy v) eqn:Hv.
  - intros [Hsub Hall]%filter_raising_kept. split; [done|]. eauto.
  - intros [= <-]. split; [done|]. exists v. split; [done|]. congruence.
Qed.

Lemma filter_by_total preferences key test l :
  (∃ v, preferences !! key = Some v
        ∧ (py_truthy v = true → ∀ p, ∃ b, test p v = inr b)) →
  ∃ kept, filter_by preferences key test l = inr kept.
Proof.
  intros (v & Hkey & Htest). unfold filter_by. rewrite Hkey.
  destruct (py_truthy v); [|eauto].
  apply filter_raising_total. by apply Htest.
Qed.

Lemma typed_key_present preferences key :
  preferences_typed preferences →
  key ∈ ["min_price"; "max_price"; "min_bedrooms"; "min_bathrooms";
         "property_type"; "location"] →
  is_Some (preferences !! key).
Proof.
  intros (Hdom & _) Hkey. apply elem_of_dom. rewrite Hdom.
  apply elem_of_dom.
  repeat (apply elem_of_cons in Hkey as [->|Hkey]; [by eexists|]).
  by apply elem_of_nil in Hkey.
Qed.

Lemma typed_numeric preferences key (test : Property → PyValue → PyError + bool) :
  preferences_typed preferences →
  key ∈ ["min_price"; "max_price"; "min_bedrooms"; "min_bathrooms"] →
  (∀ p z, ∃ b, test p (PyInt z) = inr b) →
  ∃ v, preferences !! key = Some v
       ∧ (py_truthy v = true → ∀ p, ∃ b, test p v = inr b).
Proof.
  intros Htyped Hkey Htest.
  destruct (typed_key_present preferences key Htyped) as [v Hv].
  { revert Hkey. rewrite !elem_of_cons. tauto. }
  exists v. split; [done|].
  destruct Htyped as (_ & Hnum & _).
  destruct (Hnum key v Hkey Hv) as [-> | [z ->]]; [done|].
  intros _ p. apply Htest.
Qed.

(** With typed preferences the five filters never raise, and what they
    keep is part of the catalogue. *)
Lemma matching_total preferences :
  preferences_typed preferences →
  ∃ l, matching preferences = inr l ∧ l `sublist_of` PROPERTY_DATABASE.
Proof.
  intros Htyped. unfold matching.
  destruct (filter_by_total preferences "min_price"
              (λ p, int_ge (price p)) PROPERTY_DATABASE) as [l1 H1].
  { apply typed_numeric; [done | set_solver | simpl; eauto]. }
  rewrite H1.
  destruct (filter_by_total preferences "max_price"
              (λ p, int_le (price p)) l1) as [l2 H2].
  { apply typed_numeric; [done | set_solver | simpl; eauto]. }
  rewrite H2.
  destruct (filter_by_total preferences "min_bedrooms"
              (λ p, int_ge (bedrooms p)) l2) as [l3 H3].
  { apply typed_numeric; [done | set_solver | simpl; eauto]. }
  rewrite H3.
  destruct (filter_by_total preferences "min_bathrooms"
              (λ p, int_ge (bathrooms p)) l3) as [l4 H4].
  { apply typed_numeric; [done | set_solver | simpl; eauto]. }
  rewrite H4.
  destruct (filter_by_total preferences "property_type"
              (λ p, lower_eq (type p)) l4) as [l5 H5].
  { destruct (typed_key_present preferences "property_type" Htyped)
      as [v Hv]; [set_solver|].
    exists v. split; [done|].
    destruct Htyped as (_ & _ & Htext).
    destruct (Htext "property_type" v ltac:(set_solver) Hv) as [-> | [t ->]];
      [done|].
    intros _ p. simpl. eauto. }
  exists l5. split; [done|].
  apply filter_by_kept in H1 as [S1 _], H2 as [S2 _], H3 as [S3 _],
    H4 as [S4 _], H5 as [S5 _].
  by repeat (etrans; [eassumption|]).
Qed.

Lemma report_prefix l : ∀ i result viewed,
  viewed `prefix_of` (report i l result viewed).2.
Proof.
  induction l as [|prop l IH]; intros i result viewed; simpl; [done|].
  etrans; [|apply IH]. case_bool_decide; [done | by apply prefix_app_r].
Qed.

(** What the loop over the matching properties returns as viewed. *)
Lemma report_viewed l : ∀ i result viewed,
  NoDup viewed →
  NoDup (report i l result viewed).2
  ∧ viewed `prefix_of` (report i l result viewed).2
  ∧ (∀ x, x ∈ (report i l result viewed).2 → x ∈ viewed ∨ x ∈ id <$> l)
  ∧ (∀ p, p ∈ l → id p ∈ (report i l result viewed).2).
Proof.
  induction l as [|prop l IH]; intros i result viewed Hnd; simpl.
  - split; [done|]. split; [done|]. split; [auto|].
    intros p Hp. by apply elem_of_nil in Hp.
  - set (viewed' := if bool_decide (id prop ∈ viewed) then viewed
                    else viewed ++ [id prop]).
    assert (Hnd' : NoDup viewed').
    { unfold viewed'. case_bool_decide; [done|].
      apply NoDup_app. split; [done|]. split; [|apply NoDup_singleton].
      intros x Hx ->%list_elem_of_singleton. done. }
    assert (Hpre : viewed `prefix_of` viewed').
    { unfold viewed'. case_bool_decide; [done | by apply prefix_app_r]. }
    assert (Hin : id prop ∈ viewed').
    { unfold viewed'. case_bool_decide; [done|]. set_solver. }
    assert (Hfrom : ∀ x, x ∈ viewed' → x ∈ viewed ∨ x = id prop).
    { unfold viewed'. case_bool_decide; [auto|]. set_solver. }
    destruct (IH (S i) (result +:+ describe i prop) viewed' Hnd')
      as (H1 & H2 & H3 & H4).
    split; [done|]. split; [by etrans|]. split.
    + intros x Hx. destruct (H3 x Hx) as [Hv|Hl]; [|set_solver].
      destruct (Hfrom x Hv) as [?| ->]; [auto|]. set_solver.
    + intros p [->|Hp]%elem_of_cons; [|by apply H4].
      destruct H2 as [k ->]. set_solver.
Qed.

Lemma matching_kept preferences l :
  matching preferences = inr l → l `sublist_of` PROPERTY_DATABASE.
Proof.
  unfold matching. intros Hm. repeat case_match; try done.
  repeat match goal with
         | H : filter_by _ _ _ _ = inr _ |- _ =>
             apply filter_by_kept in H as [? _]
         end.
  by repeat (etrans; [eassumption|]).
Qed.

Lemma catalogue_ids_sublist l :
  l `sublist_of` PROPERTY_DATABASE → id <$> l ⊆ id <$> PROPERTY_DATABASE.
Proof. intros Hsub. by apply sublist_subseteq, fmap_sublist. Qed.

(** What [search_properties] leaves when it returns. *)
Lemma search_properties_frame (s s' : Session UserData) (r : ToolResult) :
  search_properties s = inr (r, s') →
  ∃ msg viewed,
    r = Narrated msg
    ∧ s' = set_userdata (set_viewed_properties viewed (userdata s)) s
    ∧ viewed_properties (userdata s) `prefix_of` viewed
    ∧ (catalogue_ids (viewed_properties (userdata s)) → catalogue_ids viewed).
Proof.
  unfold search_properties.
  destruct (matching (property_preferences (userdata s))) as [e|l] eqn:Hm;
    [done|].
  apply matching_kept in Hm.
  destruct l as [|p l].
  - intros [= <- <-]. eexists _, (viewed_properties (userdata s)).
    split; [done|]. split; [by destruct s as [[] ? ? ? ?]|]. done.
  - destruct (report 1 (p :: l) _ (viewed_properties (userdata s)))
      as [result viewed] eqn:Hrep.
    intros [= <- <-]. exists result, viewed. split; [done|]. split; [done|].
    assert (Hv : viewed = (report 1 (p :: l)
                    ("I found " +:+ pretty (length (p :: l))
                     +:+ " properties matching your criteria:"
                     +:+ newline +:+ newline)
                    (viewed_properties (userdata s))).2)
      by (by rewrite Hrep).
    split.
    + rewrite Hv. apply report_prefix.
    + intros [Hnd Hsub].
      destruct (report_viewed (p :: l) 1
                  ("I found " +:+ pretty (length (p :: l))
                   +:+ " properties matching your criteria:"
                   +:+ newline +:+ newline)
                  (viewed_properties (userdata s)) Hnd) as (H1 & _ & H3 & _).
      rewrite <- Hv in H1, H3. split; [done|].
      intros x Hx. destruct (H3 x Hx) as [?|Hl]; [by apply Hsub|].
      revert Hl. by apply catalogue_ids_sublist.
Qed.

(** The preferences [update_property_preferences] leaves. *)
Lemma update_property_preferences_run
    (min_price max_price min_bedrooms min_bathrooms : option Z)
    (property_type location : option string) (s : Session UserData) :
  ∃ s',
    PropertyFinder.update_property_preferences min_price max_price
      min_bedrooms min_bathrooms property_type location s
    = inr (Narrated "I've updated your property preferences. Now I can search for properties that match your criteria.", s')
    ∧ s' = set_userdata
             (set_property_preferences
                (property_preferences (userdata s')) (userdata s)) s
    ∧ property_preferences (userdata s')
      = (if truthy_str location
         then <["location" := opt_str location]> else λ p, p)
          ((if truthy_str property_type
            then <["property_type" := opt_str property_type]> else λ p, p)
             ((if truthy_int min_bathrooms
               then <["min_bathrooms" := opt_int min_bathrooms]> else λ p, p)
                ((if truthy_int min_bedrooms
                  then <["min_bedrooms" := opt_int min_bedrooms]>
                  else λ p, p)
                   ((if truthy_int max_price
                     then <["max_price" := opt_int max_price]> else λ p, p)
                      ((if truthy_int min_price
                        then <["min_price" := opt_int min_price]>
                        else λ p, p)
                         (property_preferences (userdata s))))))).
Proof.
  destruct s as [u cur llm objs reqs]. destruct u.
  unfold PropertyFinder.update_property_preferences,
    PropertyFinder.set_preference. unfold_run.
  destruct (truthy_int min_price), (truthy_int max_price),
    (truthy_int min_bedrooms), (truthy_int min_bathrooms),
    (truthy_str property_type), (truthy_str location);
    eexists; (split; [reflexivity|]); split; reflexivity.
Qed.

Lemma numeric_opt_int (o : option Z) : numeric_preference (opt_int o).
Proof. destruct o; [right; eauto | by left]. Qed.

Lemma text_opt_str (o : option string) : text_preference (opt_str o).
Proof. destruct o; [right; eauto | by left]. Qed.

Lemma preferences_typed_insert preferences key v :
  preferences_typed preferences →
  (key ∈ ["min_price"; "max_price"; "min_bedrooms"; "min_bathrooms"]
   ∧ numeric_preference v)
  ∨ (key ∈ ["property_type"; "location"] ∧ text_preference v) →
  preferences_typed (<[key := v]> preferences).
Proof.
  intros Htyped Hkind.
  assert (Hin : key ∈ dom preferences).
  { apply elem_of_dom, typed_key_present; [done|].
    destruct Hkind as [[Hk _]|[Hk _]]; revert Hk;
      rewrite !elem_of_cons; tauto. }
  destruct Htyped as (Hdom & Hnum & Htext).
  split; [|split].
  - rewrite dom_insert_L, <- Hdom. set_solver.
  - intros k w Hk. destruct (decide (key = k)) as [->|Hne].
    + rewrite lookup_insert_eq. intros [= <-].
      destruct Hkind as [[_ ?]|[Hk' _]]; [done|].
      exfalso. revert Hk Hk'. rewrite !elem_of_cons, !elem_of_nil.
      intros [->|[->|[->|[->|[]]]]] [?|[?|[]]]; done.
    + rewrite lookup_insert_ne by done. by apply Hnum.
  - intros k w Hk. destruct (decide (key = k)) as [->|Hne].
    + rewrite lookup_insert_eq. intros [= <-].
      destruct Hkind as [[Hk' _]|[_ ?]]; [|done].
      exfalso. revert Hk Hk'. rewrite !elem_of_cons, !elem_of_nil.
      intros [->|[->|[]]] [?|[?|[?|[?|[]]]]]; done.
    + rewrite lookup_insert_ne by done. by apply Htext.
Qed.

Lemma update_property_preferences_typed
    (min_price max_price min_bedrooms min_bathrooms : option Z)
    (property_type location : option string) (s s' : Session UserData)
    (r : ToolResult) :
  PropertyFinder.update_property_preferences min_price max_price
    min_bedrooms min_bathrooms property_type location s = inr (r, s') →
  preferences_typed (property_preferences (userdata s)) →
  preferences_typed (property_preferences (userdata s')).
Proof.
  destruct (update_property_preferences_run min_price max_price min_bedrooms
              min_bathrooms property_type location s)
    as (s1 & -> & _ & Hprefs).
  intros [= _ <-] Htyped. rewrite Hprefs.
  repeat match goal with
         | |- context [if ?b then _ else _] => destruct b
         end;
    repeat (apply preferences_typed_insert;
            [|first [left; split; [set_solver | apply numeric_opt_int]
                    |right; split; [set_solver | apply text_opt_str]]]);
    assumption.
Qed.

Lemma find_by_address_catalogue (property_address : string) (p : Property) :
  PropertyFinder.find_by_address property_address = Some p →
  p ∈ PROPERTY_DATABASE.
Proof.
  unfold PropertyFinder.find_by_address.
  intros [Hin _]%find_some. by apply list_elem_of_In.
Qed.

(** What [express_interest] leaves. *)
Lemma express_interest_run (property_address : string)
    (s : Session UserData) :
  ∃ msg interested,
    PropertyFinder.express_interest property_address s
    = inr (Narrated msg,
           match PropertyFinder.find_by_address property_address with
           | Some p =>
               if bool_decide (id p ∈ interested_properties (userdata s))
               then s
               else set_userdata
                      (set_interested_properties interested (userdata s)) s
           | None => s
           end)
    ∧ interested
      = match PropertyFinder.find_by_address property_address with
        | Some p =>
            if bool_decide (id p ∈ interested_properties (userdata s))
            then interested_properties (userdata s)
            else interested_properties (userdata s) ++ [id p]
        | None => interested_properties (userdata s)
        end.
Proof.
  unfold PropertyFinder.express_interest. unfold_run.
  destruct (PropertyFinder.find_by_address property_address) as [p|];
    [|eexists _, _; split; reflexivity].
  case_bool_decide; simpl; eexists _, _; split; reflexivity.
Qed.

Lemma catalogue_ids_snoc (ids : list string) (p : Property) :
  catalogue_ids ids → p ∈ PROPERTY_DATABASE → id p ∉ ids →
  catalogue_ids (ids ++ [id p]).
Proof.
  intros [Hnd Hsub] Hp Hnew. split.
  - apply NoDup_app. split; [done|]. split; [|apply NoDup_singleton].
    intros x Hx ->%list_elem_of_singleton. done.
  - intros x [Hx| ->%list_elem_of_singleton]%elem_of_app; [by apply Hsub|].
    by apply list_elem_of_fmap_2.
Qed.

End EstateSearch.

(** Unfolds a call of the real-estate agents down to its tool, the search
    apart. *)
Ltac unfold_estate_call :=
  unfold EstateScript.lift,
    RealEstate.update_name, RealEstate.update_phone, RealEstate.update_email,
    RealEstate.Greeter.to_property_finder,
    RealEstate.Greeter.to_viewing_scheduler,
    RealEstate.Greeter.to_mortgage_advisor,
    RealEstate.PropertyFinder.to_greeter,
    RealEstate.PropertyFinder.to_viewing_scheduler,
    RealEstate.ViewingScheduler.schedule_viewing,
    RealEstate.ViewingScheduler.to_greeter,
    RealEstate.ViewingScheduler.to_mortgage_advisor,
    RealEstate.MortgageAdvisor.prequalify_mortgage,
    RealEstate.MortgageAdvisor.to_greeter,
    RealEstate.MortgageAdvisor.to_property_finder,
    BaseAgent._transfer_to_agent;
  unfold_run.

(** Closes a goal that the bookings stay consistent over one tool. *)
Ltac solve_bookings :=
  unfold EstateScript.bookings_consistent; simpl;
  intros (?Hview & ?Hcontact & ?Hflag & ?Hfull);
  repeat match goal with
         | H : _ || _ = false |- _ => apply orb_false_elim in H as [? ?]
         end;
  repeat match goal with
         | H : negb (Voice.truthy_str ?o) = false |- _ =>
             destruct o; [clear H | discriminate H]
         end;
  intuition (eauto || discriminate).

Section EstateSessions.
Import ChatCtx Voice BaseAgent PyString RealEstate EstateScript EstateRuns.

(** What one call that returns leaves of the session. *)
Lemma estate_call_frame (estimate : Z → Z → Z → Z → option Z) (c : ToolCall)
    (s s' : Session UserData) (r : ToolResult) :
  run_call estimate c s = inr (r, s') →
  objects s' = objects s
  ∧ current_agent s' = current_agent s
  ∧ session_llm s' = session_llm s
  ∧ reply_requests s' = reply_requests s
  ∧ agents (userdata s') = agents (userdata s)
  ∧ (preferences_typed (property_preferences (userdata s)) →
     preferences_typed (property_preferences (userdata s')))
  ∧ (catalogue_ids (viewed_properties (userdata s)) →
     catalogue_ids (viewed_properties (userdata s')))
  ∧ (catalogue_ids (interested_properties (userdata s)) →
     catalogue_ids (interested_properties (userdata s')))
  ∧ (bookings_consistent (userdata s) → bookings_consistent (userdata s'))
  ∧ match r with
    | Narrated _ => prev_agent (userdata s') = prev_agent (userdata s)
    | Handoff next _ =>
        prev_agent (userdata s') = Some (current_agent s)
        ∧ ∃ name, agents (userdata s) !! name = Some next
    end.
Proof.
  destruct c; simpl.
  7: { (* update_property_preferences *)
    unfold lift. intros Hrun.
    destruct (PropertyFinder.update_property_preferences _ _ _ _ _ _ s)
      as [e|[r1 s1]] eqn:Hupd; [by destruct e|]. injection Hrun as <- <-.
    pose proof (update_property_preferences_typed _ _ _ _ _ _ _ _ _ Hupd)
      as Htyped.
    destruct (update_property_preferences_run min_price max_price
                min_bedrooms min_bathrooms property_type location s)
      as (s2 & Hrun2 & Hs2 & _).
    rewrite Hrun2 in Hupd. injection Hupd as <- <-.
    remember (property_preferences (userdata s2)) as P eqn:HP.
    rewrite Hs2 in HP |- *. clear Hs2 Hrun2.
    destruct s as [[] ? ? ? ?]. simpl in *.
    split_and!; done. }
  7: { (* search_properties *)
    intros (msg & viewed & -> & -> & _ & Hcat)%search_properties_frame.
    destruct s as [[] ? ? ? ?]. simpl in *. split_and!; done. }
  7: { (* express_interest *)
    unfold lift.
    destruct (express_interest_run property_address s)
      as (msg & interested & -> & Hint).
    intros [= <- <-].
    destruct (PropertyFinder.find_by_address property_address) as [p|] eqn:Hp;
      [|split_and!; done].
    case_bool_decide as Hin; [split_and!; done|].
    destruct s as [[] ? ? ? ?]. simpl in *. split_and!; try done.
    intros Hcat. rewrite Hint.
    apply catalogue_ids_snoc; [done| |done].
    by eapply find_by_address_catalogue. }
  all: unfold_estate_call; intros Hrun;
    destruct s as [[] ? ? ? ?]; simpl in Hrun;
    repeat (case_match; simplify_eq/=);
    split_and!; try done; eauto; solve_bookings.
Qed.

Lemma estate_agents_lookups :
  entrypoint_agents !! "greeter" = Some greeter_ref
  ∧ entrypoint_agents !! "propertyFinder" = Some property_finder_ref
  ∧ entrypoint_agents !! "viewingScheduler" = Some viewing_scheduler_ref
  ∧ entrypoint_agents !! "mortgageAdvisor" = Some mortgage_advisor_ref.
Proof. repeat split; vm_compute; reflexivity. Qed.

(** With the registry of [entrypoint] and typed preferences no call whose
    estimate returns raises. *)
Lemma estate_call_returns (estimate : Z → Z → Z → Z → option Z) (c : ToolCall)
    (s : Session UserData) :
  agents (userdata s) = entrypoint_agents →
  preferences_typed (property_preferences (userdata s)) →
  estimate_returns estimate c →
  ∃ r s', run_call estimate c s = inr (r, s').
Proof.
  destruct estate_agents_lookups as (Hg & Hf & Hv & Hm).
  intros Hagents Htyped Hest. destruct c; simpl; simpl in Hest.
  7: { unfold lift.
       destruct (update_property_preferences_run min_price max_price
                   min_bedrooms min_bathrooms property_type location s)
         as (s' & -> & _). eauto. }
  7: { unfold search_properties.
       destruct (matching_total _ Htyped) as (l & -> & _).
       destruct l; [eauto|].
       destruct (report _ _ _ _). eauto. }
  7: { unfold lift.
       destruct (express_interest_run property_address s)
         as (msg & interested & -> & _). eauto. }
  all: destruct s as [[] ? ? ? ?]; simpl in Hagents; subst;
    unfold_estate_call; simpl; rewrite ?Hg, ?Hf, ?Hv, ?Hm;
    repeat (case_match; simplify_eq/=); eauto.
  by destruct Hest.
Qed.

Lemma estate_registered_refs (name : string) (next : AgentRef) :
  entrypoint_agents !! name = Some next →
  is_Some (entrypoint_objects !! next).
Proof.
  revert name next. apply map_Forall_lookup.
  apply (bool_decide_unpack _). vm_compute. exact I.
Qed.

Lemma estate_is_Some_kinds (objects : gmap AgentRef Agent) (r : AgentRef) :
  SupportScript.agent_kinds objects
  = SupportScript.agent_kinds entrypoint_objects →
  is_Some (objects !! r) ↔ is_Some (entrypoint_objects !! r).
Proof.
  intros Hk. unfold SupportScript.agent_kinds in Hk.
  rewrite <- (fmap_is_Some (λ a, (class_name a, agent_llm a)) (objects !! r)).
  rewrite <- lookup_fmap, Hk, lookup_fmap. apply fmap_is_Some.
Qed.

(** The entry hook of the agent that has just become current keeps the
    shape. *)
Lemma estate_on_enter_shape (yaml_dump : PyValue → string) (new_id : string)
    (s : Session UserData) :
  agents (userdata s) = entrypoint_agents →
  SupportScript.agent_kinds (objects s)
  = SupportScript.agent_kinds entrypoint_objects →
  is_Some (objects s !! current_agent s) →
  (∀ r, prev_agent (userdata s) = Some r → is_Some (objects s !! r)) →
  preferences_typed (property_preferences (userdata s)) →
  catalogue_ids (viewed_properties (userdata s)) →
  catalogue_ids (interested_properties (userdata s)) →
  bookings_consistent (userdata s) →
  ∃ s',
    on_enter yaml_dump new_id (current_agent s) s = Some s'
    ∧ reachable_shape s'.
Proof.
  intros Hagents Hkinds [me Hme] Hprev Htyped Hviewed Hint Hbook.
  destruct (on_enter_items yaml_dump new_id (current_agent s) me s Hme)
    as (s' & Hrun & Hud & Hcur & _ & _ & Hobj).
  exists s'. split; [exact Hrun|]. unfold reachable_shape.
  rewrite Hud, Hcur, Hobj.
  split; [exact Hagents|].
  split; [by rewrite agent_kinds_update|].
  split; [rewrite lookup_insert_eq; eauto|].
  split; [|split_and!; assumption].
  intros r Hr. destruct (decide (current_agent s = r)) as [->|Hne].
  - rewrite lookup_insert_eq. eauto.
  - rewrite lookup_insert_ne by done. by apply Hprev.
Qed.

(** One call and what the driver does with its result keep the shape. *)
Lemma estate_step_shape (yaml_dump : PyValue → string)
    (estimate : Z → Z → Z → Z → option Z) (new_id : string) (c : ToolCall)
    (s s1 : Session UserData) (r : ToolResult) :
  reachable_shape s →
  run_call estimate c s = inr (r, s1) →
  ∃ s2, apply_tool_result yaml_dump new_id r s1 = Some s2
        ∧ reachable_shape s2.
Proof.
  intros Hs Hrun.
  destruct Hs
    as (Hagents & Hkinds & Hcur & Hprev & Htyped & Hviewed & Hint & Hbook).
  destruct (estate_call_frame estimate c s s1 r Hrun)
    as (Hobj & Hcur1 & _ & _ & Hagents1 & Htyped1 & Hviewed1 & Hint1
        & Hbook1 & Hr).
  destruct r as [msg|next msg]; simpl.
  - exists s1. split; [reflexivity|]. unfold reachable_shape.
    rewrite Hobj, Hcur1, Hagents1, Hr. split_and!; auto.
  - destruct Hr as (Hprev1 & name & Hname).
    rewrite Hagents in Hname.
    apply (estate_on_enter_shape yaml_dump new_id
             (set_current_agent next s1));
      simpl; try rewrite Hobj; try rewrite Hagents1; auto.
    + apply estate_is_Some_kinds; [done|].
      by eapply estate_registered_refs.
    + intros r. rewrite Hprev1. intros [= <-]. exact Hcur.
Qed.

(** A script whose estimates return runs to the end. *)
Lemma estate_script_shape (yaml_dump : PyValue → string)
    (estimate : Z → Z → Z → Z → option Z) (script : list (string * ToolCall)) :
  estimates_return estimate script →
  ∀ s, reachable_shape s →
       ∃ s', run_script yaml_dump estimate script s = Some s'
             ∧ reachable_shape s'.
Proof.
  induction script as [|[new_id c] script IH]; intros Hest s Hs; simpl;
    [eauto|].
  apply Forall_cons in Hest as [Hc Hest].
  destruct (estate_call_returns estimate c s) as (r & s1 & Hrun);
    [apply Hs | apply Hs | exact Hc |].
  rewrite Hrun.
  destruct (estate_step_shape yaml_dump estimate new_id c s s1 r Hs Hrun)
    as (s2 & -> & Hs2).
  simpl. by apply IH.
Qed.

(** Whatever the script, if it runs to the end the shape is kept. *)
Lemma estate_script_preserves (yaml_dump : PyValue → string)
    (estimate : Z → Z → Z → Z → option Z) (script : list (string * ToolCall)) :
  ∀ s s', reachable_shape s →
          run_script yaml_dump estimate script s = Some s' →
          reachable_shape s'.
Proof.
  induction script as [|[new_id c] script IH]; intros s s' Hs; simpl.
  - by intros [= <-].
  - destruct (run_call estimate c s) as [e|[r s1]] eqn:Hrun; [done|].
    destruct (estate_step_shape yaml_dump estimate new_id c s s1 r Hs Hrun)
      as (s2 & -> & Hs2).
    simpl. by apply IH.
Qed.

Lemma default_preferences_typed : preferences_typed default_preferences.
Proof.
  split; [done|]. split; intros key v Hkey Hv.
  - repeat (apply elem_of_cons in Hkey as [->|Hkey];
            [vm_compute in Hv; injection Hv as <-; by left|]).
    by apply elem_of_nil in Hkey.
  - repeat (apply elem_of_cons in Hkey as [->|Hkey];
            [vm_compute in Hv; injection Hv as <-; by left|]).
    by apply elem_of_nil in Hkey.
Qed.

(** The session [entrypoint] starts has the shape. *)
Lemma estate_entrypoint_shape (yaml_dump : PyValue → string)
    (first_id : string) :
  ∃ s0, entrypoint yaml_dump first_id = Some s0 ∧ reachable_shape s0.
Proof.
  unfold entrypoint.
  destruct (estate_on_enter_shape yaml_dump first_id entrypoint_session)
    as (s0 & Hrun & Hs0).
  - reflexivity.
  - reflexivity.
  - eexists. reflexivity.
  - intros r [=].
  - apply default_preferences_typed.
  - split; [constructor | intros x Hx; by apply elem_of_nil in Hx].
  - split; [constructor | intros x Hx; by apply elem_of_nil in Hx].
  - unfold bookings_consistent. simpl.
    pose proof (@is_Some_None string). pose proof (@is_Some_None Z).
    intuition discriminate.
  - change (current_agent entrypoint_session) with greeter_ref in Hrun.
    eauto.
Qed.

(** A script whose estimates return is run to the end by the session
    [entrypoint] starts, and has the shape. *)
Lemma estate_session_shape (yaml_dump : PyValue → string)
    (estimate : Z → Z → Z → Z → option Z) (first_id : string)
    (script : list (string * ToolCall)) :
  estimates_return estimate script →
  ∃ s,
    session_after yaml_dump estimate first_id script = Some s
    ∧ reachable_shape s.
Proof.
  intros Hest. unfold session_after.
  destruct (estate_entrypoint_shape yaml_dump first_id) as (s0 & -> & Hs0).
  simpl. by apply estate_script_shape.
Qed.

(** Whatever the script, a session it leaves has the shape. *)
Lemma estate_session_preserves (yaml_dump : PyValue → string)
    (estimate : Z → Z → Z → Z → option Z) (first_id : string)
    (script : list (string * ToolCall)) (s : Session UserData) :
  session_after yaml_dump estimate first_id script = Some s →
  reachable_shape s.
Proof.
  unfold session_after.
  destruct (estate_entrypoint_shape yaml_dump first_id) as (s0 & -> & Hs0).
  simpl. by apply estate_script_preserves.
Qed.

End EstateSessions.

Section EstateProperties.
Import ChatCtx Voice BaseAgent PyString RealEstate EstateScript EstateRuns.

Implicit Types (preferences : gmap string PyValue) (l : list Property).

(** X20. A sequence of calls in which no [prequalify_mortgage] has
    arguments that overflow its float computation is run to the end by
    the session [entrypoint] starts, whatever the calls, their other
    arguments and their order: no handoff raises, no entry hook lacks its
    agent, and the search never raises, because the preferences keep the
    six keys of the default with [None] or an [int] under the numeric
    ones and [None] or a [str] under the others. The registry and the
    agent objects stay those of [entrypoint]. *)
Theorem estate_script_never_fails (yaml_dump : PyValue → string)
    (estimate : Z → Z → Z → Z → option Z) (first_id : string)
    (script : list (string * ToolCall)) :
  estimates_return estimate script →
  ∃ s,
    session_after yaml_dump estimate first_id script = Some s
    ∧ agents (userdata s) = entrypoint_agents
    ∧ SupportScript.agent_kinds (objects s)
      = SupportScript.agent_kinds entrypoint_objects
    ∧ is_Some (objects s !! current_agent s)
    ∧ (∀ r, prev_agent (userdata s) = Some r → is_Some (objects s !! r))
    ∧ preferences_typed (property_preferences (userdata s)).
Proof.
  intros Hest.
  destruct (estate_session_shape yaml_dump estimate first_id script Hest)
    as (s & Hrun & Ha & Hk & Hc & Hp & Ht & _).
  exists s. split_and!; assumption.
Qed.

(** An estimate that overflows for an income of [10 ^ 400] and returns
    otherwise: a script with an ordinary income runs, and the search at
    its end answers. *)
Lemma estate_script_never_fails_witness :
  ∃ s msg,
    session_after Samples.words_dump
      (λ annual_income _ _ _,
         if 10 ^ 400 <=? annual_income then None else Some 350000) "sys_1"
      [ ("unused", update_name_call "Ada");
        ("unused", update_phone_call "555-0100");
        ("unused", update_email_call "ada@example.com");
        ("unused", prequalify_mortgage_call 90000 720 40000 500);
        ("sys_2", greeter_to_property_finder);
        ("unused", update_property_preferences_call
                     (Some 300000) None (Some 3) None (Some "condo") None);
        ("unused", search_properties_call) ] = Some s
    ∧ search_properties s = inr (Narrated msg, s)
    ∧ current_agent s = property_finder_ref
    ∧ prequalified_amount (userdata s) = Some 350000.
Proof.
  destruct (estate_script_never_fails Samples.words_dump
              (λ annual_income _ _ _,
                 if 10 ^ 400 <=? annual_income then None else Some 350000)
              "sys_1"
              [ ("unused", update_name_call "Ada");
                ("unused", update_phone_call "555-0100");
                ("unused", update_email_call "ada@example.com");
                ("unused", prequalify_mortgage_call 90000 720 40000 500);
                ("sys_2", greeter_to_property_finder);
                ("unused", update_property_preferences_call
                             (Some 300000) None (Some 3) None (Some "condo")
                             None);
                ("unused", search_properties_call) ])
    as (s & Hrun & _).
  { repeat constructor. by eexists. }
  exists s. eexists. split; [exact Hrun|].
  vm_compute in Hrun. injection Hrun as <-. split_and!; reflexivity.
Defined.

Lemma catalogue_ids_length (ids : list string) :
  catalogue_ids ids → (length ids ≤ 4)%nat.
Proof.
  intros [Hnd Hsub].
  change 4%nat with (length (id <$> PROPERTY_DATABASE)).
  apply submseteq_length, NoDup_submseteq; [done|]. exact Hsub.
Qed.

(** X21. After any sequence of calls the viewed and the interested
    properties hold ids of the catalogue only, each at most once, so
    neither list is ever longer than the catalogue. This holds of every
    session a sequence of calls leaves, and a sequence in which no
    [prequalify_mortgage] overflows its float computation leaves one. *)
Theorem estate_property_lists_from_catalogue (yaml_dump : PyValue → string)
    (estimate : Z → Z → Z → Z → option Z) (first_id : string)
    (script : list (string * ToolCall)) :
  (estimates_return estimate script →
   is_Some (session_after yaml_dump estimate first_id script))
  ∧ ∀ s,
      session_after yaml_dump estimate first_id script = Some s →
      NoDup (viewed_properties (userdata s))
      ∧ viewed_properties (userdata s) ⊆ id <$> PROPERTY_DATABASE
      ∧ NoDup (interested_properties (userdata s))
      ∧ interested_properties (userdata s) ⊆ id <$> PROPERTY_DATABASE
      ∧ (length (viewed_properties (userdata s)) ≤ 4)%nat
      ∧ (length (interested_properties (userdata s)) ≤ 4)%nat.
Proof.
  split.
  - intros Hest.
    destruct (estate_session_shape yaml_dump estimate first_id script Hest)
      as (s & -> & _). by eexists.
  - intros s Hrun.
    destruct (estate_session_preserves yaml_dump estimate first_id script s
                Hrun) as (_ & _ & _ & _ & _ & Hv & Hi & _).
    pose proof (catalogue_ids_length _ Hv).
    pose proof (catalogue_ids_length _ Hi).
    destruct Hv, Hi. split_and!; assumption.
Qed.

(** Two searches and interest shown twice in one property: each id is
    listed once. *)
Lemma estate_property_lists_from_catalogue_witness :
  ∃ s,
    session_after Samples.words_dump (λ _ _ _ _, None) "sys_1"
      [ ("sys_2", greeter_to_property_finder);
        ("unused", search_properties_call);
        ("unused", express_interest_call "456 Oak Avenue");
        ("unused", search_properties_call);
        ("unused", express_interest_call "456 oak avenue") ] = Some s
    ∧ viewed_properties (userdata s) = ["P001"; "P002"; "P003"; "P004"]
    ∧ interested_properties (userdata s) = ["P002"]
    ∧ NoDup (viewed_properties (userdata s))
    ∧ NoDup (interested_properties (userdata s)).
Proof.
  destruct (estate_property_lists_from_catalogue Samples.words_dump
              (λ _ _ _ _, None) "sys_1"
              [ ("sys_2", greeter_to_property_finder);
                ("unused", search_properties_call);
                ("unused", express_interest_call "456 Oak Avenue");
                ("unused", search_properties_call);
                ("unused", express_interest_call "456 oak avenue") ])
    as [Hruns Hinv].
  destruct Hruns as [s Hrun]; [repeat constructor|].
  exists s. split; [exact Hrun|].
  destruct (Hinv s Hrun) as (Hv & _ & Hi & _).
  vm_compute in Hrun. injection Hrun as <-.
  split_and!; [reflexivity | reflexivity | exact Hv | exact Hi].
Defined.

Lemma filter_by_other_key preferences key other v test l :
  key ≠ other →
  filter_by (<[other := v]> preferences) key test l
  = filter_by preferences key test l.
Proof. intros Hne. unfold filter_by. by rewrite lookup_insert_ne. Qed.

Lemma matching_without_location preferences v :
  matching (<["location" := v]> preferences) = matching preferences.
Proof.
  unfold matching.
  rewrite filter_by_other_key by done.
  destruct (filter_by preferences "min_price" _ _) as [?|l1]; [done|].
  rewrite filter_by_other_key by done.
  destruct (filter_by preferences "max_price" _ _) as [?|l2]; [done|].
  rewrite filter_by_other_key by done.
  destruct (filter_by preferences "min_bedrooms" _ _) as [?|l3]; [done|].
  rewrite filter_by_other_key by done.
  destruct (filter_by preferences "min_bathrooms" _ _) as [?|l4]; [done|].
  by rewrite filter_by_other_key.
Qed.

(** X22. The search does not read the [location] preference: whatever
    is stored under it, the search raises or answers alike, with the same
    text and the same viewed properties. *)
Theorem search_ignores_location (v : PyValue) (s : Session UserData) :
  search_properties
    (set_userdata
       (set_property_preferences
          (<["location" := v]> (property_preferences (userdata s)))
          (userdata s)) s)
  = match search_properties s with
    | inl e => inl e
    | inr (r, s') =>
        inr (r,
             set_userdata
               (set_property_preferences
                  (<["location" := v]> (property_preferences (userdata s')))
                  (userdata s')) s')
    end.
Proof.
  destruct s as [[] ? ? ? ?]. unfold search_properties. simpl.
  rewrite matching_without_location.
  repeat (case_match; simplify_eq/=); reflexivity.
Qed.

Lemma report_from l : ∀ i result viewed x,
  x ∈ (report i l result viewed).2 → x ∈ viewed ∨ x ∈ id <$> l.
Proof.
  induction l as [|prop l IH]; intros i result viewed x; simpl; [auto|].
  intros [Hx|Hx]%IH; [|set_solver].
  case_bool_decide; [auto|]. set_solver.
Qed.

Lemma int_ge_true (n z : Z) : int_ge n (PyInt z) = inr true → z ≤ n.
Proof. simpl. intros [= H]. lia. Qed.

Lemma int_le_true (n z : Z) : int_le n (PyInt z) = inr true → n ≤ z.
Proof. simpl. intros [= H]. lia. Qed.

(** X23. Every property a search adds to the viewed ones is in the
    catalogue and meets each preference that is set: its price is at
    least a non-zero minimum and at most a non-zero maximum, it has at
    least the non-zero minimum of bedrooms and of bathrooms, and its type
    is the non-empty type asked for, case apart. *)
Theorem search_results_meet_preferences (s s' : Session UserData)
    (r : ToolResult) (pid : string) :
  search_properties s = inr (r, s') →
  pid ∈ viewed_properties (userdata s') →
  pid ∈ viewed_properties (userdata s)
  ∨ ∃ p,
      p ∈ PROPERTY_DATABASE ∧ id p = pid
      ∧ (∀ z, property_preferences (userdata s) !! "min_price"
              = Some (PyInt z) → z ≠ 0 → z ≤ price p)
      ∧ (∀ z, property_preferences (userdata s) !! "max_price"
              = Some (PyInt z) → z ≠ 0 → price p ≤ z)
      ∧ (∀ z, property_preferences (userdata s) !! "min_bedrooms"
              = Some (PyInt z) → z ≠ 0 → z ≤ bedrooms p)
      ∧ (∀ z, property_preferences (userdata s) !! "min_bathrooms"
              = Some (PyInt z) → z ≠ 0 → z ≤ bathrooms p)
      ∧ (∀ t, property_preferences (userdata s) !! "property_type"
              = Some (PyStr t) → t ≠ "" → lower (type p) = lower t).
Proof.
  unfold search_properties.
  set (preferences := property_preferences (userdata s)).
  destruct (matching preferences) as [e|l] eqn:Hm; [done|].
  assert (Hl : ∀ p, p ∈ l →
            p ∈ PROPERTY_DATABASE
            ∧ (∀ z, preferences !! "min_price" = Some (PyInt z) →
                    z ≠ 0 → z ≤ price p)
            ∧ (∀ z, preferences !! "max_price" = Some (PyInt z) →
                    z ≠ 0 → price p ≤ z)
            ∧ (∀ z, preferences !! "min_bedrooms" = Some (PyInt z) →
                    z ≠ 0 → z ≤ bedrooms p)
            ∧ (∀ z, preferences !! "min_bathrooms" = Some (PyInt z) →
                    z ≠ 0 → z ≤ bathrooms p)
            ∧ (∀ t, preferences !! "property_type" = Some (PyStr t) →
                    t ≠ "" → lower (type p) = lower t)).
  { unfold matching in Hm.
    destruct (filter_by preferences "min_price" _ _) as [?|l1] eqn:H1; [done|].
    destruct (filter_by preferences "max_price" _ _) as [?|l2] eqn:H2; [done|].
    destruct (filter_by preferences "min_bedrooms" _ _) as [?|l3] eqn:H3;
      [done|].
    destruct (filter_by preferences "min_bathrooms" _ _) as [?|l4] eqn:H4;
      [done|].
    apply filter_by_kept in H1 as (S1 & v1 & K1 & T1).
    apply filter_by_kept in H2 as (S2 & v2 & K2 & T2).
    apply filter_by_kept in H3 as (S3 & v3 & K3 & T3).
    apply filter_by_kept in H4 as (S4 & v4 & K4 & T4).
    apply filter_by_kept in Hm as (S5 & v5 & K5 & T5).
    intros p Hp.
    assert (P4 : p ∈ l4) by (by apply (sublist_subseteq _ _ S5)).
    assert (P3 : p ∈ l3) by (by apply (sublist_subseteq _ _ S4)).
    assert (P2 : p ∈ l2) by (by apply (sublist_subseteq _ _ S3)).
    assert (P1 : p ∈ l1) by (by apply (sublist_subseteq _ _ S2)).
    split; [by apply (sublist_subseteq _ _ S1)|].
    split_and!.
    - intros z Hz Hne. rewrite K1 in Hz. injection Hz as ->.
      apply int_ge_true, T1; [|done]. simpl. by apply negb_true_iff, Z.eqb_neq.
    - intros z Hz Hne. rewrite K2 in Hz. injection Hz as ->.
      apply int_le_true, T2; [|done]. simpl. by apply negb_true_iff, Z.eqb_neq.
    - intros z Hz Hne. rewrite K3 in Hz. injection Hz as ->.
      apply int_ge_true, T3; [|done]. simpl. by apply negb_true_iff, Z.eqb_neq.
    - intros z Hz Hne. rewrite K4 in Hz. injection Hz as ->.
      apply int_ge_true, T4; [|done]. simpl. by apply negb_true_iff, Z.eqb_neq.
    - intros t Hz Hne. rewrite K5 in Hz. injection Hz as ->.
      assert (Ht : lower_eq (type p) (PyStr t) = inr true).
      { apply T5; [|done]. simpl. by rewrite bool_decide_eq_false_2. }
      simpl in Ht. injection Ht as Ht. by apply bool_decide_eq_true_1 in Ht. }
  destruct l as [|p0 l0]; [intros [= <- <-]; auto|].
  destruct (report 1 (p0 :: l0) _ (viewed_properties (userdata s)))
    as [result viewed] eqn:Hrep.
  intros [= <- <-]. simpl. intros Hpid.
  assert (Hfrom := report_from (p0 :: l0) 1
            ("I found " +:+ pretty (length (p0 :: l0))
             +:+ " properties matching your criteria:" +:+ newline +:+ newline)
            (viewed_properties (userdata s)) pid).
  rewrite Hrep in Hfrom. destruct (Hfrom Hpid) as [?|Hnew]; [by left|].
  right. apply list_elem_of_fmap in Hnew as (p & -> & Hp).
  exists p. destruct (Hl p Hp) as [Hdb Hrest].
  exact (conj Hdb (conj eq_refl Hrest)).
Qed.

(** A search that starts with a maximum price of 300000 and a viewed
    list of one adds the one property under it. *)
Lemma search_results_meet_preferences_witness :
  ∃ r s',
    search_properties
      (set_userdata
         (set_viewed_properties ["P004"]
            (set_property_preferences
               (<["max_price" := PyInt 300000]> default_preferences)
               entrypoint_userdata))
         entrypoint_session) = inr (r, s')
    ∧ viewed_properties (userdata s') = ["P004"; "P002"]
    ∧ ("P002" ∈ ["P004"]
       ∨ ∃ p, p ∈ PROPERTY_DATABASE ∧ id p = "P002" ∧ price p ≤ 300000).
Proof.
  destruct (search_properties
              (set_userdata
                 (set_viewed_properties ["P004"]
                    (set_property_preferences
                       (<["max_price" := PyInt 300000]> default_preferences)
                       entrypoint_userdata))
                 entrypoint_session)) as [e|[r s']] eqn:Hrun;
    [by vm_compute in Hrun|].
  exists r, s'. split; [reflexivity|].
  assert (Hviewed : viewed_properties (userdata s') = ["P004"; "P002"]).
  { vm_compute in Hrun. by injection Hrun as <- <-. }
  split; [exact Hviewed|].
  destruct (search_results_meet_preferences _ _ _ "P002" Hrun)
    as [Hold|(p & Hp & Hid & _ & Hmax & _)].
  - rewrite Hviewed. set_solver.
  - left. exact Hold.
  - right. exists p. split_and!; [done..|].
    apply Hmax; [vm_compute; reflexivity | done].
Defined.

Lemma report_text l : ∀ i result viewed viewed',
  (report i l result viewed).1 = (report i l result viewed').1.
Proof.
  induction l as [|prop l IH]; intros i result viewed viewed'; simpl; [done|].
  apply IH.
Qed.

Lemma report_all_viewed l : ∀ i result viewed,
  (∀ p, p ∈ l → id p ∈ viewed) → (report i l result viewed).2 = viewed.
Proof.
  induction l as [|prop l IH]; intros i result viewed Hall; simpl; [done|].
  rewrite bool_decide_eq_true_2 by (apply Hall; set_solver).
  apply IH. intros p Hp. apply Hall. set_solver.
Qed.

Lemma report_covers l : ∀ i result viewed p,
  p ∈ l → id p ∈ (report i l result viewed).2.
Proof.
  induction l as [|prop l IH]; intros i result viewed p Hp; simpl.
  - by apply elem_of_nil in Hp.
  - apply elem_of_cons in Hp as [->|Hp]; [|by apply IH].
    destruct (report_prefix l (S i) (result +:+ describe i prop)
                (if bool_decide (id prop ∈ viewed) then viewed
                 else viewed ++ [id prop])) as [k ->].
    apply elem_of_app. left. case_bool_decide; [done | set_solver].
Qed.

(** X24. Searching again right after a search that returned gives the
    same answer and changes nothing: every property it finds is already
    among the viewed ones. *)
Theorem search_again_changes_nothing (s s' : Session UserData)
    (r : ToolResult) :
  search_properties s = inr (r, s') →
  search_properties s' = inr (r, s').
Proof.
  unfold search_properties.
  destruct (matching (property_preferences (userdata s))) as [e|l] eqn:Hm;
    [done|].
  destruct l as [|p0 l0]; [intros [= <- <-]; by rewrite Hm|].
  set (l := p0 :: l0) in *.
  set (result := "I found " +:+ pretty (length l)
                 +:+ " properties matching your criteria:" +:+ newline
                 +:+ newline).
  destruct (report 1 l result (viewed_properties (userdata s)))
    as [text viewed] eqn:Hrep.
  intros [= <- <-]. simpl.
  replace (property_preferences
             (set_viewed_properties viewed (userdata s)))
    with (property_preferences (userdata s)) by reflexivity.
  rewrite Hm. unfold l at 1. fold l. fold result.
  change (viewed_properties (set_viewed_properties viewed (userdata s)))
    with viewed.
  assert (Htext : (report 1 l result viewed).1 = text).
  { rewrite (report_text l 1 result viewed (viewed_properties (userdata s))).
    by rewrite Hrep. }
  assert (Hviewed : (report 1 l result viewed).2 = viewed).
  { apply report_all_viewed. intros p Hp.
    pose proof (report_covers l 1 result (viewed_properties (userdata s)) p Hp)
      as Hin.
    by rewrite Hrep in Hin. }
  destruct (report 1 l result viewed) as [text' viewed'].
  simpl in Htext, Hviewed. subst. reflexivity.
Qed.

Lemma search_again_changes_nothing_witness :
  ∃ r s',
    search_properties
      (set_userdata
         (set_property_preferences
            (<["min_bedrooms" := PyInt 4]> default_preferences)
            entrypoint_userdata)
         entrypoint_session) = inr (r, s')
    ∧ viewed_properties (userdata s') = ["P003"; "P004"]
    ∧ search_properties s' = inr (r, s').
Proof.
  eexists _, _. split; [vm_compute; reflexivity|].
  split; [reflexivity|].
  apply (search_again_changes_nothing
           (set_userdata
              (set_property_preferences
                 (<["min_bedrooms" := PyInt 4]> default_preferences)
                 entrypoint_userdata)
              entrypoint_session)).
  vm_compute. reflexivity.
Defined.

Lemma find_by_address_lower (property_address other : string) :
  lower other = lower property_address →
  PropertyFinder.find_by_address other
  = PropertyFinder.find_by_address property_address.
Proof. unfold PropertyFinder.find_by_address. by intros ->. Qed.

(** What [express_interest] leaves of the session, and what it records. *)
Lemma express_interest_records (property_address : string)
    (s : Session UserData) :
  ∃ msg s',
    PropertyFinder.express_interest property_address s
    = inr (Narrated msg, s')
    ∧ agents (userdata s') = agents (userdata s)
    ∧ current_agent s' = current_agent s
    ∧ (∀ p, PropertyFinder.find_by_address property_address = Some p →
            id p ∈ interested_properties (userdata s')).
Proof.
  destruct (express_interest_run property_address s)
    as (msg & interested & Hrun & Hint).
  eexists _, _. split; [exact Hrun|].
  destruct (PropertyFinder.find_by_address property_address) as [p|];
    [|done].
  case_bool_decide as Hin.
  - split_and!; [done..|]. by intros ? [= <-].
  - destruct s as [[] ? ? ? ?]. simpl in *. split_and!; [done..|].
    intros ? [= <-]. rewrite Hint. set_solver.
Qed.

(** X25. Interest in a property is recorded once: after
    [express_interest], a second call for the same address, in whatever
    case it is written, changes nothing, and a property of the catalogue
    that was named is among the interested ones. *)
Theorem express_interest_recorded_once (property_address other : string)
    (s : Session UserData) :
  lower other = lower property_address →
  ∃ msg msg' s',
    PropertyFinder.express_interest property_address s
    = inr (Narrated msg, s')
    ∧ PropertyFinder.express_interest other s' = inr (Narrated msg', s')
    ∧ (∀ p, PropertyFinder.find_by_address property_address = Some p →
            id p ∈ interested_properties (userdata s')).
Proof.
  intros Hsame%find_by_address_lower.
  destruct (express_interest_run property_address s)
    as (msg & interested & Hrun & Hint).
  destruct (PropertyFinder.find_by_address property_address) as [p|] eqn:Hp.
  - case_bool_decide as Hin.
    + destruct (express_interest_run other s) as (msg' & ? & Hrun' & _).
      rewrite Hsame, bool_decide_eq_true_2 in Hrun' by done.
      exists msg, msg', s. split_and!; [done..|]. by intros ? [= <-].
    + set (s' := set_userdata
                   (set_interested_properties interested (userdata s)) s)
        in *.
      assert (Hin' : id p ∈ interested_properties (userdata s')).
      { simpl. rewrite Hint. set_solver. }
      destruct (express_interest_run other s') as (msg' & ? & Hrun' & _).
      rewrite Hsame, bool_decide_eq_true_2 in Hrun' by done.
      exists msg, msg', s'. split_and!; [done..|]. by intros ? [= <-].
  - destruct (express_interest_run other s) as (msg' & ? & Hrun' & _).
    rewrite Hsame in Hrun'.
    exists msg, msg', s. split_and!; done.
Qed.

Lemma express_interest_recorded_once_witness :
  ∃ msg msg' s',
    PropertyFinder.express_interest "456 Oak Avenue" entrypoint_session
    = inr (Narrated msg, s')
    ∧ PropertyFinder.express_interest "456 OAK avenue" s'
      = inr (Narrated msg', s')
    ∧ interested_properties (userdata s') = ["P002"].
Proof.
  destruct (express_interest_recorded_once "456 Oak Avenue" "456 OAK avenue"
              entrypoint_session eq_refl)
    as (msg & msg' & s' & Hrun & Hrun' & _).
  exists msg, msg', s'. split_and!; [done..|].
  vm_compute in Hrun. by injection Hrun as <- <-.
Defined.

(** X26. [update_property_preferences] changes the preferences and
    nothing else, and of the preferences each of the six keys by its own
    argument alone: a key whose argument is truthy holds the argument
    afterwards, a key whose argument is [None], [0] or the empty string
    and every other key keeps what it held. *)
Theorem update_property_preferences_by_key
    (min_price max_price min_bedrooms min_bathrooms : option Z)
    (property_type location : option string) (s : Session UserData) :
  ∃ s',
    PropertyFinder.update_property_preferences min_price max_price
      min_bedrooms min_bathrooms property_type location s
    = inr (Narrated "I've updated your property preferences. Now I can search for properties that match your criteria.", s')
    ∧ s' = set_userdata
             (set_property_preferences
                (property_preferences (userdata s')) (userdata s)) s
    ∧ property_preferences (userdata s') !! "min_price"
      = (if truthy_int min_price then Some (opt_int min_price)
         else property_preferences (userdata s) !! "min_price")
    ∧ property_preferences (userdata s') !! "max_price"
      = (if truthy_int max_price then Some (opt_int max_price)
         else property_preferences (userdata s) !! "max_price")
    ∧ property_preferences (userdata s') !! "min_bedrooms"
      = (if truthy_int min_bedrooms then Some (opt_int min_bedrooms)
         else property_preferences (userdata s) !! "min_bedrooms")
    ∧ property_preferences (userdata s') !! "min_bathrooms"
      = (if truthy_int min_bathrooms then Some (opt_int min_bathrooms)
         else property_preferences (userdata s) !! "min_bathrooms")
    ∧ property_preferences (userdata s') !! "property_type"
      = (if truthy_str property_type then Some (opt_str property_type)
         else property_preferences (userdata s) !! "property_type")
    ∧ property_preferences (userdata s') !! "location"
      = (if truthy_str location then Some (opt_str location)
         else property_preferences (userdata s) !! "location")
    ∧ (∀ key,
         key ∉ ["min_price"; "max_price"; "min_bedrooms"; "min_bathrooms";
                "property_type"; "location"] →
         property_preferences (userdata s') !! key
         = property_preferences (userdata s) !! key).
Proof.
  destruct (update_property_preferences_run min_price max_price min_bedrooms
              min_bathrooms property_type location s)
    as (s' & Hrun & Hs' & Hprefs).
  exists s'. split; [exact Hrun|]. split; [exact Hs'|].
  rewrite Hprefs. clear.
  destruct (truthy_int min_price), (truthy_int max_price),
    (truthy_int min_bedrooms), (truthy_int min_bathrooms),
    (truthy_str property_type), (truthy_str location);
    split_and!;
    try (intros key Hkey; repeat rewrite lookup_insert_ne by set_solver);
    repeat (rewrite lookup_insert_eq || rewrite lookup_insert_ne by done);
    reflexivity.
Qed.

(** X27. Naming a property of the catalogue is what opens the way to the
    viewing scheduler: with the registry of [entrypoint],
    [express_interest] for an address of the catalogue followed by
    [to_viewing_scheduler] hands off to the viewing scheduler, whatever
    the interested properties were before. *)
Theorem interest_opens_viewing_scheduler (property_address : string)
    (p : Property) (s : Session UserData) :
  agents (userdata s) = entrypoint_agents →
  PropertyFinder.find_by_address property_address = Some p →
  ∃ msg s1 s2,
    PropertyFinder.express_interest property_address s
    = inr (Narrated msg, s1)
    ∧ PropertyFinder.to_viewing_scheduler s1
      = inr (Handoff viewing_scheduler_ref
               "Transferring to viewingScheduler.", s2)
    ∧ prev_agent (userdata s2) = Some (current_agent s)
    ∧ id p ∈ interested_properties (userdata s2).
Proof.
  intros Hagents Hp.
  destruct (express_interest_records property_address s)
    as (msg & s1 & Hrun & Hagents1 & Hcur1 & Hin).
  specialize (Hin p Hp). rewrite Hagents in Hagents1.
  exists msg, s1. eexists. split; [exact Hrun|].
  unfold PropertyFinder.to_viewing_scheduler, _transfer_to_agent.
  unfold_run.
  rewrite bool_decide_eq_true_2
    by (intros Hnil; rewrite Hnil in Hin; by apply elem_of_nil in Hin).
  simpl. rewrite Hagents1, Hcur1.
  destruct estate_agents_lookups as (_ & _ & -> & _).
  split; [reflexivity|]. split; [reflexivity|].
  by destruct s1 as [[] ? ? ? ?].
Qed.

Lemma interest_opens_viewing_scheduler_witness :
  ∃ msg s1 s2,
    PropertyFinder.express_interest "789 pine road" entrypoint_session
    = inr (Narrated msg, s1)
    ∧ PropertyFinder.to_viewing_scheduler s1
      = inr (Handoff viewing_scheduler_ref
               "Transferring to viewingScheduler.", s2)
    ∧ prev_agent (userdata s2) = Some greeter_ref
    ∧ "P003" ∈ interested_properties (userdata s2).
Proof.
  apply (interest_opens_viewing_scheduler "789 pine road"
           {| id := "P003"; address := "789 Pine Road"; price := 425000;
              bedrooms := 4; bathrooms := 3; sqft := 2400;
              type := "Single Family Home";
              description := "Spacious family home in a quiet neighborhood with a two-car garage, finished basement, and newly renovated bathrooms." |}
           entrypoint_session); reflexivity.
Defined.

(** X28. After any sequence of calls a viewing or a pre-qualification on
    file has what its tool asked for: date and time of a viewing are set
    together and only with name and phone recorded, the pre-qualified
    flag is up exactly when an amount is stored, and only with name, phone
    and email recorded. This holds of every session a sequence of calls
    leaves, and a sequence in which no [prequalify_mortgage] overflows its
    float computation leaves one. *)
Theorem estate_bookings_have_contact (yaml_dump : PyValue → string)
    (estimate : Z → Z → Z → Z → option Z) (first_id : string)
    (script : list (string * ToolCall)) :
  (estimates_return estimate script →
   is_Some (session_after yaml_dump estimate first_id script))
  ∧ ∀ s,
      session_after yaml_dump estimate first_id script = Some s →
      (is_Some (viewing_date (userdata s))
       ↔ is_Some (viewing_time (userdata s)))
      ∧ (is_Some (viewing_date (userdata s)) →
         is_Some (customer_name (userdata s))
         ∧ is_Some (customer_phone (userdata s)))
      ∧ (prequalified (userdata s) = true
         ↔ is_Some (prequalified_amount (userdata s)))
      ∧ (prequalified (userdata s) = true →
         is_Some (customer_name (userdata s))
         ∧ is_Some (customer_phone (userdata s))
         ∧ is_Some (customer_email (userdata s))).
Proof.
  split.
  - intros Hest.
    destruct (estate_session_shape yaml_dump estimate first_id script Hest)
      as (s & -> & _). by eexists.
  - intros s Hrun.
    destruct (estate_session_preserves yaml_dump estimate first_id script s
                Hrun) as (_ & _ & _ & _ & _ & _ & _ & Hbook).
    exact Hbook.
Qed.

(** A viewing asked for before the phone number is known is not
    scheduled; asked for again with name and phone recorded, it is. *)
Lemma estate_bookings_have_contact_witness :
  ∃ s,
    session_after Samples.words_dump (λ _ _ _ _, Some 350000) "sys_1"
      [ ("unused", update_name_call "Ada");
        ("sys_2", greeter_to_viewing_scheduler);
        ("unused", schedule_viewing_call "123 main street" "Friday" "10am");
        ("unused", update_phone_call "555-0100");
        ("unused", schedule_viewing_call "123 main street" "Monday" "2pm") ]
    = Some s
    ∧ viewing_date (userdata s) = Some "Monday"
    ∧ viewing_time (userdata s) = Some "2pm"
    ∧ is_Some (customer_name (userdata s))
    ∧ is_Some (customer_phone (userdata s)).
Proof.
  destruct (estate_bookings_have_contact Samples.words_dump
              (λ _ _ _ _, Some 350000) "sys_1"
              [ ("unused", update_name_call "Ada");
                ("sys_2", greeter_to_viewing_scheduler);
                ("unused",
                 schedule_viewing_call "123 main street" "Friday" "10am");
                ("unused", update_phone_call "555-0100");
                ("unused",
                 schedule_viewing_call "123 main street" "Monday" "2pm") ])
    as [Hruns Hinv].
  destruct Hruns as [s Hrun]; [repeat constructor|].
  exists s. split; [exact Hrun|].
  destruct (Hinv s Hrun) as (_ & Hcontact & _).
  assert (Hdate : viewing_date (userdata s) = Some "Monday"
                  ∧ viewing_time (userdata s) = Some "2pm").
  { vm_compute in Hrun. by injection Hrun as <-. }
  destruct Hdate as [Hdate Htime].
  split; [exact Hdate|]. split; [exact Htime|].
  apply Hcontact. rewrite Hdate. by eexists.
Defined.

End EstateProperties.

